(** * Buscar_BOE: extraction, classification, rendering and orchestration

    A shallow embedding of the document pipeline of the repository:
    - [boe_digest.py]: [obtener_sumario_boe], [extraer_documentos],
      [clasificar_por_tema], [generar_resumen_html], [enviar_email_digest],
      [generar_digest_completo];
    - [app.py]: [_extract_sumario_entries];
    - [pages/2_Chat_BOE.py]: [extraer_documentos_sumario].

    Python values are modelled as the code has them: decoded JSON as a tagged
    tree, a [dict] as an association list in insertion order (iteration order
    is observable in this program), [int] as [Z], exceptions as an error
    result.  Python built-ins whose behaviour depends on Unicode tables, the
    locale or the outside world ([str.lower], [str.title], [repr],
    [strptime]/[strftime], the HTTP request, the SMTP session) are Section
    variables: every theorem holds for whatever they compute. *)

From Stdlib Require Import String Ascii List ZArith Floats Bool Lia Permutation.
From Stdlib Require Import DecimalString.
Import ListNotations.

#[local] Open Scope string_scope.
#[local] Open Scope list_scope.

(* ================================================================== *)
(** ** Exceptions and the error result *)
(* ================================================================== *)

Inductive excepcion : Type :=
| KeyError (clave : string)
| TypeError
| ValueError.

Inductive res (A : Type) : Type :=
| Ok (a : A)
| Raise (e : excepcion).

Arguments Ok {A} a.
Arguments Raise {A} e.

Definition res_bind {A B : Type} (m : res A) (k : A -> res B) : res B :=
  match m with
  | Ok a => k a
  | Raise e => Raise e
  end.

Notation "x <- m ;; k" := (res_bind m (fun x => k))
  (at level 61, m at next level, right associativity).

(* ================================================================== *)
(** ** Strings *)
(* ================================================================== *)

(** The double quote character, for the HTML text. *)
Definition q : string := String "034"%char EmptyString.

(** [s.startswith(pre)] *)
Definition startswith (pre s : string) : bool := String.prefix pre s.

(** [sub in s] on [str]: [sub] occurs somewhere in [s].  Strings are byte
    strings holding UTF-8; since UTF-8 is self-synchronising, a byte-level
    occurrence of a well-formed needle is a code-point-level occurrence. *)
Fixpoint contiene (sub s : string) : bool :=
  String.prefix sub s ||
  match s with
  | EmptyString => false
  | String _ s' => contiene sub s'
  end.

(** [s.replace("_", " ")] *)
Fixpoint replace_guion (s : string) : string :=
  match s with
  | EmptyString => EmptyString
  | String c s' =>
      String (if Ascii.eqb c "_"%char then " "%char else c) (replace_guion s')
  end.

(** [str(n)] for an [int]. *)
Definition str_int (n : Z) : string := NilZero.string_of_int (Z.to_int n).

(* ================================================================== *)
(** ** Python dict: association list in insertion order *)
(* ================================================================== *)

Definition dict (V : Type) : Type := list (string * V).

Section Dict.
Context {V : Type}.

(** [d.get(k)] *)
Fixpoint dict_get (k : string) (d : dict V) : option V :=
  match d with
  | [] => None
  | (k', v) :: r => if String.eqb k' k then Some v else dict_get k r
  end.

(** [k in d] *)
Definition dict_has (k : string) (d : dict V) : bool :=
  existsb (fun kv => String.eqb (fst kv) k) d.

(** [d[k]] *)
Definition dict_getitem (k : string) (d : dict V) : res V :=
  match dict_get k d with
  | Some v => Ok v
  | None => Raise (KeyError k)
  end.

(** [d[k] = v]: an existing key keeps its position, a new one goes last. *)
Fixpoint dict_set (k : string) (v : V) (d : dict V) : dict V :=
  match d with
  | [] => [(k, v)]
  | (k', v') :: r =>
      if String.eqb k' k then (k', v) :: r else (k', v') :: dict_set k v r
  end.

Definition dict_keys (d : dict V) : list string := map fst d.
Definition dict_values (d : dict V) : list V := map snd d.
End Dict.

(* ================================================================== *)
(** ** Decoded JSON *)
(* ================================================================== *)

(** Values of [response.json()]; the induction principle is stated below. *)
#[local] Unset Elimination Schemes.
Inductive json : Type :=
| JNull
| JBool (b : bool)
| JInt (n : Z)
| JFloat (f : float)
| JStr (s : string)
| JList (l : list json)
| JDict (d : dict json).
#[local] Set Elimination Schemes.

(** Truth value of a Python object ([if x], [x or y], [not x]). *)
Definition truthy (x : json) : bool :=
  match x with
  | JNull => false
  | JBool b => b
  | JInt n => negb (Z.eqb n 0)
  | JFloat f => negb (PrimFloat.eqb f 0%float)
  | JStr s => negb (String.eqb s "")
  | JList l => match l with [] => false | _ => true end
  | JDict d => match d with [] => false | _ => true end
  end.

(** [a or b] *)
Definition py_or (a b : json) : json := if truthy a then a else b.

(** [obj.get(k, default)] *)
Definition get_or (k : string) (default : json) (obj : dict json) : json :=
  match dict_get k obj with
  | Some v => v
  | None => default
  end.

(** [obj.get(k)] *)
Definition get_none (k : string) (obj : dict json) : json := get_or k JNull obj.

(** [isinstance(x, str)] *)
Definition es_str (x : json) : bool :=
  match x with JStr _ => true | _ => false end.

(** ["error" in x]: key membership on a dict, element membership on a list,
    substring on a str, [TypeError] on anything else. *)
Definition py_in (s : string) (x : json) : res bool :=
  match x with
  | JDict d => Ok (dict_has s d)
  | JList l =>
      Ok (existsb (fun i => match i with JStr t => String.eqb s t | _ => false end) l)
  | JStr t => Ok (contiene s t)
  | _ => Raise TypeError
  end.

(** [l[:limit]] with Python's slice rule for a negative bound. *)
Definition slice_hasta {A : Type} (limit : Z) (l : list A) : list A :=
  if (limit <? 0)%Z
  then firstn (length l - Z.to_nat (- limit)) l
  else firstn (Z.to_nat limit) l.

(** *** The nodes of a tree, in depth-first encounter order

    A node comes before its children; the values of a mapping are visited in
    insertion order, the items of a sequence in order. *)
Fixpoint nodos (x : json) : list json :=
  x :: match x with
       | JDict d => flat_map (fun kv => nodos (snd kv)) d
       | JList l => flat_map nodos l
       | _ => []
       end.

(** The mapping nodes accepted by [p], each turned into a record by [f], in
    encounter order. *)
Definition seleccion {A : Type} (p : dict json -> bool) (f : dict json -> A)
    (x : json) : list A :=
  flat_map (fun n => match n with
                     | JDict d => if p d then [f d] else []
                     | _ => []
                     end) (nodos x).

(* ================================================================== *)
(** ** The program *)
(* ================================================================== *)

(** What [requests.get(...)], [raise_for_status()] and [response.json()]
    yield together: the decoded body, or the exception one of them raised. *)
Inductive respuesta : Type :=
| Cuerpo (j : json)
| Excepcion (tipo mensaje : string).

Definition BOE_BASE : string := "https://boe.es/datosabiertos/api".

(** The topic table, in declaration order. *)
Definition TEMAS_BOE : dict (list string) :=
  [ ("economía", ["impuesto"; "fiscal"; "tribut"; "económ"; "financ"; "banco"; "comercio"; "empresa"]);
    ("empleo", ["laboral"; "trabajo"; "empleo"; "salarial"; "pension"; "seguridad social"; "contrato"]);
    ("educación", ["educación"; "educativo"; "universidad"; "escolar"; "formación"; "docente"]);
    ("sanidad", ["salud"; "sanit"; "médic"; "hospital"; "farmac"; "medicamento"; "epidem"]);
    ("justicia", ["penal"; "procesal"; "judicial"; "tribunal"; "sentencia"; "delito"; "código"]);
    ("medio_ambiente", ["ambient"; "ecolog"; "clima"; "sostenib"; "residuo"; "contamin"; "energ"]);
    ("vivienda", ["vivienda"; "alquiler"; "inmobiliar"; "hipoteca"; "arrendamiento"; "edificación"]);
    ("transporte", ["transport"; "tráfico"; "circulación"; "vehículo"; "carretera"; "ferrocarril"]);
    ("administración", ["administr"; "público"; "funcionario"; "oposición"; "concurso"; "nombramiento"]) ].

(** A document as the classifier and the renderer receive it: a [dict]. *)
Definition documento : Type := dict json.

(** A classification: topic name to the documents assigned to it. *)
Definition clasificacion_t : Type := dict (list documento).

(* ------------------------------------------------------------------ *)
(** *** boe_digest.py: [extraer_documentos] *)

(** ["titulo" in obj and any(k.startswith("url") for k in obj.keys())] *)
Definition es_documento (obj : dict json) : bool :=
  dict_has "titulo" obj && existsb (startswith "url") (dict_keys obj).

Definition documento_de (obj : dict json) : documento :=
  [ ("titulo", get_or "titulo" (JStr "Sin título") obj);
    ("seccion", get_or "seccion" (JStr "") obj);
    ("departamento", get_or "departamento" (JStr "") obj);
    ("rango", get_or "rango" (JStr "") obj);
    ("url_pdf", get_or "urlPdf" (JStr "") obj);
    ("url_html", get_or "urlHtml" (JStr "") obj);
    ("url_xml", get_or "urlXml" (JStr "") obj) ].

(** The inner function; [documentos] is the list it appends to. *)
Fixpoint buscar_recursivo (obj : json) (documentos : list documento) : list documento :=
  match obj with
  | JDict d =>
      fold_left (fun docs kv => buscar_recursivo (snd kv) docs) d
        (if es_documento d then documentos ++ [documento_de d] else documentos)
  | JList l => fold_left (fun docs item => buscar_recursivo item docs) l documentos
  | _ => documentos
  end.

Definition extraer_documentos (sumario_json : json) : list documento :=
  buscar_recursivo sumario_json [].

(* ------------------------------------------------------------------ *)
(** *** pages/2_Chat_BOE.py: [extraer_documentos_sumario] *)

Definition documento_sumario_de (obj : dict json) : documento :=
  [ ("titulo", get_or "titulo" (JStr "Sin título") obj);
    ("seccion", get_or "seccion" (JStr "") obj);
    ("departamento", get_or "departamento" (JStr "") obj);
    ("url_pdf", get_or "urlPdf" (JStr "") obj);
    ("url_html", get_or "urlHtml" (JStr "") obj) ].

Fixpoint buscar_recursivo_sumario (obj : json) (documentos : list documento) : list documento :=
  match obj with
  | JDict d =>
      fold_left (fun docs kv => buscar_recursivo_sumario (snd kv) docs) d
        (if es_documento d then documentos ++ [documento_sumario_de d] else documentos)
  | JList l => fold_left (fun docs item => buscar_recursivo_sumario item docs) l documentos
  | _ => documentos
  end.

Definition extraer_documentos_sumario (sumario_json : json) (limit : Z) : list documento :=
  slice_hasta limit (buscar_recursivo_sumario sumario_json []).

(* ================================================================== *)
(** ** Test doubles for the Python built-ins

    Stand-ins for the built-ins and the outside world, and the inputs the
    examples run on.  They serve only to run the definitions on concrete
    inputs. *)
(* ================================================================== *)

(** [str.lower] on ASCII text: the letters A to Z are lowered and every
    other byte is kept, so it is [str.lower] on texts whose letters are
    ASCII. *)
Definition lower_char (c : ascii) : ascii :=
  let n := nat_of_ascii c in
  if (65 <=? n)%nat && (n <=? 90)%nat then ascii_of_nat (n + 32) else c.

Fixpoint lower_ascii (s : string) : string :=
  match s with
  | EmptyString => EmptyString
  | String c s' => String (lower_char c) (lower_ascii s')
  end.

(** [repr] of the scalars that print without escapes. *)
Definition repr_escalar (x : json) : string :=
  match x with
  | JNull => "None"
  | JBool true => "True"
  | JBool false => "False"
  | JInt n => str_int n
  | JStr s => ("'" ++ s ++ "'")%string
  | _ => "?"
  end.

(** [str.title] on ASCII letters: a letter is capitalised when the byte
    before it is not part of a word. *)
Definition en_palabra (c : ascii) : bool :=
  let n := nat_of_ascii c in
  ((65 <=? n)%nat && (n <=? 90)%nat) || ((97 <=? n)%nat && (n <=? 122)%nat) || (128 <=? n)%nat.

Definition upper_char (c : ascii) : ascii :=
  let n := nat_of_ascii c in
  if (97 <=? n)%nat && (n <=? 122)%nat then ascii_of_nat (n - 32) else c.

Fixpoint title_desde (dentro : bool) (s : string) : string :=
  match s with
  | EmptyString => EmptyString
  | String c s' =>
      String (if dentro then lower_char c else upper_char c) (title_desde (en_palabra c) s')
  end.

Definition title_ascii (s : string) : string := title_desde false s.

(** [datetime.strptime(texto, "%Y%m%d")] on ASCII digits, read as the
    regular expression of [_strptime] reads it: four digits of year, then
    the month and the day with one or two digits, the alternatives tried in
    its order; text left over, or a date that does not exist, is an error.
    The date is kept as eight digits. *)
Definition es_digito (c : ascii) : bool :=
  let n := nat_of_ascii c in (48 <=? n)%nat && (n <=? 57)%nat.

Definition valor_digito (c : ascii) : nat := nat_of_ascii c - 48.

Definition entre (a b : nat) (c : ascii) : bool :=
  (48 + a <=? nat_of_ascii c)%nat && (nat_of_ascii c <=? 48 + b)%nat.

(** [1[0-2]|0[1-9]|[1-9]] *)
Definition mes_alternativas (s : string) : list (nat * string) :=
  match s with
  | EmptyString => []
  | String a r =>
      match r with
      | String b r' =>
          (if entre 1 1 a && entre 0 2 b then [(10 + valor_digito b, r')] else [])
          ++ (if entre 0 0 a && entre 1 9 b then [(valor_digito b, r')] else [])
      | EmptyString => []
      end
      ++ (if entre 1 9 a then [(valor_digito a, r)] else [])
  end.

(** [3[01]|[12]\d|0[1-9]|[1-9]| [1-9]] *)
Definition dia_alternativas (s : string) : list (nat * string) :=
  match s with
  | EmptyString => []
  | String a r =>
      match r with
      | String b r' =>
          (if entre 3 3 a && entre 0 1 b then [(30 + valor_digito b, r')] else [])
          ++ (if entre 1 2 a && es_digito b then [(10 * valor_digito a + valor_digito b, r')]
              else [])
          ++ (if entre 0 0 a && entre 1 9 b then [(valor_digito b, r')] else [])
      | EmptyString => []
      end
      ++ (if entre 1 9 a then [(valor_digito a, r)] else [])
      ++ match r with
         | String b r' =>
             if Ascii.eqb a " " && entre 1 9 b then [(valor_digito b, r')] else []
         | EmptyString => []
         end
  end.

Definition bisiesto (y : nat) : bool :=
  ((y mod 4 =? 0)%nat && negb (y mod 100 =? 0)%nat) || (y mod 400 =? 0)%nat.

Definition dias_del_mes (y m : nat) : nat :=
  match m with
  | 2 => if bisiesto y then 29 else 28
  | 4 | 6 | 9 | 11 => 30
  | _ => 31
  end.

Definition dos_digitos (n : nat) : string :=
  String (ascii_of_nat (48 + n / 10)) (String (ascii_of_nat (48 + n mod 10)) EmptyString).

Definition strptime_digitos (texto formato : string) : option string :=
  if negb (String.eqb formato "%Y%m%d") then None
  else
    match texto with
    | String y1 (String y2 (String y3 (String y4 resto))) =>
        if es_digito y1 && es_digito y2 && es_digito y3 && es_digito y4 then
          let y := 1000 * valor_digito y1 + 100 * valor_digito y2
                   + 10 * valor_digito y3 + valor_digito y4 in
          match flat_map (fun mr => map (fun dr => (fst mr, fst dr, snd dr))
                                        (dia_alternativas (snd mr)))
                         (mes_alternativas resto) with
          | (m, d, EmptyString) :: _ =>
              if (1 <=? y)%nat && (d <=? dias_del_mes y m)%nat
              then Some (String y1 (String y2 (String y3 (String y4
                           (dos_digitos m ++ dos_digitos d)%string))))
              else None
          | _ => None
          end
        else None
    | _ => None
    end.

(** [strftime] for the directives %d, %m, %Y, %B and %%, with the month
    names of the C locale. *)
Definition nombre_mes (m : string) : string :=
  if String.eqb m "01" then "January" else if String.eqb m "02" then "February"
  else if String.eqb m "03" then "March" else if String.eqb m "04" then "April"
  else if String.eqb m "05" then "May" else if String.eqb m "06" then "June"
  else if String.eqb m "07" then "July" else if String.eqb m "08" then "August"
  else if String.eqb m "09" then "September" else if String.eqb m "10" then "October"
  else if String.eqb m "11" then "November" else "December".

Fixpoint strftime_desde (y m d formato : string) : string :=
  match formato with
  | EmptyString => EmptyString
  | String c r =>
      match r with
      | String k r' =>
          if Ascii.eqb c "%" then
            ((if Ascii.eqb k "d" then d
              else if Ascii.eqb k "m" then m
              else if Ascii.eqb k "Y" then y
              else if Ascii.eqb k "B" then nombre_mes m
              else if Ascii.eqb k "%" then "%"
              else String c (String k EmptyString))
             ++ strftime_desde y m d r')%string
          else String c (strftime_desde y m d r)
      | EmptyString => String c EmptyString
      end
  end.

Definition strftime_digitos (fecha formato : string) : string :=
  strftime_desde (substring 0 4 fecha) (substring 4 2 fecha) (substring 6 2 fecha) formato.

(** The summary of the specification's end-to-end scenario. *)
Definition sumario_ejemplo : json :=
  JDict [("resultados",
          JList [ JDict [("titulo", JStr "Orden de empleo juvenil"); ("seccion", JStr "II");
                         ("urlPdf", JStr "http://x/1.pdf")];
                  JDict [("titulo", JStr "Ley de vivienda social");
                         ("departamento", JStr "Fomento");
                         ("urlHtml", JStr "http://x/2.html")] ])].

Definition doc_empleo : documento :=
  [ ("titulo", JStr "Orden de empleo juvenil"); ("seccion", JStr "II");
    ("departamento", JStr ""); ("rango", JStr ""); ("url_pdf", JStr "http://x/1.pdf");
    ("url_html", JStr ""); ("url_xml", JStr "") ].

Definition doc_vivienda : documento :=
  [ ("titulo", JStr "Ley de vivienda social"); ("seccion", JStr "");
    ("departamento", JStr "Fomento"); ("rango", JStr ""); ("url_pdf", JStr "");
    ("url_html", JStr "http://x/2.html"); ("url_xml", JStr "") ].


(** A document dict without "seccion" and "departamento". *)
Definition doc_solo_titulo : documento := [ ("titulo", JStr "Ley de vivienda social") ].

(** A gazette that cannot be reached, one that answers with an error object,
    and one that answers with the example summary. *)
Definition red_caida (url : string) : respuesta :=
  Excepcion "ConnectionError" "sin conexión".

Definition red_con_error (url : string) : respuesta :=
  Cuerpo (JDict [("error", JStr "fecha sin sumario"); ("codigo", JInt 404)]).

Definition red_ejemplo (url : string) : respuesta := Cuerpo sumario_ejemplo.

(** A mail server that rejects the login, and one that accepts the message. *)
Definition smtp_rechaza (server port remitente password : json)
    (destinatario asunto html : string) : option (string * string) :=
  Some ("SMTPAuthenticationError", "(535, 'bad credentials')").

Definition smtp_acepta (server port remitente password : json)
    (destinatario asunto html : string) : option (string * string) :=
  None.

Definition config_ejemplo : dict json :=
  [ ("remitente", JStr "boe@example.org"); ("password", JStr "secreto");
    ("smtp_server", JStr "smtp.example.org"); ("smtp_port", JInt 587) ].


(** A node with the keys "title" and "url". *)
Definition nodo_title_url : dict json :=
  [ ("title", JStr "Real Decreto de transporte"); ("url", JStr "http://x/3") ].

(** A bucket of eleven documents. *)
Definition once_documentos : list documento := repeat doc_vivienda 11.


(** A document whose title carries markup: it closes its own entry, writes
    an overflow note and opens a second entry. *)
Definition doc_con_etiquetas : documento :=
  [ ("titulo",
     JStr ("Aviso</h3><div class=" ++ q ++ "enlaces" ++ q ++ "></div></div>"
           ++ "<p class=" ++ q ++ "metadatos" ++ q
           ++ ">... y 5 documentos más en esta categoría</p>"
           ++ "<div class=" ++ q ++ "documento" ++ q ++ "><h3>Otro")%string);
    ("seccion", JStr ""); ("departamento", JStr ""); ("rango", JStr "");
    ("url_pdf", JStr ""); ("url_html", JStr ""); ("url_xml", JStr "") ].

(** A document dict without "titulo". *)
Definition doc_sin_titulo : documento := [ ("seccion", JStr "I"); ("departamento", JStr "") ].

(** [json.dumps] without indentation and without escapes: enough for values
    whose strings need no escaping. *)
Fixpoint volcar (x : json) : string :=
  match x with
  | JNull => "null"
  | JBool true => "true"
  | JBool false => "false"
  | JInt n => str_int n
  | JFloat _ => "0.0"
  | JStr s => (q ++ s ++ q)%string
  | JList l => ("[" ++ String.concat ", " (map volcar l) ++ "]")%string
  | JDict d =>
      ("{" ++ String.concat ", "
                (map (fun kv => (q ++ fst kv ++ q ++ ": " ++ volcar (snd kv))%string) d)
       ++ "}")%string
  end.

Definition json_dumps_compacto (indent : option Z) (x : json) : string := volcar x.

(** Two norms as the consolidated-legislation API lists them, and a
    response that holds them. *)
Definition norma_codigo_civil : dict json :=
  [ ("identificador", JStr "BOE-A-1889-4763"); ("titulo", JStr "Código Civil");
    ("fecha_actualizacion", JStr "20230301") ].

Definition norma_sin_titulo : dict json := [ ("identificador", JStr "BOE-A-2015-11430") ].

Definition respuesta_normas : json :=
  JDict [ ("status", JDict [("code", JStr "200"); ("text", JStr "ok")]);
          ("data", JList [JDict norma_codigo_civil; JDict norma_sin_titulo]) ].

(** A body in which no node is a document. *)
Definition sumario_sin_documentos : json :=
  JDict [("sumario", JDict [("diario", JList [])])].

(** The same document as [doc_vivienda], without "rango" and "url_xml". *)
Definition doc_vivienda_cinco_campos : documento :=
  [ ("titulo", JStr "Ley de vivienda social"); ("seccion", JStr "");
    ("departamento", JStr "Fomento"); ("url_pdf", JStr "");
    ("url_html", JStr "http://x/2.html") ].

(** Servers for the requests with parameters. *)
Definition red_params_caida (url : string) (params : option (dict json)) : respuesta :=
  Excepcion "ConnectionError" "sin conexión".

Definition red_params_ejemplo (url : string) (params : option (dict json)) : respuesta :=
  Cuerpo sumario_ejemplo.

Definition red_params_normas (url : string) (params : option (dict json)) : respuesta :=
  Cuerpo respuesta_normas.

(** A gazette that answers with a body without documents, and one that
    answers [null]. *)
Definition red_sin_documentos (url : string) : respuesta := Cuerpo sumario_sin_documentos.

Definition red_nula (url : string) : respuesta := Cuerpo JNull.

(** A model that answers with a list of content blocks, the text block not
    being the first. *)
Definition llm_bloques (system_prompt pregunta : string) : respuesta :=
  Cuerpo (JList [ JStr "suelto";
                  JDict [("type", JStr "tool_use"); ("text", JStr "no es texto")];
                  JDict [("type", JStr "text"); ("text", JStr "El BOE de hoy")];
                  JDict [("type", JStr "text"); ("text", JStr "segundo bloque")] ]).

(** A configuration with a key that is not a parameter of
    [enviar_email_digest]. *)
Definition config_con_usuario : dict json :=
  [ ("remitente", JStr "boe@example.org"); ("usuario", JStr "boe") ].
Section Programa.

#[local] Set Default Proof Using "Type".

(** [str.lower], [repr] (what an f-string prints for a value that is not a
    [str]) and [str.title]. *)
Variable lower : string -> string.
Variable repr : json -> string.
Variable title : string -> string.

(** [datetime.strptime(text, format)] ([None]: it raises [ValueError]) and
    [datetime.strftime(format)]. *)
Variable datetime : Type.
Variable strptime : string -> string -> option datetime.
Variable strftime : datetime -> string -> string.

(** The gazette API, by URL. *)
Variable requests_get : string -> respuesta.

(** The body of the [try] in [enviar_email_digest], from building the message
    to [send_message]: [None] when it completes, the exception's type name
    and text otherwise.  Arguments: server, port, sender, password,
    recipient, subject, HTML. *)
Variable smtp_sesion :
  json -> json -> json -> json -> string -> string -> string -> option (string * string).

(** [json.dumps(obj, ensure_ascii=False, indent=indent)]. *)
Variable json_dumps : option Z -> json -> string.

(** [requests.get(url, params=params, ...)] of app.py and of
    [buscar_legislacion], with [raise_for_status()] and [r.json()]. *)
Variable requests_get_params : string -> option (dict json) -> respuesta.

(** [modelo.invoke(messages)] on a system and a human message: the
    [content] of the response, or the exception raised. *)
Variable llm_invoke : string -> string -> respuesta.

(** [tauto] reads the variables above as hypotheses of the goal; this puts
    aside those the goal does not mention. *)
Ltac sin_entorno :=
  try clear llm_invoke; try clear requests_get_params; try clear json_dumps;
  try clear smtp_sesion; try clear requests_get; try clear strftime; try clear strptime;
  try clear datetime; try clear title; try clear repr; try clear lower.

Ltac tauto_sin_entorno := sin_entorno; tauto.

(* ------------------------------------------------------------------ *)
(** *** app.py: [_extract_sumario_entries] *)

(** [{k.lower(): k for k in x.keys()}] *)
Definition keys_lower (x : dict json) : dict string :=
  fold_left (fun acc k => dict_set (lower k) k acc) (dict_keys x) [].

(** [x.get(keys_lower.get(nombre))]; [x.get(None)] is [None]. *)
Definition get_por_minuscula (kl : dict string) (x : dict json) (nombre : string) : json :=
  match dict_get nombre kl with
  | Some orig => get_none orig x
  | None => JNull
  end.

(** [has_url and ("titulo" in keys_lower or "title" in keys_lower or
    "nombre" in keys_lower)] *)
Definition es_entrada (x : dict json) : bool :=
  let kl := keys_lower x in
  existsb (startswith "url") (dict_keys kl)
  && (dict_has "titulo" kl || dict_has "title" kl || dict_has "nombre" kl).

(** The [urls] dict of an entry. *)
Definition urls_de (x : dict json) : dict json :=
  fold_left
    (fun urls item =>
       let '(kl, orig) := item in
       if startswith "url" kl && es_str (get_none orig x)
       then dict_set kl (get_none orig x) urls
       else urls)
    (keys_lower x) [].

Definition entrada_de (x : dict json) : json :=
  let kl := keys_lower x in
  let titulo :=
    py_or (py_or (get_por_minuscula kl x "titulo") (get_por_minuscula kl x "title"))
          (get_por_minuscula kl x "nombre") in
  JDict [ ("titulo", py_or titulo (JStr "(sin título)")); ("urls", JDict (urls_de x)) ].

(** The inner function [rec]; [out] is the [nonlocal] list. *)
Fixpoint rec (limit : Z) (x : json) (out : list json) : list json :=
  if (Z.of_nat (length out) >=? limit)%Z then out
  else
    match x with
    | JDict d =>
        fold_left (fun o kv => rec limit (snd kv) o) d
          (if es_entrada d then out ++ [entrada_de d] else out)
    | JList l => fold_left (fun o i => rec limit i o) l out
    | _ => out
    end.

Definition _extract_sumario_entries (sumario_json : json) (limit : Z) : list json :=
  rec limit sumario_json [].

(** The match rule in the specification's words: (a) some key is
    case-insensitively equal to "titulo", "title" or "nombre", and (b) some
    key's lowercased form starts with "url". *)
Definition clave_titulo (x : dict json) : bool :=
  existsb (fun k => String.eqb (lower k) "titulo" || String.eqb (lower k) "title"
                    || String.eqb (lower k) "nombre")
          (dict_keys x).

Definition clave_url (x : dict json) : bool :=
  existsb (fun k => startswith "url" (lower k)) (dict_keys x).

Definition califica (x : dict json) : bool := clave_titulo x && clave_url x.

(** The nodes [_extract_sumario_entries] returns an entry for. *)
Definition nodos_devueltos (x : json) (limit : Z) : list (dict json) :=
  firstn (Z.to_nat limit) (seleccion califica (fun d => d) x).

(* ------------------------------------------------------------------ *)
(** *** boe_digest.py: [obtener_sumario_boe] *)

Definition obtener_sumario_boe (fecha : string) : json :=
  let url := (BOE_BASE ++ "/boe/sumario/" ++ fecha)%string in
  match requests_get url with
  | Cuerpo j => j
  | Excepcion tipo mensaje => JDict [("error", JStr (tipo ++ ": " ++ mensaje)%string)]
  end.

(* ------------------------------------------------------------------ *)
(** *** boe_digest.py: [clasificar_por_tema] *)

(** What an f-string prints for a value. *)
Definition formato (v : json) : string :=
  match v with
  | JStr s => s
  | _ => repr v
  end.

(** [f"{doc['titulo']} {doc['seccion']} {doc['departamento']}".lower()] *)
Definition texto_busqueda (doc : documento) : res string :=
  titulo <- dict_getitem "titulo" doc ;;
  seccion <- dict_getitem "seccion" doc ;;
  departamento <- dict_getitem "departamento" doc ;;
  Ok (lower (formato titulo ++ " " ++ formato seccion ++ " " ++ formato departamento)%string).

(** [any(keyword in texto_busqueda for keyword in keywords)] *)
Definition alguna_keyword (keywords : list string) (texto : string) : bool :=
  existsb (fun keyword => contiene keyword texto) keywords.

(** The inner [for ... break]: the first active topic with a keyword in the
    text, if any. *)
Fixpoint primer_tema (temas_activos : dict (list string)) (texto : string) : option string :=
  match temas_activos with
  | [] => None
  | (tema, keywords) :: resto =>
      if alguna_keyword keywords texto then Some tema else primer_tema resto texto
  end.

(** [clasificacion[tema].append(doc)] *)
Definition anotar (tema : string) (doc : documento) (clasificacion : clasificacion_t)
    : res clasificacion_t :=
  docs <- dict_getitem tema clasificacion ;;
  Ok (dict_set tema (docs ++ [doc]) clasificacion).

(** The loop over [documentos]. *)
Fixpoint clasificar_bucle (temas_activos : dict (list string)) (documentos : list documento)
    (clasificacion : clasificacion_t) : res clasificacion_t :=
  match documentos with
  | [] => Ok clasificacion
  | doc :: resto =>
      texto <- texto_busqueda doc ;;
      clasificacion' <-
        anotar (match primer_tema temas_activos texto with
                | Some tema => tema
                | None => "otros"
                end) doc clasificacion ;;
      clasificar_bucle temas_activos resto clasificacion'
  end.

(** [if temas_filtro: {k: v ... if k in temas_filtro} else: TEMAS_BOE] *)
Definition temas_activos_de (tabla : dict (list string)) (temas_filtro : option (list string))
    : dict (list string) :=
  match temas_filtro with
  | Some ((_ :: _) as filtro) =>
      filter (fun kv => existsb (fun t => String.eqb t (fst kv)) filtro) tabla
  | _ => tabla
  end.

Definition no_vacia {A : Type} (l : list A) : bool :=
  match l with [] => false | _ => true end.

(** The classifier over a topic table given as an argument. *)
Definition clasificar_con (tabla : dict (list string)) (documentos : list documento)
    (temas_filtro : option (list string)) : res clasificacion_t :=
  let clasificacion := dict_set "otros" [] (map (fun tema => (tema, [])) (dict_keys tabla)) in
  let temas_activos := temas_activos_de tabla temas_filtro in
  c <- clasificar_bucle temas_activos documentos clasificacion ;;
  Ok (filter (fun kv => no_vacia (snd kv)) c).

Definition clasificar_por_tema (documentos : list documento)
    (temas_filtro : option (list string)) : res clasificacion_t :=
  clasificar_con TEMAS_BOE documentos temas_filtro.


(** *** The classification, stated directly

    A document that has the three fields read by the classifier, the text
    searched for it, the topic it falls under, and the buckets that follow:
    for each key of the table, then "otros", the documents of that topic in
    input order, empty buckets left out. *)
Definition tiene_campos (doc : documento) : bool :=
  dict_has "titulo" doc && dict_has "seccion" doc && dict_has "departamento" doc.

Definition texto_de (doc : documento) : string :=
  lower (formato (get_none "titulo" doc) ++ " " ++ formato (get_none "seccion" doc)
         ++ " " ++ formato (get_none "departamento" doc))%string.

Definition tema_de (temas_activos : dict (list string)) (doc : documento) : string :=
  match primer_tema temas_activos (texto_de doc) with
  | Some tema => tema
  | None => "otros"
  end.

(** The documents of topic [k], in input order. *)
Definition cubo (temas_activos : dict (list string)) (documentos : list documento)
    (k : string) : list documento :=
  filter (fun doc => String.eqb (tema_de temas_activos doc) k) documentos.

Definition cubos (tabla : dict (list string)) (documentos : list documento)
    (temas_filtro : option (list string)) : clasificacion_t :=
  filter (fun kv => no_vacia (snd kv))
    (map (fun k => (k, cubo (temas_activos_de tabla temas_filtro) documentos k))
         (dict_keys tabla ++ ["otros"])).



(* ------------------------------------------------------------------ *)
(** *** boe_digest.py: [generar_resumen_html]

    Each [html += ...] of the source emits one fragment; the HTML is the
    concatenation of the fragments' texts. *)

Inductive fragmento : Type :=
| FCabecera (fecha_legible : string)
| FContador (total_docs : Z)
| FTema (tema : string) (n : Z)
| FDocumento (titulo : json)
| FMetadatos (seccion departamento : json)
| FEnlaces
| FEnlacePdf (url : json)
| FEnlaceHtml (url : json)
| FFinDocumento
| FMas (n : Z)
| FFinTema
| FPie.

Definition texto_fragmento (f : fragmento) : string :=
  (match f with
   | FCabecera fecha_legible =>
       "
    <!DOCTYPE html>
    <html>
    <head>
        <meta charset=" ++ q ++ "UTF-8" ++ q ++ ">
        <style>
            body {
                font-family: Arial, sans-serif;
                max-width: 800px;
                margin: 0 auto;
                padding: 20px;
                background-color: #f5f5f5;
            }
            .header {
                background-color: #1e3a8a;
                color: white;
                padding: 20px;
                border-radius: 8px;
                margin-bottom: 20px;
            }
            .tema {
                background-color: white;
                padding: 15px;
                margin-bottom: 15px;
                border-radius: 8px;
                border-left: 4px solid #1e3a8a;
            }
            .tema h2 {
                color: #1e3a8a;
                margin-top: 0;
                text-transform: capitalize;
            }
            .documento {
                margin-bottom: 15px;
                padding: 10px;
                background-color: #f9fafb;
                border-radius: 4px;
            }
            .documento h3 {
                margin: 0 0 8px 0;
                font-size: 16px;
                color: #1f2937;
            }
            .metadatos {
                color: #6b7280;
                font-size: 12px;
                margin-bottom: 8px;
            }
            .enlaces a {
                display: inline-block;
                margin-right: 10px;
                padding: 4px 12px;
                background-color: #3b82f6;
                color: white;
                text-decoration: none;
                border-radius: 4px;
                font-size: 12px;
            }
            .enlaces a:hover {
                background-color: #2563eb;
            }
            .contador {
                font-size: 14px;
                color: #6b7280;
                margin-bottom: 10px;
            }
        </style>
    </head>
    <body>
        <div class=" ++ q ++ "header" ++ q ++ ">
            <h1>📰 Resumen BOE - " ++ fecha_legible ++ "</h1>
            <p>Resumen inteligente del Boletín Oficial del Estado</p>
        </div>
    "
   | FContador total_docs =>
       "<p class=" ++ q ++ "contador" ++ q ++ "><strong>Total de documentos:</strong> "
       ++ str_int total_docs ++ "</p>"
   | FTema tema n =>
       "
        <div class=" ++ q ++ "tema" ++ q ++ ">
            <h2>🏷️ " ++ title (replace_guion tema) ++ " (" ++ str_int n ++ " documentos)</h2>
        "
   | FDocumento titulo =>
       "
            <div class=" ++ q ++ "documento" ++ q ++ ">
                <h3>" ++ formato titulo ++ "</h3>
            "
   | FMetadatos seccion departamento =>
       "
                <div class=" ++ q ++ "metadatos" ++ q ++ ">"
       ++ "
                    "
       ++ (if truthy seccion then "<strong>Sección:</strong> " ++ formato seccion else "")
       ++ "
                    "
       ++ (if truthy seccion && truthy departamento then " | " else "")
       ++ "
                    "
       ++ (if truthy departamento then "<strong>Dpto:</strong> " ++ formato departamento else "")
       ++ "
                </div>
                "
   | FEnlaces => "<div class=" ++ q ++ "enlaces" ++ q ++ ">"
   | FEnlacePdf url =>
       "<a href=" ++ q ++ formato url ++ q ++ " target=" ++ q ++ "_blank" ++ q ++ ">📄 PDF</a>"
   | FEnlaceHtml url =>
       "<a href=" ++ q ++ formato url ++ q ++ " target=" ++ q ++ "_blank" ++ q ++ ">🌐 HTML</a>"
   | FFinDocumento => "</div></div>"
   | FMas n =>
       "<p class=" ++ q ++ "metadatos" ++ q ++ ">... y " ++ str_int n
       ++ " documentos más en esta categoría</p>"
   | FFinTema => "</div>"
   | FPie =>
       "
        <div style=" ++ q ++ "text-align: center; color: #6b7280; margin-top: 30px; padding-top: 20px; border-top: 1px solid #e5e7eb;" ++ q ++ ">
            <p>Generado automáticamente desde la API de Datos Abiertos del BOE</p>
        </div>
    </body>
    </html>
    "
   end)%string.

(** [for x in xs: ...] whose body may raise. *)
Fixpoint para_cada {A B : Type} (f : A -> res (list B)) (xs : list A) : res (list B) :=
  match xs with
  | [] => Ok []
  | x :: r => ys <- f x ;; zs <- para_cada f r ;; Ok (ys ++ zs)
  end.

(** [len(l)] *)
Definition len {A : Type} (l : list A) : Z := Z.of_nat (length l).

(** The body of [for doc in documentos[:10]]. *)
Definition fragmentos_documento (doc : documento) : res (list fragmento) :=
  titulo <- dict_getitem "titulo" doc ;;
  Ok ([FDocumento titulo]
      ++ (if truthy (get_none "seccion" doc) || truthy (get_none "departamento" doc)
          then [FMetadatos (get_none "seccion" doc) (get_none "departamento" doc)]
          else [])
      ++ [FEnlaces]
      ++ (if truthy (get_none "url_pdf" doc) then [FEnlacePdf (get_none "url_pdf" doc)] else [])
      ++ (if truthy (get_none "url_html" doc) then [FEnlaceHtml (get_none "url_html" doc)] else [])
      ++ [FFinDocumento]).

(** The body of [for tema, documentos in clasificacion.items()]. *)
Definition fragmentos_tema (item : string * list documento) : res (list fragmento) :=
  let '(tema, documentos) := item in
  if negb (no_vacia documentos) then Ok []
  else
    docs <- para_cada fragmentos_documento (firstn 10 documentos) ;;
    Ok ([FTema tema (len documentos)]
        ++ docs
        ++ (if (len documentos >? 10)%Z then [FMas (len documentos - 10)] else [])
        ++ [FFinTema]).

(** [sum(len(docs) for docs in clasificacion.values())] *)
Definition total_docs_de (clasificacion : clasificacion_t) : Z :=
  fold_left Z.add (map len (dict_values clasificacion)) 0%Z.

Definition generar_resumen_fragmentos (fecha : string) (clasificacion : clasificacion_t)
    : res (list fragmento) :=
  fecha_obj <- match strptime fecha "%Y%m%d" with
               | Some d => Ok d
               | None => Raise ValueError
               end ;;
  let fecha_legible := strftime fecha_obj "%d de %B de %Y" in
  temas <- para_cada fragmentos_tema clasificacion ;;
  Ok ([FCabecera fecha_legible; FContador (total_docs_de clasificacion)] ++ temas ++ [FPie]).

Definition generar_resumen_html (fecha : string) (clasificacion : clasificacion_t)
    : res string :=
  fragmentos <- generar_resumen_fragmentos fecha clasificacion ;;
  Ok (String.concat "" (map texto_fragmento fragmentos)).

(* ------------------------------------------------------------------ *)
(** *** boe_digest.py: [enviar_email_digest] *)

Definition enviar_email_digest (destinatario asunto contenido_html : string)
    (smtp_server smtp_port remitente password : json) : dict string :=
  if negb (truthy remitente) || negb (truthy password)
  then [("error", "Se requiere configurar remitente y password")]
  else
    match smtp_sesion smtp_server smtp_port remitente password
                      destinatario asunto contenido_html with
    | None => [("status", "success"); ("mensaje", ("Email enviado a " ++ destinatario)%string)]
    | Some (tipo, mensaje) =>
        [("error", ("Error al enviar email: " ++ tipo ++ ": " ++ mensaje)%string)]
    end.

(* ------------------------------------------------------------------ *)
(** *** boe_digest.py: [generar_digest_completo] *)

(** The keyword arguments [**config_email] binds, with their defaults. *)
Record config_smtp : Type := {
  smtp_server : json;
  smtp_port : json;
  remitente : json;
  password : json
}.

Definition config_por_defecto : config_smtp :=
  {| smtp_server := JStr "smtp.gmail.com"; smtp_port := JInt 587;
     remitente := JNull; password := JNull |}.

(** Binding [**config_email]: a key that is not one of the four keyword
    parameters raises [TypeError]. *)
Fixpoint ligar_config (config_email : dict json) (c : config_smtp) : res config_smtp :=
  match config_email with
  | [] => Ok c
  | (k, v) :: r =>
      if String.eqb k "smtp_server" then
        ligar_config r {| smtp_server := v; smtp_port := smtp_port c;
                          remitente := remitente c; password := password c |}
      else if String.eqb k "smtp_port" then
        ligar_config r {| smtp_server := smtp_server c; smtp_port := v;
                          remitente := remitente c; password := password c |}
      else if String.eqb k "remitente" then
        ligar_config r {| smtp_server := smtp_server c; smtp_port := smtp_port c;
                          remitente := v; password := password c |}
      else if String.eqb k "password" then
        ligar_config r {| smtp_server := smtp_server c; smtp_port := smtp_port c;
                          remitente := remitente c; password := v |}
      else Raise TypeError
  end.

(** The values held by the result dict. *)
Inductive valor : Type :=
| VStr (s : string)
| VInt (n : Z)
| VConteo (c : dict Z)
| VClasificacion (c : clasificacion_t)
| VEmail (e : dict string).

(** What [generar_digest_completo] returns: the fetched summary itself on the
    early return, the result dict otherwise. *)
Inductive resultado : Type :=
| RSumario (sumario : json)
| RDigest (campos : dict valor).

(** [k in resultado], for a result that is a dict. *)
Definition tiene_campo (k : string) (r : resultado) : bool :=
  match r with
  | RSumario (JDict d) => dict_has k d
  | RSumario _ => false
  | RDigest campos => dict_has k campos
  end.

(** The steps a run performs, in order. *)
Inductive paso : Type :=
| PObtener (fecha : string)
| PExtraer
| PClasificar
| PGenerarHtml
| PEnviarEmail (destinatario asunto html : string).

(** A computation that logs its steps and may raise. *)
Definition M (A : Type) : Type := list paso -> list paso * res A.

Definition ret {A : Type} (a : A) : M A := fun t => (t, Ok a).

Definition bind {A B : Type} (m : M A) (k : A -> M B) : M B :=
  fun t => match m t with
           | (t', Ok a) => k a t'
           | (t', Raise e) => (t', Raise e)
           end.

(** Perform step [p], whose outcome is [r]. *)
Definition hacer {A : Type} (p : paso) (r : res A) : M A := fun t => (t ++ [p], r).

(** An outcome computed in place, no step logged. *)
Definition elevar {A : Type} (r : res A) : M A := fun t => (t, r).

Notation "x <~ m ;; k" := (bind m (fun x => k))
  (at level 61, m at next level, right associativity).

Definition generar_digest_completo (fecha : string) (temas_filtro : option (list string))
    (enviar_por_email : bool) (destinatario : option string)
    (config_email : option (dict json)) : M resultado :=
  sumario <~ hacer (PObtener fecha) (Ok (obtener_sumario_boe fecha)) ;;
  hay_error <~ elevar (py_in "error" sumario) ;;
  if hay_error : bool then ret (RSumario sumario)
  else
    documentos <~ hacer PExtraer (Ok (extraer_documentos sumario)) ;;
    clasificacion <~ hacer PClasificar (clasificar_por_tema documentos temas_filtro) ;;
    html_resumen <~ hacer PGenerarHtml (generar_resumen_html fecha clasificacion) ;;
    let resultado :=
      [ ("fecha", VStr fecha);
        ("total_documentos", VInt (len documentos));
        ("clasificacion", VConteo (map (fun kv => (fst kv, len (snd kv))) clasificacion));
        ("documentos_por_tema", VClasificacion clasificacion);
        ("html", VStr html_resumen) ] in
    match enviar_por_email, destinatario, config_email with
    | true, Some ((String _ _) as dest), Some ((_ :: _) as config) =>
        fecha_obj <~ elevar (match strptime fecha "%Y%m%d" with
                             | Some d => Ok d
                             | None => Raise ValueError
                             end) ;;
        let asunto := ("📰 Resumen BOE - " ++ strftime fecha_obj "%d/%m/%Y")%string in
        c <~ elevar (ligar_config config config_por_defecto) ;;
        resultado_email <~
          hacer (PEnviarEmail dest asunto html_resumen)
                (Ok (enviar_email_digest dest asunto html_resumen
                       (smtp_server c) (smtp_port c) (remitente c) (password c))) ;;
        ret (RDigest (dict_set "email" (VEmail resultado_email) resultado))
    | _, _, _ => ret (RDigest resultado)
    end.

(* ------------------------------------------------------------------ *)
(** *** Reading the emitted fragments *)

(** How many document entries were emitted. *)
Definition contar_documentos (fragmentos : list fragmento) : Z :=
  len (filter (fun f => match f with FDocumento _ => true | _ => false end) fragmentos).

(** The counts of the overflow notes emitted, in order. *)
Definition notas_mas (fragmentos : list fragmento) : list Z :=
  flat_map (fun f => match f with FMas n => [n] | _ => [] end) fragmentos.

(** The topics of the sections emitted, in order. *)
Definition temas_de_fragmentos (fragmentos : list fragmento) : list string :=
  flat_map (fun f => match f with FTema tema _ => [tema] | _ => [] end) fragmentos.

(* ------------------------------------------------------------------ *)
(** *** Reading the returned text *)

(** [s[i:].startswith(m)] at [i = 0]. *)
Fixpoint empieza_por (m s : string) : bool :=
  match m, s with
  | EmptyString, _ => true
  | String _ _, EmptyString => false
  | String a m', String c s' => Ascii.eqb a c && empieza_por m' s'
  end.

(** The number of positions of [s] at which [m] occurs. *)
Fixpoint ocurrencias (m s : string) : nat :=
  match s with
  | EmptyString => 0
  | String c s' => (if empieza_por m (String c s') then 1 else 0) + ocurrencias m s'
  end.

(** The tag that opens a document entry and the tag that opens an overflow
    note, as the renderer writes them. *)
Definition marca_documento : string := ("<div class=" ++ q ++ "documento" ++ q ++ ">")%string.

Definition marca_nota : string := ("<p class=" ++ q ++ "metadatos" ++ q ++ ">")%string.

(** A text without the character that opens a tag. *)
Fixpoint sin_menor (s : string) : bool :=
  match s with
  | EmptyString => true
  | String c s' => negb (Ascii.eqb c "<"%char) && sin_menor s'
  end.

(** The values the renderer interpolates for a document: the title, and the
    section, department and links that are not false values. *)
Definition valores_documento (doc : documento) : list string :=
  [formato (get_none "titulo" doc)]
  ++ (if truthy (get_none "seccion" doc) then [formato (get_none "seccion" doc)] else [])
  ++ (if truthy (get_none "departamento" doc)
      then [formato (get_none "departamento" doc)] else [])
  ++ (if truthy (get_none "url_pdf" doc) then [formato (get_none "url_pdf" doc)] else [])
  ++ (if truthy (get_none "url_html" doc) then [formato (get_none "url_html" doc)] else []).

(** The values interpolated in the block of a topic: the heading and the
    values of the documents shown. *)
Definition valores_tema (item : string * list documento) : list string :=
  title (replace_guion (fst item)) :: flat_map valores_documento (firstn 10 (snd item)).

(** The values interpolated in a fragment of a block. *)
Definition valores_fragmento (f : fragmento) : list string :=
  match f with
  | FCabecera fecha_legible => [fecha_legible]
  | FTema tema _ => [title (replace_guion tema)]
  | FDocumento titulo => [formato titulo]
  | FMetadatos seccion departamento =>
      (if truthy seccion then [formato seccion] else [])
      ++ (if truthy departamento then [formato departamento] else [])
  | FEnlacePdf url => [formato url]
  | FEnlaceHtml url => [formato url]
  | _ => []
  end.

(** The fragments a block is made of. *)
Definition de_bloque (f : fragmento) : bool :=
  match f with
  | FCabecera _ | FContador _ | FPie => false
  | _ => true
  end.

(* ================================================================== *)
(** ** The helpers and tools of app.py and of pages/2_Chat_BOE.py *)
(* ================================================================== *)

(* ------------------------------------------------------------------ *)
(** *** Python [str] over its UTF-8 bytes

    [len] counts code points: the bytes that are not continuation bytes
    (10xxxxxx).  [s[:n]] keeps the first [n] code points, each with its
    continuation bytes. *)

Definition es_continuacion (c : ascii) : bool :=
  let n := nat_of_ascii c in (128 <=? n)%nat && (n <=? 191)%nat.

Fixpoint py_len (s : string) : nat :=
  match s with
  | EmptyString => 0
  | String c s' => if es_continuacion c then py_len s' else S (py_len s')
  end.

Fixpoint py_prefijo (n : nat) (s : string) : string :=
  match s with
  | EmptyString => EmptyString
  | String c s' =>
      if es_continuacion c then String c (py_prefijo n s')
      else match n with
           | 0 => EmptyString
           | S m => String c (py_prefijo m s')
           end
  end.

(** [s[:k]] on a [str], with Python's rule for a negative bound. *)
Definition py_slice_hasta (k : Z) (s : string) : string :=
  if (k <? 0)%Z then py_prefijo (py_len s - Z.to_nat (- k)) s
  else py_prefijo (Z.to_nat k) s.

(** ["\n".join(lines)] *)
Definition nl : string := String "010"%char EmptyString.

Definition join_lineas (lines : list string) : string := String.concat nl lines.

(* ------------------------------------------------------------------ *)
(** *** app.py: [_get_json] *)

Definition _get_json (url : string) (params : option (dict json)) : json :=
  match requests_get_params url params with
  | Cuerpo j => j
  | Excepcion tipo mensaje =>
      JDict [ ("_error", JStr (tipo ++ ": " ++ mensaje)%string);
              ("_url", JStr url);
              ("_params", JDict (match params with Some p => p | None => [] end)) ]
  end.

(* ------------------------------------------------------------------ *)
(** *** app.py: [_find_list_of_dicts_with_key] *)

(** A loop that returns the first result that is not [None]. *)
Fixpoint primero {A B : Type} (f : A -> option B) (l : list A) : option B :=
  match l with
  | [] => None
  | a :: r => match f a with
              | Some b => Some b
              | None => primero f r
              end
  end.

Definition es_dict (x : json) : bool :=
  match x with JDict _ => true | _ => false end.

(** [key in x], for [x] a dict. *)
Definition tiene_clave (key : string) (x : json) : bool :=
  match x with JDict d => dict_has key d | _ => false end.

(** [obj and all(isinstance(x, dict) for x in obj) and any(key in x for x in obj)] *)
Definition es_lista_con_clave (key : string) (obj : list json) : bool :=
  no_vacia obj && forallb es_dict obj && existsb (tiene_clave key) obj.

Fixpoint _find_list_of_dicts_with_key (obj : json) (key : string) : option (list json) :=
  match obj with
  | JDict d => primero (fun kv => _find_list_of_dicts_with_key (snd kv) key) d
  | JList l =>
      if es_lista_con_clave key l then Some l
      else primero (fun item => _find_list_of_dicts_with_key item key) l
  | _ => None
  end.

(* ------------------------------------------------------------------ *)
(** *** app.py: [_pretty_truncate] *)

Definition marca_truncado : string := (nl ++ "... (truncado)")%string.

Definition _pretty_truncate (obj : json) (max_chars : Z) : string :=
  let s := json_dumps (Some 2%Z) obj in
  if (Z.of_nat (py_len s) <=? max_chars)%Z then s
  else (py_slice_hasta max_chars s ++ marca_truncado)%string.

(* ------------------------------------------------------------------ *)
(** *** app.py: [_format_normas] *)

(** The line appended for one norm. *)
Definition linea_norma (n : dict json) : string :=
  let ident :=
    py_or (py_or (get_none "identificador" n) (get_none "id" n))
          (get_none "identificador_norma" n) in
  let titulo := py_or (py_or (get_none "titulo" n) (get_none "title" n)) (JStr "(sin título)") in
  let fecha :=
    py_or (py_or (py_or (get_none "fecha_actualizacion" n) (get_none "fecha_disposicion" n))
                 (get_none "fecha_publicacion" n)) (JStr "") in
  let api_url :=
    if truthy ident
    then (BOE_BASE ++ "/legislacion-consolidada/id/" ++ formato ident)%string
    else "" in
  ("- **" ++ formato titulo ++ "**  " ++ nl ++ "  id: `" ++ formato ident ++ "` "
   ++ (if truthy fecha then "· " ++ formato fecha else "")
   ++ "  " ++ nl ++ "  api: " ++ api_url)%string.

(** The list [lines] at the end of the loop. *)
Definition lineas_normas (normas : list (dict json)) (limit : Z) : list string :=
  map linea_norma (slice_hasta limit normas).

Definition _format_normas (normas : list (dict json)) (limit : Z) : string :=
  let lines := lineas_normas normas limit in
  if no_vacia lines then join_lineas lines
  else "No se encontraron normas en la respuesta.".

(* ------------------------------------------------------------------ *)
(** *** app.py: the tool [boe_sumario] *)

(** The [urls] of an entry: [(e.get("urls") or {}).items()].  An entry is a
    dict built by [rec], whose "urls" is a dict. *)
Definition urls_de_entrada (e : dict json) : dict json :=
  match py_or (get_none "urls" e) (JDict []) with
  | JDict urls => urls
  | _ => []
  end.

(** The lines appended for one entry; [e['titulo']] on an entry. *)
Definition lineas_entrada (e : json) : res (list string) :=
  match e with
  | JDict d =>
      titulo <- dict_getitem "titulo" d ;;
      Ok (("- **" ++ formato titulo ++ "**")%string
          :: map (fun kv => ("  - " ++ fst kv ++ ": " ++ formato (snd kv))%string)
                 (urls_de_entrada d))
  | _ => Raise TypeError
  end.

Definition boe_sumario (fecha : string) : res string :=
  let url := (BOE_BASE ++ "/boe/sumario/" ++ fecha)%string in
  let data := _get_json url None in
  hay_error <- py_in "_error" data ;;
  if hay_error : bool then Ok (_pretty_truncate data 4000)
  else
    let entries := _extract_sumario_entries data 12 in
    if negb (no_vacia entries) then Ok (_pretty_truncate data 4000)
    else
      lineas <- para_cada lineas_entrada entries ;;
      Ok (join_lineas (("Sumario BOE " ++ fecha ++ " (top " ++ str_int (len entries)
                        ++ " entradas):")%string :: lineas)).

(* ------------------------------------------------------------------ *)
(** *** app.py: the tool [boe_legislacion_buscar] *)

(** The query object [q] and the request parameters. *)
Definition consulta_legislacion (texto : string) : json :=
  JDict [ ("query", JDict [ ("query_string",
                             JDict [("query", JStr ("texto:" ++ q ++ texto ++ q)%string)]);
                            ("range", JDict []) ]);
          ("sort", JList []) ].

Definition params_legislacion (texto from_date to_date : string) (limit : Z) : dict json :=
  let params := [ ("limit", JInt limit);
                  ("query", JStr (json_dumps None (consulta_legislacion texto))) ] in
  let params := if negb (String.eqb from_date "")
                then dict_set "from" (JStr from_date) params else params in
  if negb (String.eqb to_date "") then dict_set "to" (JStr to_date) params else params.

(** The dicts of a list of dicts. *)
Definition dicts_de (l : list json) : list (dict json) :=
  flat_map (fun x => match x with JDict d => [d] | _ => [] end) l.

Definition boe_legislacion_buscar (texto from_date to_date : string) (limit : Z) : res string :=
  let url := (BOE_BASE ++ "/legislacion-consolidada")%string in
  let data := _get_json url (Some (params_legislacion texto from_date to_date limit)) in
  hay_error <- py_in "_error" data ;;
  if hay_error : bool then Ok (_pretty_truncate data 4000)
  else
    let normas := match _find_list_of_dicts_with_key data "identificador" with
                  | Some l => if no_vacia l then l else []
                  | None => []
                  end in
    if no_vacia normas then Ok (_format_normas (dicts_de normas) limit)
    else Ok (_pretty_truncate data 4000).

(* ------------------------------------------------------------------ *)
(** *** pages/2_Chat_BOE.py: [extraer_normas] *)

(** ["identificador" in obj and "titulo" in obj] *)
Definition es_norma (obj : dict json) : bool :=
  dict_has "identificador" obj && dict_has "titulo" obj.

Fixpoint buscar_recursivo_normas (obj : json) (normas : list json) : list json :=
  match obj with
  | JDict d =>
      fold_left (fun ns kv => buscar_recursivo_normas (snd kv) ns) d
        (if es_norma d then normas ++ [JDict d] else normas)
  | JList l => fold_left (fun ns item => buscar_recursivo_normas item ns) l normas
  | _ => normas
  end.

Definition extraer_normas (data : json) (limit : Z) : list json :=
  slice_hasta limit (buscar_recursivo_normas data []).

(* ------------------------------------------------------------------ *)
(** *** pages/2_Chat_BOE.py: [generar_respuesta_con_contexto] *)

Definition system_prompt_de (contexto : string) : string :=
  ("Eres un asistente experto en legislación española y el BOE.
    
Contexto disponible:
" ++ contexto ++ "

Instrucciones:
- Responde de forma clara y concisa
- Usa el contexto proporcionado
- Si el contexto no es suficiente, dilo claramente
- Proporciona enlaces cuando estén disponibles
- Usa formato Markdown para mejor legibilidad
")%string.

(** [isinstance(item, dict) and item.get('type') == 'text'] *)
Definition es_bloque_texto (item : json) : bool :=
  match item with
  | JDict d => match get_none "type" d with
               | JStr t => String.eqb t "text"
               | _ => false
               end
  | _ => false
  end.

(** The loop over [response.content]: the value returned, if any. *)
Fixpoint primer_bloque_texto (content : list json) : option json :=
  match content with
  | [] => None
  | item :: resto =>
      match item with
      | JDict d =>
          match get_none "type" d with
          | JStr t =>
              if String.eqb t "text" then Some (get_or "text" (JStr "") d)
              else primer_bloque_texto resto
          | _ => primer_bloque_texto resto
          end
      | _ => primer_bloque_texto resto
      end
  end.

Definition generar_respuesta_con_contexto (pregunta contexto : string) : json :=
  match llm_invoke (system_prompt_de contexto) pregunta with
  | Cuerpo (JStr s) => JStr s
  | Cuerpo (JList content) =>
      match primer_bloque_texto content with
      | Some texto => texto
      | None => JStr "No pude generar una respuesta."
      end
  | Cuerpo _ => JStr "No pude generar una respuesta."
  | Excepcion tipo mensaje => JStr ("⚠️ Error: " ++ tipo ++ ": " ++ mensaje)%string
  end.

(* ------------------------------------------------------------------ *)
(** *** Reading the results *)

(** The test of [_find_list_of_dicts_with_key] on one node. *)
Definition lista_con_clave (key : string) (n : json) : option (list json) :=
  match n with
  | JList l => if es_lista_con_clave key l then Some l else None
  | _ => None
  end.

(** The lines [boe_sumario] writes for a node it returns an entry for. *)
Definition lineas_de_nodo (d : dict json) : list string :=
  match entrada_de d with
  | JDict e =>
      ("- **" ++ formato (get_none "titulo" e) ++ "**")%string
      :: map (fun kv => ("  - " ++ fst kv ++ ": " ++ formato (snd kv))%string) (urls_de d)
  | _ => []
  end.

(** The bucket of a topic in a classification, empty when absent. *)
Definition cubo_de (k : string) (c : clasificacion_t) : list documento :=
  match dict_get k c with
  | Some b => b
  | None => []
  end.

(** The keyword parameters [enviar_email_digest] accepts from [**config_email]. *)
Definition clave_de_config (k : string) : bool :=
  String.eqb k "smtp_server" || String.eqb k "smtp_port" || String.eqb k "remitente"
  || String.eqb k "password".

(** Two documents with the same title, section, department and PDF and HTML
    links. *)
Definition mismos_campos_html (d d' : documento) : Prop :=
  dict_get "titulo" d = dict_get "titulo" d'
  /\ dict_get "seccion" d = dict_get "seccion" d'
  /\ dict_get "departamento" d = dict_get "departamento" d'
  /\ dict_get "url_pdf" d = dict_get "url_pdf" d'
  /\ dict_get "url_html" d = dict_get "url_html" d'.

(* ================================================================== *)
(** ** Lists, dicts and trees: auxiliary facts *)
(* ================================================================== *)

(** Induction over a tree, with the hypothesis for every child. *)
Lemma json_ind (P : json -> Prop)
    (Hnull : P JNull) (Hbool : forall b, P (JBool b)) (Hint : forall n, P (JInt n))
    (Hfloat : forall f, P (JFloat f)) (Hstr : forall s, P (JStr s))
    (Hlist : forall l, Forall P l -> P (JList l))
    (Hdict : forall d, Forall (fun kv => P (snd kv)) d -> P (JDict d)) :
  forall x, P x.
Proof.
  fix IH 1. intros [ | b | n | f | s | l | d].
  - exact Hnull.
  - apply Hbool.
  - apply Hint.
  - apply Hfloat.
  - apply Hstr.
  - apply Hlist.
    refine ((fix hijos (l : list json) : Forall P l :=
               match l with
               | [] => Forall_nil _
               | a :: r => Forall_cons a (IH a) (hijos r)
               end) l).
  - apply Hdict.
    refine ((fix hijos (d : dict json) : Forall (fun kv => P (snd kv)) d :=
               match d with
               | [] => Forall_nil _
               | kv :: r => Forall_cons kv (IH (snd kv)) (hijos r)
               end) d).
Qed.

Lemma flat_map_flat_map {A B C : Type} (g : B -> list C) (h : A -> list B) (l : list A) :
  flat_map g (flat_map h l) = flat_map (fun a => flat_map g (h a)) l.
Proof.
  induction l as [ | a l IH]; simpl; [reflexivity | ].
  rewrite flat_map_app, IH. reflexivity.
Qed.

Lemma in_firstn {A : Type} (n : nat) (l : list A) (a : A) :
  In a (firstn n l) -> In a l.
Proof.
  revert l. induction n as [ | n IH]; intros [ | b l]; simpl; try tauto_sin_entorno.
  intros [H | H]; auto.
Qed.

Lemma firstn_resto {A : Type} (n : nat) (l1 l2 : list A) :
  firstn (n - length (firstn n l1)) l2 = firstn (n - length l1) l2.
Proof.
  rewrite length_firstn.
  destruct (Nat.le_gt_cases (length l1) n) as [H | H].
  - rewrite Nat.min_r by assumption. reflexivity.
  - rewrite Nat.min_l by lia.
    replace (n - n) with 0 by lia. replace (n - length l1) with 0 by lia. reflexivity.
Qed.

(** A walk that appends the selection of each child, over all the children. *)
Lemma fold_left_recorrido {A B : Type} (w : B -> list A -> list A) (sel : B -> list A)
    (vs : list B) :
  Forall (fun v => forall o, w v o = o ++ sel v) vs ->
  forall out, fold_left (fun o v => w v o) vs out = out ++ flat_map sel vs.
Proof.
  induction 1 as [ | v vs Hv _ IH]; intros out; simpl.
  - rewrite app_nil_r. reflexivity.
  - rewrite IH, Hv, <- app_assoc. reflexivity.
Qed.

(** The same for a walk that stops once [L] results are collected. *)
Lemma fold_left_recorrido_limite {A B : Type} (L : nat) (w : B -> list A -> list A)
    (sel : B -> list A) (vs : list B) :
  Forall (fun v => forall o, w v o = o ++ firstn (L - length o) (sel v)) vs ->
  forall out,
    fold_left (fun o v => w v o) vs out = out ++ firstn (L - length out) (flat_map sel vs).
Proof.
  induction 1 as [ | v vs Hv _ IH]; intros out; simpl.
  - rewrite firstn_nil, app_nil_r. reflexivity.
  - rewrite IH, Hv, <- app_assoc. f_equal.
    rewrite firstn_app. f_equal.
    rewrite length_app.
    replace (L - (length out + length (firstn (L - length out) (sel v))))
      with ((L - length out) - length (firstn (L - length out) (sel v))) by lia.
    apply firstn_resto.
Qed.

Lemma seleccion_escalar {A : Type} (p : dict json -> bool) (f : dict json -> A) (x : json) :
  match x with JList _ | JDict _ => False | _ => True end -> seleccion p f x = [].
Proof. destruct x; simpl; intros H; try reflexivity; destruct H. Qed.

Lemma seleccion_lista {A : Type} (p : dict json -> bool) (f : dict json -> A) (l : list json) :
  seleccion p f (JList l) = flat_map (seleccion p f) l.
Proof.
  unfold seleccion. simpl. rewrite flat_map_flat_map. reflexivity.
Qed.

Lemma seleccion_dict {A : Type} (p : dict json -> bool) (f : dict json -> A) (d : dict json) :
  seleccion p f (JDict d)
  = (if p d then [f d] else []) ++ flat_map (fun kv => seleccion p f (snd kv)) d.
Proof.
  unfold seleccion. simpl. rewrite flat_map_flat_map. reflexivity.
Qed.

Lemma seleccion_ext {A : Type} (p p' : dict json -> bool) (f : dict json -> A) (x : json) :
  (forall d, p d = p' d) -> seleccion p f x = seleccion p' f x.
Proof.
  intros H. unfold seleccion. apply flat_map_ext.
  intros [ | | | | | | d]; try reflexivity. rewrite H. reflexivity.
Qed.

(** Every selected record comes from a mapping node of the tree that [p]
    accepts, and every such node contributes its record. *)
Lemma in_seleccion {A : Type} (p : dict json -> bool) (f : dict json -> A) (x : json) (a : A) :
  In a (seleccion p f x) <-> exists d, In (JDict d) (nodos x) /\ p d = true /\ a = f d.
Proof.
  unfold seleccion. rewrite in_flat_map. split.
  - intros [n [Hn Ha]]. destruct n as [ | | | | | | d]; try destruct Ha.
    destruct (p d) eqn:Hp; [ | destruct Ha].
    destruct Ha as [Ha | []]. exists d. auto.
  - intros [d [Hn [Hp Ha]]]. exists (JDict d). split; [assumption | ].
    rewrite Hp. left. symmetry. assumption.
Qed.

Lemma in_dict_keys_set {V : Type} (k k' : string) (v : V) (d : dict V) :
  In k' (dict_keys (dict_set k v d)) <-> k' = k \/ In k' (dict_keys d).
Proof.
  induction d as [ | [k0 v0] d IH]; simpl.
  - split; [intros [H | []]; left; symmetry; exact H | intros [H | []]; left; symmetry; exact H].
  - destruct (String.eqb_spec k0 k) as [-> | Hne]; simpl.
    + split; [intros [H | H]; [left; symmetry; exact H | right; right; exact H] | ].
      intros [H | [H | H]]; [left; symmetry; exact H | left; exact H | right; exact H].
    + rewrite IH. tauto_sin_entorno.
Qed.

Lemma dict_has_in {V : Type} (k : string) (d : dict V) :
  dict_has k d = true <-> In k (dict_keys d).
Proof.
  unfold dict_has, dict_keys. rewrite existsb_exists, in_map_iff. split.
  - intros [kv [Hin Heq]]. apply String.eqb_eq in Heq. exists kv. auto.
  - intros [kv [Heq Hin]]. exists kv. split; [assumption | ]. apply String.eqb_eq. assumption.
Qed.

(* ================================================================== *)
(** ** The three extractors as selections over the encounter order *)
(* ================================================================== *)

Lemma seleccion_map {A : Type} (p : dict json -> bool) (f : dict json -> A) (x : json) :
  seleccion p f x = map f (seleccion p (fun d => d) x).
Proof.
  unfold seleccion. induction (nodos x) as [ | n l IH]; simpl; [reflexivity | ].
  rewrite map_app, IH. f_equal.
  destruct n as [ | | | | | | d]; try reflexivity. destruct (p d); reflexivity.
Qed.

Lemma buscar_recursivo_seleccion (x : json) :
  forall docs, buscar_recursivo x docs = docs ++ seleccion es_documento documento_de x.
Proof.
  induction x as [ | b | n | f | s | l IH | d IH] using json_ind; intros docs;
    try (simpl; rewrite app_nil_r; reflexivity).
  - rewrite seleccion_lista. simpl buscar_recursivo.
    apply (fold_left_recorrido buscar_recursivo). exact IH.
  - rewrite seleccion_dict. simpl buscar_recursivo.
    rewrite (fold_left_recorrido (fun kv o => buscar_recursivo (snd kv) o)
               (fun kv => seleccion es_documento documento_de (snd kv))) by exact IH.
    destruct (es_documento d); simpl; rewrite <- ?app_assoc; reflexivity.
Qed.

Lemma buscar_recursivo_sumario_seleccion (x : json) :
  forall docs,
    buscar_recursivo_sumario x docs = docs ++ seleccion es_documento documento_sumario_de x.
Proof.
  induction x as [ | b | n | f | s | l IH | d IH] using json_ind; intros docs;
    try (simpl; rewrite app_nil_r; reflexivity).
  - rewrite seleccion_lista. simpl buscar_recursivo_sumario.
    apply (fold_left_recorrido buscar_recursivo_sumario). exact IH.
  - rewrite seleccion_dict. simpl buscar_recursivo_sumario.
    rewrite (fold_left_recorrido (fun kv o => buscar_recursivo_sumario (snd kv) o)
               (fun kv => seleccion es_documento documento_sumario_de (snd kv))) by exact IH.
    destruct (es_documento d); simpl; rewrite <- ?app_assoc; reflexivity.
Qed.

Lemma extraer_documentos_seleccion (x : json) :
  extraer_documentos x = seleccion es_documento documento_de x.
Proof. unfold extraer_documentos. rewrite buscar_recursivo_seleccion. reflexivity. Qed.

Lemma slice_hasta_no_negativo {A : Type} (limit : Z) (l : list A) :
  (0 <= limit)%Z -> slice_hasta limit l = firstn (Z.to_nat limit) l.
Proof.
  intros H. unfold slice_hasta.
  destruct (Z.ltb_spec limit 0); [lia | reflexivity].
Qed.

Lemma rec_eq (limit : Z) (x : json) (out : list json) :
  rec limit x out =
  if (Z.of_nat (length out) >=? limit)%Z then out
  else
    match x with
    | JDict d =>
        fold_left (fun o kv => rec limit (snd kv) o) d
          (if es_entrada d then out ++ [entrada_de d] else out)
    | JList l => fold_left (fun o i => rec limit i o) l out
    | _ => out
    end.
Proof. destruct x; reflexivity. Qed.

Lemma rec_seleccion (limit : Z) (x : json) :
  forall out,
    rec limit x out
    = out ++ firstn (Z.to_nat limit - length out) (seleccion es_entrada entrada_de x).
Proof.
  induction x as [ | b | n | f | s | l IH | d IH] using json_ind; intros out;
    rewrite rec_eq;
    (destruct (Z.geb_spec (Z.of_nat (length out)) limit) as [Hlleno | Hsitio];
     [ replace (Z.to_nat limit - length out) with 0 by lia;
       rewrite firstn_O, app_nil_r; reflexivity | ]);
    try (rewrite seleccion_escalar by exact I; rewrite firstn_nil, app_nil_r; reflexivity).
  - rewrite seleccion_lista.
    apply (fold_left_recorrido_limite (Z.to_nat limit) (rec limit)). exact IH.
  - rewrite seleccion_dict.
    rewrite (fold_left_recorrido_limite (Z.to_nat limit)
               (fun kv o => rec limit (snd kv) o)
               (fun kv => seleccion es_entrada entrada_de (snd kv))) by exact IH.
    destruct (es_entrada d); simpl app; [ | reflexivity].
    rewrite <- app_assoc, length_app. simpl.
    destruct (Z.to_nat limit - length out) as [ | k] eqn:Hk; [lia | ].
    replace (Z.to_nat limit - (length out + 1)) with k by lia.
    reflexivity.
Qed.

Lemma extract_sumario_entries_seleccion (x : json) (limit : Z) :
  _extract_sumario_entries x limit
  = firstn (Z.to_nat limit) (seleccion es_entrada entrada_de x).
Proof.
  unfold _extract_sumario_entries. rewrite rec_seleccion. simpl.
  rewrite Nat.sub_0_r. reflexivity.
Qed.

(** The keys of [keys_lower x] are the lowercased keys of [x]. *)
Lemma in_keys_fold_set {V : Type} (g : V -> string) (ks : list V) :
  forall (acc : dict V) (k' : string),
    In k' (dict_keys (fold_left (fun acc k => dict_set (g k) k acc) ks acc))
    <-> In k' (dict_keys acc) \/ exists k, In k ks /\ g k = k'.
Proof.
  induction ks as [ | k ks IH]; intros acc k'; simpl.
  - split; [auto | intros [H | [k [[] _]]]; exact H].
  - rewrite IH, in_dict_keys_set. split.
    + intros [[-> | H] | [k0 [Hin Heq]]]; eauto.
    + intros [H | [k0 [[-> | Hin] Heq]]]; eauto.
Qed.

Lemma in_keys_lower (x : dict json) (k' : string) :
  In k' (dict_keys (keys_lower x)) <-> exists k, In k (dict_keys x) /\ lower k = k'.
Proof.
  unfold keys_lower. rewrite in_keys_fold_set. simpl. split.
  - intros [[] | H]. exact H.
  - auto.
Qed.

Lemma dict_has_keys_lower (x : dict json) (nombre : string) :
  dict_has nombre (keys_lower x)
  = existsb (fun k => String.eqb (lower k) nombre) (dict_keys x).
Proof.
  apply Bool.eq_iff_eq_true.
  rewrite dict_has_in, in_keys_lower, existsb_exists. split.
  - intros [k [Hin Heq]]. exists k. split; [assumption | ]. apply String.eqb_eq. assumption.
  - intros [k [Hin Heq]]. exists k. split; [assumption | ]. apply String.eqb_eq. assumption.
Qed.

Lemma existsb_orb {A : Type} (f g : A -> bool) (l : list A) :
  existsb (fun a => f a || g a) l = existsb f l || existsb g l.
Proof.
  induction l as [ | a l IH]; simpl; [reflexivity | ].
  rewrite IH. destruct (f a), (g a), (existsb f l); reflexivity.
Qed.

(** The test of [_extract_sumario_entries] is the specification's match rule. *)
Lemma es_entrada_califica (x : dict json) : es_entrada x = califica x.
Proof.
  unfold es_entrada, califica, clave_titulo, clave_url. cbv zeta.
  rewrite !dict_has_keys_lower, !existsb_orb, Bool.andb_comm. f_equal.
  apply Bool.eq_iff_eq_true. rewrite !existsb_exists. split.
  - intros [kl [Hin Hurl]]. apply in_keys_lower in Hin. destruct Hin as [k [Hin <-]]. eauto.
  - intros [k [Hin Hurl]]. exists (lower k). split; [ | assumption].
    apply in_keys_lower. eauto.
Qed.

Lemma extract_sumario_entries_devueltos (x : json) (limit : Z) :
  _extract_sumario_entries x limit = map entrada_de (nodos_devueltos x limit).
Proof.
  rewrite extract_sumario_entries_seleccion.
  rewrite (seleccion_ext es_entrada califica) by exact es_entrada_califica.
  unfold nodos_devueltos. rewrite seleccion_map, firstn_map. reflexivity.
Qed.

(** The exact-key test of [extraer_documentos] implies the match rule, for a
    [lower] that leaves "titulo" and a leading "url" as they are. *)
Lemma es_documento_califica (x : dict json) :
  lower "titulo" = "titulo" ->
  (forall k, startswith "url" k = true -> startswith "url" (lower k) = true) ->
  es_documento x = true -> califica x = true.
Proof.
  intros Htit Hurl H. unfold es_documento in H. apply andb_prop in H. destruct H as [H1 H2].
  unfold califica, clave_titulo, clave_url. apply andb_true_intro. split.
  - apply dict_has_in in H1. apply existsb_exists. exists "titulo". split; [assumption | ].
    rewrite Htit. reflexivity.
  - apply existsb_exists in H2. destruct H2 as [k [Hin Hk]].
    apply existsb_exists. exists k. auto.
Qed.

(* ================================================================== *)
(** ** The classifier computes the buckets *)
(* ================================================================== *)

Lemma dict_get_has {V : Type} (k : string) (d : dict V) :
  dict_has k d = true -> exists v, dict_get k d = Some v.
Proof.
  induction d as [ | [k0 v0] d IH]; simpl; [discriminate | ].
  destruct (String.eqb k0 k); simpl; eauto.
Qed.

Lemma dict_get_sin_clave {V : Type} (k : string) (d : dict V) :
  dict_has k d = false -> dict_get k d = None.
Proof.
  induction d as [ | [k0 v0] d IH]; simpl; [reflexivity | ].
  destruct (String.eqb k0 k); simpl; [discriminate | exact IH].
Qed.

Lemma dict_getitem_has (k : string) (d : dict json) :
  dict_has k d = true -> dict_getitem k d = Ok (get_none k d).
Proof.
  intros H. destruct (dict_get_has k d H) as [v Hv].
  unfold dict_getitem, get_none, get_or. rewrite Hv. reflexivity.
Qed.

Lemma texto_busqueda_campos (doc : documento) :
  tiene_campos doc = true -> texto_busqueda doc = Ok (texto_de doc).
Proof.
  unfold tiene_campos. intros H.
  apply andb_prop in H. destruct H as [H Hd]. apply andb_prop in H. destruct H as [Ht Hs].
  unfold texto_busqueda. rewrite !dict_getitem_has by assumption. reflexivity.
Qed.

(** A document without one of the fields makes the lookup raise. *)
Lemma texto_busqueda_sin_campos (doc : documento) :
  tiene_campos doc = false -> exists k, texto_busqueda doc = Raise (KeyError k).
Proof.
  unfold tiene_campos, texto_busqueda, dict_getitem. intros H.
  destruct (dict_get "titulo" doc) eqn:Ht; simpl; [ | eauto].
  destruct (dict_get "seccion" doc) eqn:Hs; simpl; [ | eauto].
  destruct (dict_get "departamento" doc) eqn:Hd; simpl; [ | eauto].
  assert (Hhas : forall k v, dict_get k doc = Some v -> dict_has k doc = true).
  { intros k v. unfold dict_has. clear. induction doc as [ | [k0 v0] d IH]; simpl; [discriminate | ].
    destruct (String.eqb k0 k); simpl; auto. }
  rewrite (Hhas _ _ Ht), (Hhas _ _ Hs), (Hhas _ _ Hd) in H. discriminate.
Qed.

Lemma dict_get_map_claves {V : Type} (B : string -> V) (claves : list string) (k : string) :
  In k claves -> dict_get k (map (fun k => (k, B k)) claves) = Some (B k).
Proof.
  induction claves as [ | k0 claves IH]; simpl; [intros [] | ].
  intros H. destruct (String.eqb_spec k0 k) as [-> | Hne]; [reflexivity | ].
  destruct H as [H | H]; [contradiction | auto].
Qed.

Lemma dict_set_map_claves {V : Type} (B : string -> V) (claves : list string) (k : string) (v : V) :
  NoDup claves -> In k claves ->
  dict_set k v (map (fun k => (k, B k)) claves)
  = map (fun k' => (k', if String.eqb k' k then v else B k')) claves.
Proof.
  induction 1 as [ | k0 claves Hnotin Hnd IH]; simpl; [intros [] | ].
  intros H. destruct (String.eqb_spec k0 k) as [-> | Hne].
  - f_equal. apply map_ext_in. intros k' Hk'.
    destruct (String.eqb_spec k' k) as [-> | _]; [contradiction | reflexivity].
  - f_equal. destruct H as [H | H]; [contradiction | auto].
Qed.

Lemma dict_set_nueva {V : Type} (k : string) (v : V) (d : dict V) :
  ~ In k (dict_keys d) -> dict_set k v d = d ++ [(k, v)].
Proof.
  induction d as [ | [k0 v0] d IH]; simpl; [reflexivity | ].
  intros H. destruct (String.eqb_spec k0 k) as [-> | Hne].
  - exfalso. apply H. left. reflexivity.
  - f_equal. apply IH. intros Hin. apply H. right. exact Hin.
Qed.

Lemma primer_tema_activo (activos : dict (list string)) (texto tema : string) :
  primer_tema activos texto = Some tema -> In tema (dict_keys activos).
Proof.
  induction activos as [ | [t kws] activos IH]; simpl; [discriminate | ].
  destruct (alguna_keyword kws texto).
  - intros [= ->]. left. reflexivity.
  - intros H. right. auto.
Qed.

Lemma temas_activos_claves (tabla : dict (list string)) (filtro : option (list string)) (k : string) :
  In k (dict_keys (temas_activos_de tabla filtro)) -> In k (dict_keys tabla).
Proof.
  unfold temas_activos_de. destruct filtro as [[ | t f] | ]; try (intros H; exact H).
  unfold dict_keys. rewrite !in_map_iff. intros [kv [Heq Hin]].
  apply filter_In in Hin. exists kv. tauto_sin_entorno.
Qed.

Lemma tema_de_clave (activos : dict (list string)) (claves : list string) (doc : documento) :
  (forall k, In k (dict_keys activos) -> In k claves) -> In "otros" claves ->
  In (tema_de activos doc) claves.
Proof.
  intros Hsub Hotros. unfold tema_de.
  destruct (primer_tema activos (texto_de doc)) eqn:H; [ | assumption].
  apply Hsub. eapply primer_tema_activo. eassumption.
Qed.

(** The loop, started from any buckets over [claves], appends to each bucket
    the documents of its topic, in order. *)
Lemma clasificar_bucle_cubos (activos : dict (list string)) (claves : list string) :
  NoDup claves -> In "otros" claves ->
  (forall k, In k (dict_keys activos) -> In k claves) ->
  forall (docs : list documento) (B : string -> list documento),
    Forall (fun d => tiene_campos d = true) docs ->
    clasificar_bucle activos docs (map (fun k => (k, B k)) claves)
    = Ok (map (fun k => (k, B k ++ filter (fun d => String.eqb (tema_de activos d) k) docs))
              claves).
Proof.
  intros Hnd Hotros Hsub docs. induction docs as [ | doc docs IH]; intros B Hcampos.
  - simpl. f_equal. apply map_ext. intros k. rewrite app_nil_r. reflexivity.
  - inversion Hcampos as [ | ? ? Hdoc Hresto]; subst.
    simpl clasificar_bucle. rewrite (texto_busqueda_campos doc Hdoc). simpl res_bind.
    fold (tema_de activos doc).
    assert (Hin : In (tema_de activos doc) claves) by (apply tema_de_clave; assumption).
    unfold anotar, dict_getitem. rewrite dict_get_map_claves by assumption. simpl res_bind.
    rewrite dict_set_map_claves by assumption.
    rewrite IH by assumption. f_equal. apply map_ext. intros k.
    simpl filter. rewrite (String.eqb_sym k).
    destruct (String.eqb_spec (tema_de activos doc) k) as [Heq | Hne]; [ | reflexivity].
    subst k. rewrite <- app_assoc. reflexivity.
Qed.

(** On documents that have the three fields the classifier returns the
    buckets, for a table with distinct keys none of which is "otros". *)
Lemma clasificar_con_cubos (tabla : dict (list string)) (docs : list documento)
    (filtro : option (list string)) :
  NoDup (dict_keys tabla) -> ~ In "otros" (dict_keys tabla) ->
  Forall (fun d => tiene_campos d = true) docs ->
  clasificar_con tabla docs filtro = Ok (cubos tabla docs filtro).
Proof.
  intros Hnd Hotros Hcampos. unfold clasificar_con, cubos.
  assert (Hini : dict_set "otros" [] (map (fun tema => (tema, @nil documento)) (dict_keys tabla))
                 = map (fun k => (k, @nil documento)) (dict_keys tabla ++ ["otros"])).
  { rewrite dict_set_nueva.
    - rewrite map_app. reflexivity.
    - unfold dict_keys at 1. rewrite map_map. simpl. rewrite map_id. exact Hotros. }
  rewrite Hini.
  rewrite (clasificar_bucle_cubos _ (dict_keys tabla ++ ["otros"])); try assumption.
  - reflexivity.
  - apply NoDup_app; [assumption | repeat constructor; intros [] | ].
    intros k Hk [<- | []]. contradiction.
  - apply in_or_app. right. left. reflexivity.
  - intros k Hk. apply in_or_app. left. eapply temas_activos_claves. eassumption.
Qed.

(* ================================================================== *)
(** ** What the buckets are *)
(* ================================================================== *)

Lemma TEMAS_BOE_claves :
  NoDup (dict_keys TEMAS_BOE) /\ ~ In "otros" (dict_keys TEMAS_BOE).
Proof.
  split.
  - repeat (constructor;
            [simpl; intros H; repeat (destruct H as [H | H]; [discriminate H | ]); exact H | ]).
    constructor.
  - simpl. intros H. repeat (destruct H as [H | H]; [discriminate H | ]). exact H.
Qed.

Lemma claves_filtradas {V : Type} (p : V -> bool) (g : string -> V) (l : list string) :
  dict_keys (filter (fun kv => p (snd kv)) (map (fun k => (k, g k)) l))
  = filter (fun k => p (g k)) l.
Proof.
  induction l as [ | k l IH]; simpl; [reflexivity | ].
  destruct (p (g k)); simpl; rewrite IH; reflexivity.
Qed.

Lemma in_cubos (tabla : dict (list string)) (docs : list documento)
    (filtro : option (list string)) (k : string) (b : list documento) :
  In (k, b) (cubos tabla docs filtro)
  <-> In k (dict_keys tabla ++ ["otros"])
      /\ b = cubo (temas_activos_de tabla filtro) docs k
      /\ b <> [].
Proof.
  unfold cubos. rewrite filter_In, in_map_iff. simpl. split.
  - intros [[k' [Heq Hin]] Hb]. inversion Heq; subst. repeat split; try assumption.
    intros Hnil. rewrite Hnil in Hb. discriminate.
  - intros [Hin [Heq Hb]]. split.
    + exists k. subst b. auto.
    + destruct b; [contradiction | reflexivity].
Qed.

Lemma concat_no_vacias {A : Type} (c : dict (list A)) :
  concat (dict_values (filter (fun kv => no_vacia (snd kv)) c)) = concat (dict_values c).
Proof.
  induction c as [ | [k b] c IH]; simpl; [reflexivity | ].
  destruct b as [ | a b]; simpl; rewrite IH; reflexivity.
Qed.

Lemma cubo_cons (activos : dict (list string)) (d : documento) (docs : list documento)
    (k : string) :
  cubo activos (d :: docs) k
  = if String.eqb (tema_de activos d) k then d :: cubo activos docs k else cubo activos docs k.
Proof. reflexivity. Qed.

Lemma in_cubo (activos : dict (list string)) (docs : list documento) (k : string)
    (d : documento) :
  In d (cubo activos docs k) <-> In d docs /\ tema_de activos d = k.
Proof. unfold cubo. rewrite filter_In, String.eqb_eq. reflexivity. Qed.

(** Putting one more document in front adds it to the bucket of its topic
    and to no other. *)
Lemma reparto_cons (activos : dict (list string)) (d : documento) (docs : list documento)
    (claves : list string) :
  NoDup claves ->
  (In (tema_de activos d) claves ->
   Permutation (concat (map (cubo activos (d :: docs)) claves))
               (d :: concat (map (cubo activos docs) claves)))
  /\ (~ In (tema_de activos d) claves ->
      concat (map (cubo activos (d :: docs)) claves) = concat (map (cubo activos docs) claves)).
Proof.
  induction 1 as [ | k claves Hnotin Hnd IH]; cbn [map concat].
  - split; [intros [] | reflexivity].
  - destruct IH as [IHin IHout]. rewrite cubo_cons.
    destruct (String.eqb_spec (tema_de activos d) k) as [Heq | Hne]; split.
    + intros _. subst k. rewrite (IHout Hnotin). reflexivity.
    + intros H. exfalso. apply H. left. symmetry. exact Heq.
    + intros [H | H]; [exfalso; apply Hne; symmetry; exact H | ].
      rewrite (IHin H). symmetry. apply Permutation_middle.
    + intros H. rewrite IHout; [reflexivity | ]. intros Hin. apply H. right. exact Hin.
Qed.

Lemma reparto_permutacion (activos : dict (list string)) (docs : list documento)
    (claves : list string) :
  NoDup claves -> (forall d, In d docs -> In (tema_de activos d) claves) ->
  Permutation (concat (map (cubo activos docs) claves)) docs.
Proof.
  intros Hnd. induction docs as [ | d docs IH]; intros Hin.
  - replace (concat (map (cubo activos []) claves)) with (@nil documento).
    + constructor.
    + clear. induction claves; simpl; auto.
  - destruct (reparto_cons activos d docs claves Hnd) as [Hperm _].
    rewrite Hperm by (apply Hin; left; reflexivity).
    constructor. apply IH. intros d' Hd'. apply Hin. right. exact Hd'.
Qed.

Lemma claves_con_otros (tabla : dict (list string)) :
  NoDup (dict_keys tabla) -> ~ In "otros" (dict_keys tabla) ->
  NoDup (dict_keys tabla ++ ["otros"]).
Proof.
  intros Hnd Hotros. apply NoDup_app; [assumption | repeat constructor; intros [] | ].
  intros k Hk [<- | []]. contradiction.
Qed.

Lemma tema_de_en_claves (tabla : dict (list string)) (filtro : option (list string))
    (doc : documento) :
  In (tema_de (temas_activos_de tabla filtro) doc) (dict_keys tabla ++ ["otros"]).
Proof.
  apply tema_de_clave.
  - intros k Hk. apply in_or_app. left. eapply temas_activos_claves. eassumption.
  - apply in_or_app. right. left. reflexivity.
Qed.

Lemma cubos_permutacion (tabla : dict (list string)) (docs : list documento)
    (filtro : option (list string)) :
  NoDup (dict_keys tabla) -> ~ In "otros" (dict_keys tabla) ->
  Permutation (concat (dict_values (cubos tabla docs filtro))) docs.
Proof.
  intros Hnd Hotros. unfold cubos. rewrite concat_no_vacias.
  unfold dict_values. rewrite map_map. cbn [snd].
  apply reparto_permutacion.
  - apply claves_con_otros; assumption.
  - intros d _. apply tema_de_en_claves.
Qed.

Lemma cubos_claves (tabla : dict (list string)) (docs : list documento)
    (filtro : option (list string)) :
  dict_keys (cubos tabla docs filtro)
  = filter (fun k => no_vacia (cubo (temas_activos_de tabla filtro) docs k))
           (dict_keys tabla ++ ["otros"]).
Proof.
  unfold cubos.
  apply (claves_filtradas no_vacia (cubo (temas_activos_de tabla filtro) docs)).
Qed.

(** A document of the input is in the bucket of its topic, which is part of
    the result. *)
Lemma cubos_asignado (tabla : dict (list string)) (docs : list documento)
    (filtro : option (list string)) (d : documento) :
  In d docs ->
  let k := tema_de (temas_activos_de tabla filtro) d in
  In (k, cubo (temas_activos_de tabla filtro) docs k) (cubos tabla docs filtro)
  /\ In d (cubo (temas_activos_de tabla filtro) docs k).
Proof.
  intros Hin k.
  assert (Hd : In d (cubo (temas_activos_de tabla filtro) docs k))
    by (apply in_cubo; auto).
  split; [ | exact Hd].
  apply in_cubos. repeat split.
  - apply tema_de_en_claves.
  - intros Hnil. rewrite Hnil in Hd. destruct Hd.
Qed.

(* ================================================================== *)
(** ** Filters, first match and keyword order *)
(* ================================================================== *)

(** The buckets when no topic is active. *)
Lemma cubo_sin_activos (docs : list documento) (k : string) :
  cubo [] docs k = if String.eqb "otros" k then docs else [].
Proof.
  induction docs as [ | d docs IH]; [destruct (String.eqb "otros" k); reflexivity | ].
  rewrite cubo_cons, IH. unfold tema_de. simpl primer_tema.
  destruct (String.eqb "otros" k); reflexivity.
Qed.

Lemma temas_activos_de_some (tabla : dict (list string)) (filtro : list string) :
  temas_activos_de tabla (Some filtro)
  = if no_vacia filtro
    then filter (fun kv => existsb (fun t => String.eqb t (fst kv)) filtro) tabla
    else tabla.
Proof. destruct filtro; reflexivity. Qed.

Lemma no_vacia_true {A : Type} (l : list A) : l <> [] -> no_vacia l = true.
Proof. destruct l; [contradiction | reflexivity]. Qed.

(** A filter with a known name selects what its known names select. *)
Lemma temas_activos_conocidos (tabla : dict (list string)) (filtro : list string) :
  let conocidos := filter (fun t => existsb (String.eqb t) (dict_keys tabla)) filtro in
  conocidos <> [] ->
  temas_activos_de tabla (Some filtro) = temas_activos_de tabla (Some conocidos).
Proof.
  intros conocidos Hne. rewrite !temas_activos_de_some.
  rewrite (no_vacia_true conocidos Hne).
  assert (Hf : filtro <> []) by (intros ->; apply Hne; reflexivity).
  rewrite (no_vacia_true filtro Hf).
  apply filter_ext_in. intros [k v] Hin. simpl.
  apply Bool.eq_iff_eq_true. rewrite !existsb_exists. split.
  - intros [t [Ht Heq]]. exists t. split; [ | assumption].
    apply filter_In. split; [assumption | ].
    apply existsb_exists. exists k. split; [ | assumption].
    apply in_map_iff. exists (k, v). auto.
  - intros [t [Ht Heq]]. exists t. split; [ | assumption].
    apply filter_In in Ht. tauto_sin_entorno.
Qed.

(** A non-empty filter without any known name activates no topic. *)
Lemma temas_activos_desconocidos (tabla : dict (list string)) (filtro : list string) :
  filtro <> [] ->
  filter (fun t => existsb (String.eqb t) (dict_keys tabla)) filtro = [] ->
  temas_activos_de tabla (Some filtro) = [].
Proof.
  intros Hne Hnone. rewrite temas_activos_de_some, (no_vacia_true filtro Hne).
  assert (Hall : forall k, In k (dict_keys tabla) ->
                   existsb (fun t => String.eqb t k) filtro = false).
  { intros k Hk. destruct (existsb (fun t => String.eqb t k) filtro) eqn:Hex; [ | reflexivity].
    apply existsb_exists in Hex. destruct Hex as [t [Ht Heq]].
    assert (Hin : In t (filter (fun t => existsb (String.eqb t) (dict_keys tabla)) filtro)).
    { apply filter_In. split; [assumption | ]. apply existsb_exists. eauto. }
    rewrite Hnone in Hin. destruct Hin. }
  clear Hnone Hne. induction tabla as [ | [k v] tabla IH]; [reflexivity | ].
  cbn [filter fst]. rewrite (Hall k) by (left; reflexivity).
  apply IH. intros k' Hk'. apply Hall. right. exact Hk'.
Qed.








(** A run that returns met no document without the three fields. *)
Lemma clasificar_bucle_campos (activos : dict (list string)) (docs : list documento) :
  forall c c', clasificar_bucle activos docs c = Ok c' ->
               Forall (fun d => tiene_campos d = true) docs.
Proof.
  induction docs as [ | d docs IH]; intros c c' H; [constructor | ].
  simpl in H. destruct (tiene_campos d) eqn:Hd.
  - constructor; [assumption | ].
    rewrite (texto_busqueda_campos d Hd) in H. simpl in H.
    destruct (anotar _ d c) as [c1 | e]; simpl in H; [eapply IH; eassumption | discriminate].
  - destruct (texto_busqueda_sin_campos d Hd) as [k Hk]. rewrite Hk in H. discriminate.
Qed.

Lemma clasificar_por_tema_cubos (docs : list documento) (filtro : option (list string)) :
  Forall (fun d => tiene_campos d = true) docs ->
  clasificar_por_tema docs filtro = Ok (cubos TEMAS_BOE docs filtro).
Proof.
  intros H. apply clasificar_con_cubos; [apply TEMAS_BOE_claves | apply TEMAS_BOE_claves | exact H].
Qed.

(** What [extraer_documentos] returns has the three fields; a section or a
    department missing from the node is the empty string. *)
Lemma extraer_documentos_campos (x : json) :
  Forall (fun d => tiene_campos d = true) (extraer_documentos x).
Proof.
  rewrite extraer_documentos_seleccion. apply Forall_forall. intros doc H.
  apply in_seleccion in H. destruct H as [d [_ [_ ->]]]. reflexivity.
Qed.


(* ================================================================== *)
(** ** The renderer, section by section *)
(* ================================================================== *)

Lemma contar_documentos_app (a b : list fragmento) :
  contar_documentos (a ++ b) = (contar_documentos a + contar_documentos b)%Z.
Proof. unfold contar_documentos, len. rewrite filter_app, length_app. lia. Qed.

Lemma notas_mas_app (a b : list fragmento) : notas_mas (a ++ b) = notas_mas a ++ notas_mas b.
Proof. apply flat_map_app. Qed.

Lemma temas_de_fragmentos_app (a b : list fragmento) :
  temas_de_fragmentos (a ++ b) = temas_de_fragmentos a ++ temas_de_fragmentos b.
Proof. apply flat_map_app. Qed.

(** One document with a title gives one entry, no note and no section. *)
Lemma fragmentos_documento_titulo (doc : documento) :
  dict_has "titulo" doc = true ->
  exists frs, fragmentos_documento doc = Ok frs
              /\ contar_documentos frs = 1%Z /\ notas_mas frs = []
              /\ temas_de_fragmentos frs = [].
Proof.
  intros H. unfold fragmentos_documento. rewrite (dict_getitem_has _ _ H). simpl res_bind.
  eexists. split; [reflexivity | ].
  destruct (truthy (get_none "seccion" doc) || truthy (get_none "departamento" doc)),
    (truthy (get_none "url_pdf" doc)), (truthy (get_none "url_html" doc)); repeat split.
Qed.

Lemma para_cada_documentos (docs : list documento) :
  Forall (fun d => dict_has "titulo" d = true) docs ->
  exists frs, para_cada fragmentos_documento docs = Ok frs
              /\ contar_documentos frs = len docs /\ notas_mas frs = []
              /\ temas_de_fragmentos frs = [].
Proof.
  induction 1 as [ | d docs Hd _ [frs [Hfrs [Hn [Hm Ht]]]]]; simpl.
  - exists []. repeat split.
  - destruct (fragmentos_documento_titulo d Hd) as [fd [Hfd [Hn1 [Hm1 Ht1]]]].
    rewrite Hfd, Hfrs. simpl. eexists. split; [reflexivity | ].
    rewrite contar_documentos_app, notas_mas_app, temas_de_fragmentos_app, Hn1, Hm1, Ht1, Hn, Hm, Ht.
    unfold len. simpl length. repeat split. lia.
Qed.

Lemma Forall_firstn {A : Type} (P : A -> Prop) (n : nat) (l : list A) :
  Forall P l -> Forall P (firstn n l).
Proof.
  intros H. apply Forall_forall. intros a Ha. apply in_firstn in Ha.
  rewrite Forall_forall in H. auto.
Qed.

(** One topic: at most ten entries, and a note exactly when there are more. *)
Lemma fragmentos_tema_truncado (tema : string) (docs : list documento) :
  Forall (fun d => dict_has "titulo" d = true) docs ->
  exists seccion,
    fragmentos_tema (tema, docs) = Ok seccion
    /\ contar_documentos seccion = Z.min (len docs) 10
    /\ notas_mas seccion = (if (len docs >? 10)%Z then [(len docs - 10)%Z] else [])
    /\ temas_de_fragmentos seccion = (if no_vacia docs then [tema] else []).
Proof.
  intros H. unfold fragmentos_tema.
  destruct docs as [ | d0 docs0] eqn:Hdocs; [exists []; repeat split | ].
  rewrite <- Hdocs in *. replace (no_vacia docs) with true by (rewrite Hdocs; reflexivity).
  simpl negb. cbv iota.
  destruct (para_cada_documentos (firstn 10 docs) (Forall_firstn _ 10 docs H))
    as [frs [Hfrs [Hn [Hm Ht]]]].
  rewrite Hfrs. cbn [res_bind]. eexists. split; [reflexivity | ].
  rewrite !contar_documentos_app, !notas_mas_app, !temas_de_fragmentos_app, Hn, Hm, Ht.
  assert (Hlen : len (firstn 10 docs) = Z.min (len docs) 10).
  { unfold len. rewrite length_firstn. lia. }
  rewrite Hlen.
  destruct (len docs >? 10)%Z; repeat split; cbn; lia.
Qed.

(** A loop whose body succeeds on every element with a result related to the
    element yields the concatenation of related results. *)
Lemma para_cada_Forall2 {A B : Type} (f : A -> res (list B)) (P : A -> list B -> Prop)
    (xs : list A) :
  Forall (fun x => exists ys, f x = Ok ys /\ P x ys) xs ->
  exists yss, para_cada f xs = Ok (concat yss)
              /\ Forall2 (fun x ys => f x = Ok ys /\ P x ys) xs yss.
Proof.
  induction 1 as [ | x xs [ys [Hf HP]] _ [yss [Hyss H2]]]; simpl.
  - exists []. split; [reflexivity | constructor].
  - exists (ys :: yss). rewrite Hf, Hyss. simpl. split; [reflexivity | ].
    constructor; auto.
Qed.

Lemma fold_left_suma (ls : list Z) (a : Z) :
  fold_left Z.add ls a = (a + fold_left Z.add ls 0)%Z.
Proof.
  revert a. induction ls as [ | z ls IH]; intros a; simpl; [lia | ].
  rewrite IH, (IH z). lia.
Qed.

(** The total in the header is the size of all the buckets together. *)
Lemma total_docs_de_concat (c : clasificacion_t) :
  total_docs_de c = len (concat (dict_values c)).
Proof.
  unfold total_docs_de. induction c as [ | [k b] c IH]; [reflexivity | ].
  simpl. rewrite fold_left_suma, IH. unfold len. rewrite length_app. lia.
Qed.


Lemma clasificar_por_tema_ok (docs : list documento) (filtro : option (list string))
    (c : clasificacion_t) :
  clasificar_por_tema docs filtro = Ok c ->
  Forall (fun d => tiene_campos d = true) docs /\ c = cubos TEMAS_BOE docs filtro.
Proof.
  intros H.
  assert (Hcampos : Forall (fun d => tiene_campos d = true) docs).
  { unfold clasificar_por_tema, clasificar_con in H.
    destruct (clasificar_bucle _ docs _) as [c' | e] eqn:Hb; [ | discriminate].
    eapply clasificar_bucle_campos. exact Hb. }
  split; [exact Hcampos | ].
  rewrite (clasificar_por_tema_cubos docs filtro Hcampos) in H. congruence.
Qed.


(* ================================================================== *)
(** ** Documents without one of the three fields *)
(* ================================================================== *)

(** The lookup raises for the first of the three keys that is absent. *)
Lemma texto_busqueda_clave_ausente (doc : documento) :
  tiene_campos doc = false ->
  exists k, In k ["titulo"; "seccion"; "departamento"] /\ dict_has k doc = false
            /\ texto_busqueda doc = Raise (KeyError k).
Proof.
  unfold tiene_campos, texto_busqueda. intros H.
  destruct (dict_has "titulo" doc) eqn:Ht.
  - rewrite (dict_getitem_has _ _ Ht). cbn [res_bind].
    destruct (dict_has "seccion" doc) eqn:Hs.
    + rewrite (dict_getitem_has _ _ Hs). cbn [res_bind].
      destruct (dict_has "departamento" doc) eqn:Hd; [discriminate H | ].
      exists "departamento". split; [right; right; left; reflexivity | ].
      split; [exact Hd | ].
      unfold dict_getitem. rewrite (dict_get_sin_clave _ _ Hd). reflexivity.
    + exists "seccion". split; [right; left; reflexivity | ]. split; [exact Hs | ].
      unfold dict_getitem. rewrite (dict_get_sin_clave _ _ Hs). reflexivity.
  - exists "titulo". split; [left; reflexivity | ]. split; [exact Ht | ].
    unfold dict_getitem. rewrite (dict_get_sin_clave _ _ Ht). reflexivity.
Qed.

(** The loop raises at the first document that lacks a field. *)
Lemma clasificar_bucle_clave_ausente (activos : dict (list string)) (claves : list string) :
  NoDup claves -> In "otros" claves ->
  (forall k, In k (dict_keys activos) -> In k claves) ->
  forall (docs : list documento) (B : string -> list documento),
    Exists (fun d => tiene_campos d = false) docs ->
    exists d k,
      In d docs /\ In k ["titulo"; "seccion"; "departamento"] /\ dict_has k d = false
      /\ clasificar_bucle activos docs (map (fun k => (k, B k)) claves) = Raise (KeyError k).
Proof.
  intros Hnd Hotros Hsub docs. induction docs as [ | doc docs IH]; intros B Hex.
  - inversion Hex.
  - destruct (tiene_campos doc) eqn:Hdoc.
    + assert (Hresto : Exists (fun d => tiene_campos d = false) docs).
      { inversion Hex as [? ? Hd | ? ? Hr]; subst; [congruence | exact Hr]. }
      cbn [clasificar_bucle]. rewrite (texto_busqueda_campos doc Hdoc). cbn [res_bind].
      fold (tema_de activos doc).
      assert (Hin : In (tema_de activos doc) claves) by (apply tema_de_clave; assumption).
      unfold anotar, dict_getitem. rewrite dict_get_map_claves by assumption. cbn [res_bind].
      rewrite dict_set_map_claves by assumption.
      destruct (IH (fun k' => if String.eqb k' (tema_de activos doc)
                              then B (tema_de activos doc) ++ [doc] else B k') Hresto)
        as [d [k [Hd [Hk [Hhas Hr]]]]].
      exists d, k. split; [right; exact Hd | ]. split; [exact Hk | ]. split; [exact Hhas | ].
      exact Hr.
    + destruct (texto_busqueda_clave_ausente doc Hdoc) as [k [Hk [Hhas Ht]]].
      exists doc, k. split; [left; reflexivity | ]. split; [exact Hk | ].
      split; [exact Hhas | ].
      cbn [clasificar_bucle]. rewrite Ht. reflexivity.
Qed.

Lemma clasificar_por_tema_clave_ausente (docs : list documento)
    (filtro : option (list string)) :
  Exists (fun d => tiene_campos d = false) docs ->
  exists d k,
    In d docs /\ In k ["titulo"; "seccion"; "departamento"] /\ dict_has k d = false
    /\ clasificar_por_tema docs filtro = Raise (KeyError k).
Proof.
  intros Hex. destruct TEMAS_BOE_claves as [Hnd Hotros].
  unfold clasificar_por_tema, clasificar_con.
  assert (Hini : dict_set "otros" [] (map (fun tema => (tema, @nil documento))
                                          (dict_keys TEMAS_BOE))
                 = map (fun k => (k, @nil documento)) (dict_keys TEMAS_BOE ++ ["otros"])).
  { reflexivity. }
  rewrite Hini.
  destruct (clasificar_bucle_clave_ausente (temas_activos_de TEMAS_BOE filtro)
              (dict_keys TEMAS_BOE ++ ["otros"])) with (docs := docs)
    (B := fun _ : string => @nil documento) as [d [k [Hd [Hk [Hhas Hr]]]]].
  - apply claves_con_otros; assumption.
  - apply in_or_app. right. left. reflexivity.
  - intros k Hk. apply in_or_app. left. eapply temas_activos_claves. exact Hk.
  - exact Hex.
  - exists d, k. split; [exact Hd | ]. split; [exact Hk | ]. split; [exact Hhas | ].
    rewrite Hr. reflexivity.
Qed.

(** The whole rendering: header, total, one section per bucket, footer. *)
Lemma generar_resumen_secciones (fecha : string) (c : clasificacion_t) (fecha_obj : datetime) :
  strptime fecha "%Y%m%d" = Some fecha_obj ->
  Forall (fun kv => Forall (fun d => dict_has "titulo" d = true) (snd kv)) c ->
  exists secciones,
    generar_resumen_fragmentos fecha c
    = Ok ([FCabecera (strftime fecha_obj "%d de %B de %Y");
           FContador (len (concat (dict_values c)))] ++ concat secciones ++ [FPie])
    /\ Forall2 (fun kv seccion =>
                  fragmentos_tema kv = Ok seccion
                  /\ contar_documentos seccion = Z.min (len (snd kv)) 10
                  /\ notas_mas seccion
                     = if (len (snd kv) >? 10)%Z then [(len (snd kv) - 10)%Z] else [])
               c secciones.
Proof.
  intros Hfecha Htitulos.
  destruct (para_cada_Forall2 fragmentos_tema
              (fun kv seccion =>
                 contar_documentos seccion = Z.min (len (snd kv)) 10
                 /\ notas_mas seccion
                    = if (len (snd kv) >? 10)%Z then [(len (snd kv) - 10)%Z] else [])
              c) as [secciones [Hsec H2]].
  { apply Forall_forall. intros [k docs] Hin. rewrite Forall_forall in Htitulos.
    destruct (fragmentos_tema_truncado k docs (Htitulos _ Hin)) as [s [Hs [Hn [Hm _]]]].
    exists s. auto. }
  exists secciones. split; [ | exact H2].
  unfold generar_resumen_fragmentos. rewrite Hfecha. cbn [res_bind].
  rewrite Hsec. cbn [res_bind]. rewrite total_docs_de_concat. reflexivity.
Qed.

Lemma cubos_titulos (tabla : dict (list string)) (docs : list documento)
    (filtro : option (list string)) :
  Forall (fun d => tiene_campos d = true) docs ->
  Forall (fun kv => Forall (fun d => dict_has "titulo" d = true) (snd kv))
         (cubos tabla docs filtro).
Proof.
  intros H. apply Forall_forall. intros [k b] Hin. apply in_cubos in Hin.
  destruct Hin as [_ [-> _]]. apply Forall_forall. intros d Hd.
  apply in_cubo in Hd. destruct Hd as [Hd _]. rewrite Forall_forall in H.
  specialize (H d Hd). unfold tiene_campos in H.
  apply andb_prop in H. destruct H as [H _]. apply andb_prop in H. tauto_sin_entorno.
Qed.

(** The send fails exactly when a credential is missing or the SMTP session
    raises. *)
Lemma enviar_email_digest_error (destinatario asunto html : string)
    (servidor puerto remite clave : json) :
  dict_has "error" (enviar_email_digest destinatario asunto html servidor puerto remite clave)
  = true
  <-> truthy remite = false \/ truthy clave = false
      \/ smtp_sesion servidor puerto remite clave destinatario asunto html <> None.
Proof.
  unfold enviar_email_digest.
  destruct (truthy remite), (truthy clave); cbn [negb orb]; try (split; [auto | reflexivity]).
  destruct (smtp_sesion servidor puerto remite clave destinatario asunto html)
    as [[tipo mensaje] | ].
  - split; [intros _; right; right; discriminate | reflexivity].
  - split; [discriminate | ].
    intros [H | [H | H]]; [discriminate H | discriminate H | contradiction H; reflexivity].
Qed.

(* ================================================================== *)
(** ** The text of a block *)
(* ================================================================== *)

Lemma append_asoc (a b c : string) : ((a ++ b) ++ c = a ++ (b ++ c))%string.
Proof. induction a as [ | x a IH]; simpl; [reflexivity | rewrite IH; reflexivity]. Qed.

Lemma append_vacio (a : string) : (a ++ "" = a)%string.
Proof. induction a as [ | x a IH]; simpl; [reflexivity | rewrite IH; reflexivity]. Qed.

Lemma concat_vacio_cons (x : string) (xs : list string) :
  String.concat "" (x :: xs) = (x ++ String.concat "" xs)%string.
Proof. destruct xs; simpl; [rewrite append_vacio; reflexivity | reflexivity]. Qed.

Lemma concat_vacio_app (xs ys : list string) :
  String.concat "" (xs ++ ys) = (String.concat "" xs ++ String.concat "" ys)%string.
Proof.
  induction xs as [ | x xs IH]; [reflexivity | ].
  cbn [app]. rewrite !concat_vacio_cons, IH, append_asoc. reflexivity.
Qed.

(** A value without "<" holds no start of a tag. *)
Lemma ocurrencias_sin_menor (m v x : string) :
  sin_menor v = true ->
  ocurrencias (String "<" m) (v ++ x) = ocurrencias (String "<" m) x.
Proof.
  induction v as [ | c v IH]; [reflexivity | ].
  cbn [sin_menor]. intros H. apply andb_prop in H. destruct H as [Hc Hv].
  cbn [append ocurrencias empieza_por]. rewrite (IH Hv).
  rewrite Ascii.eqb_sym. destruct (Ascii.eqb c "<"); [discriminate Hc | reflexivity].
Qed.

Lemma ocurrencias_documento_valor (v x : string) :
  sin_menor v = true ->
  ocurrencias marca_documento (v ++ x) = ocurrencias marca_documento x.
Proof. apply ocurrencias_sin_menor. Qed.

Lemma ocurrencias_nota_valor (v x : string) :
  sin_menor v = true -> ocurrencias marca_nota (v ++ x) = ocurrencias marca_nota x.
Proof. apply ocurrencias_sin_menor. Qed.

Lemma sin_menor_digitos (u : Decimal.uint) : sin_menor (NilEmpty.string_of_uint u) = true.
Proof. induction u; simpl; auto. Qed.

Lemma sin_menor_uint (u : Decimal.uint) : sin_menor (NilZero.string_of_uint u) = true.
Proof. destruct u; try reflexivity; apply sin_menor_digitos. Qed.

Lemma sin_menor_str_int (n : Z) : sin_menor (str_int n) = true.
Proof.
  unfold str_int, NilZero.string_of_int.
  destruct (Z.to_int n) as [u | u]; [apply sin_menor_uint | ].
  simpl. apply sin_menor_uint.
Qed.

Ltac leer_texto :=
  repeat first
    [ progress cbn [ocurrencias empieza_por append Ascii.eqb Bool.eqb andb Nat.add
                    marca_documento marca_nota q]
    | rewrite append_asoc
    | rewrite ocurrencias_documento_valor by (assumption || apply sin_menor_str_int)
    | rewrite ocurrencias_nota_valor by (assumption || apply sin_menor_str_int) ].

Ltac partir_limpios :=
  repeat match goal with
         | H : (_ && _)%bool = true |- _ => apply andb_prop in H; destruct H
         end.

(** A fragment of a block whose values hold no "<" has the entry tag once
    when it opens a document entry, and not otherwise. *)
Lemma ocurrencias_documento_fragmento (f : fragmento) (x : string) :
  de_bloque f = true -> forallb sin_menor (valores_fragmento f) = true ->
  ocurrencias marca_documento (texto_fragmento f ++ x)
  = (match f with FDocumento _ => 1 | _ => 0 end) + ocurrencias marca_documento x.
Proof.
  destruct f; try discriminate; intros _; cbn [valores_fragmento texto_fragmento];
    try (destruct (truthy seccion), (truthy departamento));
    cbn [forallb app andb]; intros H; partir_limpios; leer_texto; reflexivity.
Qed.

(** It has the note tag once when it is an overflow note, and not
    otherwise. *)
Lemma ocurrencias_nota_fragmento (f : fragmento) (x : string) :
  de_bloque f = true -> forallb sin_menor (valores_fragmento f) = true ->
  ocurrencias marca_nota (texto_fragmento f ++ x)
  = (match f with FMas _ => 1 | _ => 0 end) + ocurrencias marca_nota x.
Proof.
  destruct f; try discriminate; intros _; cbn [valores_fragmento texto_fragmento];
    try (destruct (truthy seccion), (truthy departamento));
    cbn [forallb app andb]; intros H; partir_limpios; leer_texto; reflexivity.
Qed.

Lemma ocurrencias_documento_fragmentos (frs : list fragmento) :
  Forall (fun f => de_bloque f = true /\ forallb sin_menor (valores_fragmento f) = true) frs ->
  Z.of_nat (ocurrencias marca_documento (String.concat "" (map texto_fragmento frs)))
  = contar_documentos frs.
Proof.
  unfold contar_documentos, len.
  induction 1 as [ | f frs [Hb Hf] _ IH]; [reflexivity | ].
  cbn [map]. rewrite concat_vacio_cons, (ocurrencias_documento_fragmento f _ Hb Hf).
  rewrite Nat2Z.inj_add, IH. destruct f; cbn [filter length]; lia.
Qed.

Lemma ocurrencias_nota_fragmentos (frs : list fragmento) :
  Forall (fun f => de_bloque f = true /\ forallb sin_menor (valores_fragmento f) = true) frs ->
  ocurrencias marca_nota (String.concat "" (map texto_fragmento frs))
  = length (notas_mas frs).
Proof.
  induction 1 as [ | f frs [Hb Hf] _ IH]; [reflexivity | ].
  cbn [map]. rewrite concat_vacio_cons, (ocurrencias_nota_fragmento f _ Hb Hf), IH.
  unfold notas_mas. destruct f; reflexivity.
Qed.

Lemma dict_getitem_ok (k : string) (d : dict json) (v : json) :
  dict_getitem k d = Ok v -> v = get_none k d.
Proof.
  unfold dict_getitem, get_none, get_or. destruct (dict_get k d); [ | discriminate].
  intros H. inversion H. reflexivity.
Qed.

Lemma forallb_app_true {A : Type} (p : A -> bool) (a b : list A) :
  forallb p (a ++ b) = true -> forallb p a = true /\ forallb p b = true.
Proof. rewrite forallb_app. apply andb_prop. Qed.

(** The fragments of a document entry interpolate the values of the
    document. *)
Lemma fragmentos_documento_limpios (doc : documento) (frs : list fragmento) :
  fragmentos_documento doc = Ok frs ->
  forallb sin_menor (valores_documento doc) = true ->
  Forall (fun f => de_bloque f = true /\ forallb sin_menor (valores_fragmento f) = true) frs.
Proof.
  unfold fragmentos_documento, valores_documento.
  destruct (dict_getitem "titulo" doc) as [titulo | e] eqn:Ht; [ | discriminate].
  apply dict_getitem_ok in Ht. subst titulo. cbn [res_bind]. intros H. inversion H; subst frs.
  clear H. intros H.
  destruct (truthy (get_none "seccion" doc)) eqn:Hs, (truthy (get_none "departamento" doc)) eqn:Hd,
    (truthy (get_none "url_pdf" doc)), (truthy (get_none "url_html" doc));
    cbn [app orb forallb andb] in *; partir_limpios;
    repeat (constructor; [split; [reflexivity | ];
                          cbn [valores_fragmento forallb app]; try rewrite Hs; try rewrite Hd;
                          cbn [app forallb]; repeat (apply andb_true_intro; split); auto | ]);
    constructor.
Qed.

Lemma para_cada_limpios (docs : list documento) :
  forall frs,
    para_cada fragmentos_documento docs = Ok frs ->
    forallb sin_menor (flat_map valores_documento docs) = true ->
    Forall (fun f => de_bloque f = true /\ forallb sin_menor (valores_fragmento f) = true) frs.
Proof.
  induction docs as [ | d docs IH]; cbn [para_cada flat_map]; intros frs H Hl.
  - inversion H. constructor.
  - destruct (fragmentos_documento d) as [fd | e] eqn:Hd; [ | discriminate].
    cbn [res_bind] in H.
    destruct (para_cada fragmentos_documento docs) as [fr | e]; [ | discriminate].
    cbn [res_bind] in H. inversion H; subst frs.
    apply forallb_app_true in Hl. destruct Hl as [Hl1 Hl2].
    apply Forall_app. split; [eapply fragmentos_documento_limpios; eassumption | ].
    apply IH; [reflexivity | exact Hl2].
Qed.

Lemma fragmentos_tema_limpios (item : string * list documento) (seccion : list fragmento) :
  fragmentos_tema item = Ok seccion ->
  forallb sin_menor (valores_tema item) = true ->
  Forall (fun f => de_bloque f = true /\ forallb sin_menor (valores_fragmento f) = true)
         seccion.
Proof.
  destruct item as [tema docs]. unfold fragmentos_tema, valores_tema. cbn [fst snd forallb].
  intros H Hl. apply andb_prop in Hl. destruct Hl as [Ht Hd].
  destruct (no_vacia docs); cbn [negb] in H; [ | inversion H; constructor].
  destruct (para_cada fragmentos_documento (firstn 10 docs)) as [frs | e] eqn:Hp;
    [ | discriminate].
  cbn [res_bind] in H. inversion H; subst seccion.
  constructor; [split; [reflexivity | cbn [valores_fragmento forallb]; rewrite Ht; reflexivity] | ].
  apply Forall_app. split; [eapply para_cada_limpios; eassumption | ].
  apply Forall_app. split.
  - destruct (len docs >? 10)%Z; repeat constructor.
  - repeat constructor.
Qed.

(** The text of the fragments of document entries, entry by entry: each
    entry opens with the entry tag and the title of its document. *)
Lemma para_cada_entradas (docs : list documento) :
  forall frs,
    para_cada fragmentos_documento docs = Ok frs ->
    exists entradas,
      Forall2 (fun doc entrada =>
                 exists resto,
                   entrada = ("
            <div class=" ++ q ++ "documento" ++ q ++ ">
                <h3>" ++ formato (get_none "titulo" doc) ++ "</h3>" ++ resto)%string)
              docs entradas
      /\ String.concat "" (map texto_fragmento frs) = String.concat "" entradas.
Proof.
  induction docs as [ | d docs IH]; cbn [para_cada]; intros frs H.
  - inversion H. exists []. split; [constructor | reflexivity].
  - destruct (fragmentos_documento d) as [fd | e] eqn:Hd; [ | discriminate].
    cbn [res_bind] in H.
    destruct (para_cada fragmentos_documento docs) as [fr | e]; [ | discriminate].
    cbn [res_bind] in H. inversion H; subst frs. clear H.
    destruct (IH fr eq_refl) as [entradas [H2 Heq]].
    exists (String.concat "" (map texto_fragmento fd) :: entradas). split.
    + constructor; [ | exact H2].
      unfold fragmentos_documento in Hd.
      destruct (dict_getitem "titulo" d) as [titulo | e] eqn:Ht; [ | discriminate].
      apply dict_getitem_ok in Ht. subst titulo. cbn [res_bind] in Hd. inversion Hd.
      cbn [app map]. rewrite concat_vacio_cons. cbn [texto_fragmento].
      eexists. rewrite !append_asoc. reflexivity.
    + rewrite map_app, concat_vacio_app, concat_vacio_cons, Heq. reflexivity.
Qed.

Lemma concat_vacio_concat (secciones : list (list fragmento)) :
  String.concat "" (map texto_fragmento (concat secciones))
  = String.concat "" (map (fun s => String.concat "" (map texto_fragmento s)) secciones).
Proof.
  induction secciones as [ | s ss IH]; [reflexivity | ].
  cbn [concat map]. rewrite map_app, concat_vacio_app, concat_vacio_cons, IH. reflexivity.
Qed.

Lemma Forall2_map_derecha {A B C : Type} (R : A -> C -> Prop) (g : B -> C)
    (l : list A) (l' : list B) :
  Forall2 (fun a b => R a (g b)) l l' -> Forall2 R l (map g l').
Proof. induction 1; cbn [map]; constructor; assumption. Qed.

(** The total line, followed by the rest of the text. *)
Lemma texto_contador (n : Z) (x : string) :
  (texto_fragmento (FContador n) ++ x
   = "<p class=" ++ q ++ "contador" ++ q ++ "><strong>Total de documentos:</strong> "
     ++ str_int n ++ "</p>" ++ x)%string.
Proof. cbn [texto_fragmento]. rewrite !append_asoc. reflexivity. Qed.

(** The text of a block that has documents: heading, entries, note, end. *)
Lemma texto_bloque (tema : string) (n : Z) (frs : list fragmento) :
  String.concat ""
    (map texto_fragmento
       ([FTema tema n] ++ frs ++ (if (n >? 10)%Z then [FMas (n - 10)] else []) ++ [FFinTema]))
  = ("
        <div class=" ++ q ++ "tema" ++ q ++ ">
            <h2>🏷️ " ++ title (replace_guion tema) ++ " (" ++ str_int n ++ " documentos)</h2>
        " ++ String.concat "" (map texto_fragmento frs)
     ++ (if (n >? 10)%Z
         then "<p class=" ++ q ++ "metadatos" ++ q ++ ">... y " ++ str_int (n - 10)
              ++ " documentos más en esta categoría</p>"
         else "")
     ++ "</div>")%string.
Proof.
  cbn [app map]. rewrite concat_vacio_cons, map_app, concat_vacio_app.
  cbn [texto_fragmento]. rewrite !append_asoc.
  destruct (n >? 10)%Z; cbn [map app].
  - rewrite concat_vacio_cons. cbn [texto_fragmento String.concat]. rewrite !append_asoc.
    reflexivity.
  - reflexivity.
Qed.

(* ================================================================== *)
(** ** Claims on extraction *)
(* ================================================================== *)

Lemma in_nodos_devueltos (x : json) (limit : Z) (d : dict json) :
  In d (nodos_devueltos x limit) -> In (JDict d) (nodos x) /\ califica d = true.
Proof.
  unfold nodos_devueltos. intros H. apply in_firstn in H.
  apply in_seleccion in H. destruct H as [d' [Hn [Hc ->]]]. auto.
Qed.

(** C3 (as amended).  [_extract_sumario_entries] (app.py) returns an entry
    only for mapping nodes of the tree that satisfy the match rule (a key
    case-insensitively equal to "titulo"/"title"/"nombre" and a key whose
    lowercased form starts with "url"), so a node lacking either kind of key
    is never returned; when [limit] is at least the number of qualifying
    nodes, the nodes returned are exactly the qualifying ones.
    [extraer_documentos] (boe_digest.py) returns exactly the mapping nodes
    that have the key "titulo" itself and a key starting with "url" itself;
    each of them satisfies the match rule, so it too never returns a node
    lacking a title-like or a url-like key.  The two hypotheses say of
    [str.lower] that it leaves "titulo" and a leading "url" as they are. *)
Theorem extract_regla_de_coincidencia
    (Htitulo : lower "titulo" = "titulo")
    (Hurl : forall k, startswith "url" k = true -> startswith "url" (lower k) = true)
    (x : json) (limit : Z) :
  _extract_sumario_entries x limit = map entrada_de (nodos_devueltos x limit)
  /\ (forall d, In d (nodos_devueltos x limit) ->
        In (JDict d) (nodos x) /\ clave_titulo d = true /\ clave_url d = true)
  /\ ((len (seleccion califica (fun d => d) x) <= limit)%Z ->
      forall d, In d (nodos_devueltos x limit) <-> In (JDict d) (nodos x) /\ califica d = true)
  /\ extraer_documentos x = map documento_de (seleccion es_documento (fun d => d) x)
  /\ (forall d, In d (seleccion es_documento (fun d => d) x) <->
        In (JDict d) (nodos x) /\ dict_has "titulo" d = true
        /\ existsb (startswith "url") (dict_keys d) = true)
  /\ (forall d, In d (seleccion es_documento (fun d => d) x) ->
        clave_titulo d = true /\ clave_url d = true).
Proof.
  assert (Hsel : forall (p : dict json -> bool) d,
             In d (seleccion p (fun d => d) x) <-> In (JDict d) (nodos x) /\ p d = true).
  { intros p d. rewrite in_seleccion. split.
    - intros [d' [Hn [Hp ->]]]. auto.
    - intros [Hn Hp]. exists d. auto. }
  split; [apply extract_sumario_entries_devueltos | ].
  split.
  { intros d Hd. apply in_nodos_devueltos in Hd. destruct Hd as [Hn Hc].
    unfold califica in Hc. apply andb_prop in Hc. tauto_sin_entorno. }
  split.
  { intros Hlim d. unfold nodos_devueltos. rewrite firstn_all2.
    - apply Hsel.
    - unfold len in Hlim. lia. }
  split; [rewrite extraer_documentos_seleccion; apply seleccion_map | ].
  split.
  { intros d. rewrite Hsel. unfold es_documento. rewrite Bool.andb_true_iff. tauto_sin_entorno. }
  intros d Hd. apply Hsel in Hd. destruct Hd as [_ Hd].
  apply (es_documento_califica d Htitulo Hurl) in Hd.
  unfold califica in Hd. apply andb_prop in Hd. exact Hd.
Qed.

(** C4 (as amended).  With [n] the number of mapping nodes the extractor
    recognises, listed in depth-first encounter order (a node before its
    children, the values of a mapping in insertion order, the items of a
    sequence in order): [_extract_sumario_entries] (recognising by the match
    rule) returns the entries of the first [limit] of them, all [n] when
    [limit >= n], for every integer [limit] (none for a negative one);
    [extraer_documentos_sumario] (recognising by the key "titulo" itself and
    a key starting with "url" itself) does so for every [limit >= 0].  Both
    are functions of the tree and the limit. *)
Theorem extract_orden_y_limite (x : json) (limit : Z) (Hlimit : (0 <= limit)%Z) :
  let entradas := seleccion califica entrada_de x in
  let documentos := seleccion es_documento documento_sumario_de x in
  (forall limit', _extract_sumario_entries x limit' = firstn (Z.to_nat limit') entradas)
  /\ ((len entradas <= limit)%Z -> _extract_sumario_entries x limit = entradas)
  /\ ((limit < len entradas)%Z -> len (_extract_sumario_entries x limit) = limit)
  /\ extraer_documentos_sumario x limit = firstn (Z.to_nat limit) documentos
  /\ ((len documentos <= limit)%Z -> extraer_documentos_sumario x limit = documentos)
  /\ ((limit < len documentos)%Z -> len (extraer_documentos_sumario x limit) = limit).
Proof.
  intros entradas documentos.
  assert (Happ : forall limit',
             _extract_sumario_entries x limit' = firstn (Z.to_nat limit') entradas).
  { intros limit'. rewrite extract_sumario_entries_seleccion.
    rewrite (seleccion_ext es_entrada califica) by exact es_entrada_califica. reflexivity. }
  assert (Hchat : extraer_documentos_sumario x limit = firstn (Z.to_nat limit) documentos).
  { unfold extraer_documentos_sumario. rewrite buscar_recursivo_sumario_seleccion.
    simpl app. apply slice_hasta_no_negativo. exact Hlimit. }
  unfold len in *.
  split; [exact Happ | ].
  split; [intros H; rewrite Happ; apply firstn_all2; lia | ].
  split; [intros H; rewrite Happ, length_firstn; lia | ].
  split; [exact Hchat | ].
  split; [intros H; rewrite Hchat; apply firstn_all2; lia | ].
  intros H. rewrite Hchat, length_firstn. lia.
Qed.

(* ================================================================== *)
(** ** Claims on classification *)
(* ================================================================== *)

(** C1 (as amended).  Extraction returns documents that carry the fields
    titulo, seccion and departamento, a section or department absent from the
    node being the empty string.  For every list of documents that carry the
    three fields and every filter, [clasificar_por_tema] returns a
    classification that partitions the list: its keys are distinct, the
    concatenation of its buckets is a permutation of the input, every input
    document lies in a bucket and all buckets holding it have the same key,
    and no bucket is empty.  A list that holds a document lacking one of the
    three keys makes [clasificar_por_tema] raise [KeyError], for a key that
    one of its documents lacks, whatever the filter. *)
Theorem clasificar_por_tema_particion :
  (forall x : json,
      Forall (fun d => tiene_campos d = true) (extraer_documentos x)
      /\ forall d, In (JDict d) (nodos x) -> es_documento d = true ->
           In (documento_de d) (extraer_documentos x)
           /\ (dict_has "seccion" d = false ->
               dict_get "seccion" (documento_de d) = Some (JStr ""))
           /\ (dict_has "departamento" d = false ->
               dict_get "departamento" (documento_de d) = Some (JStr "")))
  /\ (forall (docs : list documento) (filtro : option (list string)),
         Forall (fun d => tiene_campos d = true) docs ->
         exists c,
           clasificar_por_tema docs filtro = Ok c
           /\ NoDup (dict_keys c)
           /\ Permutation (concat (dict_values c)) docs
           /\ (forall d, In d docs ->
                 exists k b, In (k, b) c /\ In d b
                             /\ forall k' b', In (k', b') c -> In d b' -> k' = k)
           /\ (forall k b, In (k, b) c -> b <> []))
  /\ (forall (docs : list documento) (filtro : option (list string)),
         Exists (fun d => tiene_campos d = false) docs ->
         exists d k,
           In d docs /\ In k ["titulo"; "seccion"; "departamento"] /\ dict_has k d = false
           /\ clasificar_por_tema docs filtro = Raise (KeyError k)).
Proof.
  split; [ | split; [ | exact clasificar_por_tema_clave_ausente]].
  { intros x. split; [apply extraer_documentos_campos | ].
    intros d Hn Hd. split.
    - rewrite extraer_documentos_seleccion. apply in_seleccion. exists d. auto.
    - split; intros H; cbn [documento_de dict_get String.eqb Ascii.eqb Bool.eqb];
        unfold get_or; rewrite (dict_get_sin_clave _ _ H); reflexivity. }
  intros docs filtro Hcampos. exists (cubos TEMAS_BOE docs filtro).
  destruct TEMAS_BOE_claves as [Hnd Hotros].
  split; [apply clasificar_por_tema_cubos; exact Hcampos | ].
  split.
  { rewrite cubos_claves. apply NoDup_filter. apply claves_con_otros; assumption. }
  split; [apply cubos_permutacion; assumption | ].
  split.
  - intros d Hd. destruct (cubos_asignado TEMAS_BOE docs filtro d Hd) as [Hin Hdb].
    eexists. eexists. split; [exact Hin | ]. split; [exact Hdb | ].
    intros k' b' Hk' Hdb'. apply in_cubos in Hk'. destruct Hk' as [_ [-> _]].
    apply in_cubo in Hdb'. symmetry. apply Hdb'.
  - intros k b Hin. apply in_cubos in Hin. tauto_sin_entorno.
Qed.

(** C2 (as amended).  An empty filter classifies as no filter does.  Names
    of a filter that are not in the topic table are ignored as long as a
    known name remains: the result is that of the filter with the unknown
    names left out.  A non-empty filter with no known name activates no
    topic: every document goes to "otros". *)
Theorem clasificar_filtro_desconocidos (docs : list documento) (filtro : list string) :
  let conocidos := filter (fun t => existsb (String.eqb t) (dict_keys TEMAS_BOE)) filtro in
  clasificar_por_tema docs (Some []) = clasificar_por_tema docs None
  /\ (conocidos <> [] ->
      clasificar_por_tema docs (Some filtro) = clasificar_por_tema docs (Some conocidos))
  /\ (filtro <> [] -> conocidos = [] ->
      Forall (fun d => tiene_campos d = true) docs ->
      clasificar_por_tema docs (Some filtro)
      = Ok (if no_vacia docs then [("otros", docs)] else [])).
Proof.
  intros conocidos. split; [reflexivity | ]. split.
  - intros Hne. unfold clasificar_por_tema, clasificar_con.
    rewrite (temas_activos_conocidos TEMAS_BOE filtro Hne). reflexivity.
  - intros Hne Hnone Hcampos. rewrite clasificar_por_tema_cubos by assumption.
    unfold cubos. rewrite (temas_activos_desconocidos TEMAS_BOE filtro Hne Hnone).
    f_equal. cbn [TEMAS_BOE dict_keys map fst app]. rewrite !cubo_sin_activos.
    cbn [String.eqb Ascii.eqb Bool.eqb filter snd no_vacia]. 
    destruct docs; reflexivity.
Qed.


(* ================================================================== *)
(** ** Claims on rendering and on the order of the buckets *)
(* ================================================================== *)

(** C5 (as amended).  For a date that [strptime] accepts and a
    classification whose documents have a title, the text
    [generar_resumen_html] returns is the header, the total line, one block
    per bucket in the classification's order, and the footer; the total line
    shows the number of documents in all the buckets.  The block of an empty
    bucket is empty.  The block of a bucket with [n > 0] documents is the
    heading, one entry for each of its first min(n, 10) documents in order,
    each opening with the entry tag and the title of its document, then the
    overflow note exactly when [n > 10], whose number is [n - 10], then the
    closing tag.  The values are interpolated as they are: when none of the
    values interpolated in a block holds the character "<", the entry tag
    occurs in the block exactly min(n, 10) times and the tag of the note
    once when [n > 10] and not otherwise. *)
Theorem generar_resumen_html_truncado (fecha : string) (c : clasificacion_t)
    (fecha_obj : datetime) :
  strptime fecha "%Y%m%d" = Some fecha_obj ->
  Forall (fun kv => Forall (fun d => dict_has "titulo" d = true) (snd kv)) c ->
  exists bloques,
    generar_resumen_html fecha c
    = Ok (texto_fragmento (FCabecera (strftime fecha_obj "%d de %B de %Y"))
          ++ "<p class=" ++ q ++ "contador" ++ q ++ "><strong>Total de documentos:</strong> "
          ++ str_int (len (concat (dict_values c))) ++ "</p>"
          ++ String.concat "" bloques
          ++ texto_fragmento FPie)%string
    /\ Forall2
         (fun kv bloque =>
            let tema := fst kv in
            let documentos := snd kv in
            let n := len documentos in
            (documentos = [] -> bloque = "")
            /\ (documentos <> [] ->
                exists entradas,
                  len entradas = Z.min n 10
                  /\ Forall2 (fun doc entrada =>
                                exists resto,
                                  entrada = ("
            <div class=" ++ q ++ "documento" ++ q ++ ">
                <h3>" ++ formato (get_none "titulo" doc) ++ "</h3>" ++ resto)%string)
                             (firstn 10 documentos) entradas
                  /\ bloque = ("
        <div class=" ++ q ++ "tema" ++ q ++ ">
            <h2>🏷️ " ++ title (replace_guion tema) ++ " (" ++ str_int n ++ " documentos)</h2>
        " ++ String.concat "" entradas
                               ++ (if (n >? 10)%Z
                                   then "<p class=" ++ q ++ "metadatos" ++ q ++ ">... y "
                                        ++ str_int (n - 10)
                                        ++ " documentos más en esta categoría</p>"
                                   else "")
                               ++ "</div>")%string)
            /\ (forallb sin_menor (valores_tema kv) = true ->
                Z.of_nat (ocurrencias marca_documento bloque) = Z.min n 10
                /\ ocurrencias marca_nota bloque = if (n >? 10)%Z then 1 else 0))
         c bloques.
Proof.
  intros Hfecha Htitulos.
  destruct (generar_resumen_secciones fecha c fecha_obj Hfecha Htitulos) as [secciones [Hf H2]].
  exists (map (fun s => String.concat "" (map texto_fragmento s)) secciones). split.
  - unfold generar_resumen_html. rewrite Hf. cbn [res_bind]. f_equal.
    cbn [app map]. rewrite !concat_vacio_cons, map_app, concat_vacio_app, concat_vacio_concat.
    rewrite texto_contador. cbn [map String.concat]. reflexivity.
  - apply Forall2_map_derecha. revert H2. apply Forall2_impl.
    intros [tema docs] seccion [Hs [Hn Hm]]. cbn [fst snd]. cbv zeta. split; [ | split].
    + intros ->. cbn [fragmentos_tema no_vacia negb] in Hs. inversion Hs. reflexivity.
    + intros Hne. unfold fragmentos_tema in Hs.
      assert (Hnv : no_vacia docs = true) by (destruct docs; [contradiction | reflexivity]).
      match type of Hs with
      | context [negb (no_vacia ?l)] => change (no_vacia l) with (no_vacia docs) in Hs
      end.
      rewrite Hnv in Hs. cbn [negb] in Hs.
      match type of Hs with
      | context [para_cada ?f ?l] => destruct (para_cada f l) as [frs | e] eqn:Hp
      end; [ | discriminate].
      cbn [res_bind] in Hs. inversion Hs; subst seccion. clear Hs.
      destruct (para_cada_entradas _ _ Hp) as [entradas [He Heq]].
      exists entradas. split; [ | split; [exact He | ]].
      * unfold len. rewrite <- (Forall2_length He), length_firstn.
        rewrite Nat2Z.inj_min. apply Z.min_comm.
      * rewrite <- Heq. apply texto_bloque.
    + intros Hl.
      pose proof (fragmentos_tema_limpios _ _ Hs Hl) as Hlimpios. split.
      * rewrite (ocurrencias_documento_fragmentos _ Hlimpios). exact Hn.
      * rewrite (ocurrencias_nota_fragmentos _ Hlimpios), Hm. cbn [snd].
        match goal with
        | |- Datatypes.length (if ?b then _ else _) = (if ?b' then _ else _) =>
            change b' with b; destruct b; reflexivity
        end.
Qed.


(* ================================================================== *)
(** ** Claims on the orchestration *)
(* ================================================================== *)

(** The run up to the HTML, for a body without the key "error". *)
Lemma digest_hasta_html (fecha : string) (filtro : option (list string)) (sumario : json)
    (fecha_obj : datetime) :
  requests_get (BOE_BASE ++ "/boe/sumario/" ++ fecha)%string = Cuerpo sumario ->
  strptime fecha "%Y%m%d" = Some fecha_obj ->
  obtener_sumario_boe fecha = sumario
  /\ exists c html,
       clasificar_por_tema (extraer_documentos sumario) filtro = Ok c
       /\ generar_resumen_html fecha c = Ok html.
Proof.
  intros Hget Hfecha. split; [unfold obtener_sumario_boe; rewrite Hget; reflexivity | ].
  pose proof (extraer_documentos_campos sumario) as Hcampos.
  exists (cubos TEMAS_BOE (extraer_documentos sumario) filtro).
  destruct (generar_resumen_secciones fecha _ fecha_obj Hfecha
              (cubos_titulos TEMAS_BOE _ filtro Hcampos)) as [secciones [Hf _]].
  eexists. split; [apply clasificar_por_tema_cubos; exact Hcampos | ].
  unfold generar_resumen_html. rewrite Hf. reflexivity.
Qed.

(** C6.  When the request for the summary raises, the run performs the fetch
    and nothing else, and returns the dict whose only key is "error", with
    the exception's type name and text; the result has no "html". *)
Theorem digest_fallo_de_obtencion (fecha : string) (filtro : option (list string))
    (enviar_por_email : bool) (destinatario : option string)
    (config_email : option (dict json)) (tipo mensaje : string) :
  requests_get (BOE_BASE ++ "/boe/sumario/" ++ fecha)%string = Excepcion tipo mensaje ->
  let fallo := RSumario (JDict [("error", JStr (tipo ++ ": " ++ mensaje)%string)]) in
  generar_digest_completo fecha filtro enviar_por_email destinatario config_email []
  = ([PObtener fecha], Ok fallo)
  /\ tiene_campo "error" fallo = true
  /\ tiene_campo "html" fallo = false.
Proof.
  intros Hget fallo.
  unfold generar_digest_completo, bind, hacer, elevar, ret, obtener_sumario_boe.
  rewrite Hget. repeat split.
Qed.

(** C9.  When the request succeeds with a JSON object that has the key
    "error", the run performs the fetch and nothing else, and returns that
    object as it is. *)
Theorem digest_cuerpo_con_error (fecha : string) (filtro : option (list string))
    (enviar_por_email : bool) (destinatario : option string)
    (config_email : option (dict json)) (d : dict json) :
  requests_get (BOE_BASE ++ "/boe/sumario/" ++ fecha)%string = Cuerpo (JDict d) ->
  dict_has "error" d = true ->
  generar_digest_completo fecha filtro enviar_por_email destinatario config_email []
  = ([PObtener fecha], Ok (RSumario (JDict d))).
Proof.
  intros Hget Herror.
  unfold generar_digest_completo, bind, hacer, elevar, ret, obtener_sumario_boe.
  rewrite Hget. cbn [py_in app]. rewrite Herror. reflexivity.
Qed.

(** C7.  On a run whose fetch yields a body without "error", for a date that
    parses, with email requested (a non-empty recipient and a non-empty
    configuration of accepted keys), a send that fails leaves the digest as
    it is: the result holds the fields of the run without email, among them
    "html", "total_documentos" and "clasificacion", and after them "email"
    with the failure. *)
Theorem digest_con_fallo_de_email (fecha : string) (filtro : option (list string))
    (dest : string) (config : dict json) (sumario : json) (fecha_obj : datetime)
    (c : config_smtp) :
  requests_get (BOE_BASE ++ "/boe/sumario/" ++ fecha)%string = Cuerpo sumario ->
  py_in "error" sumario = Ok false ->
  strptime fecha "%Y%m%d" = Some fecha_obj ->
  dest <> "" -> config <> [] ->
  ligar_config config config_por_defecto = Ok c ->
  let asunto := ("📰 Resumen BOE - " ++ strftime fecha_obj "%d/%m/%Y")%string in
  (forall html,
      dict_has "error" (enviar_email_digest dest asunto html (smtp_server c) (smtp_port c)
                          (remitente c) (password c)) = true) ->
  exists clasificacion html email,
    let documentos := extraer_documentos sumario in
    let campos :=
      [ ("fecha", VStr fecha);
        ("total_documentos", VInt (len documentos));
        ("clasificacion", VConteo (map (fun kv => (fst kv, len (snd kv))) clasificacion));
        ("documentos_por_tema", VClasificacion clasificacion);
        ("html", VStr html) ] in
    clasificar_por_tema documentos filtro = Ok clasificacion
    /\ generar_resumen_html fecha clasificacion = Ok html
    /\ generar_digest_completo fecha filtro false None None []
       = ([PObtener fecha; PExtraer; PClasificar; PGenerarHtml], Ok (RDigest campos))
    /\ generar_digest_completo fecha filtro true (Some dest) (Some config) []
       = ([PObtener fecha; PExtraer; PClasificar; PGenerarHtml; PEnviarEmail dest asunto html],
          Ok (RDigest (campos ++ [("email", VEmail email)])))
    /\ email = enviar_email_digest dest asunto html (smtp_server c) (smtp_port c)
                 (remitente c) (password c)
    /\ dict_has "error" email = true.
Proof.
  intros Hget Herror Hfecha Hdest Hconfig Hligar asunto Hfalla.
  destruct (digest_hasta_html fecha filtro sumario fecha_obj Hget Hfecha)
    as [Hsum [clasificacion [html [Hc Hhtml]]]].
  exists clasificacion, html,
    (enviar_email_digest dest asunto html (smtp_server c) (smtp_port c)
       (remitente c) (password c)).
  cbv zeta. split; [exact Hc | ]. split; [exact Hhtml | ].
  split; [ | split; [ | split; [reflexivity | apply Hfalla]]].
  - unfold generar_digest_completo, bind, hacer, elevar, ret.
    rewrite Hsum, Herror, Hc, Hhtml. reflexivity.
  - unfold generar_digest_completo, bind, hacer, elevar, ret.
    rewrite Hsum, Herror, Hc, Hhtml.
    destruct dest as [ | a dest']; [contradiction | ].
    destruct config as [ | kv config']; [contradiction | ].
    rewrite Hfecha, Hligar. reflexivity.
Qed.

(* ================================================================== *)
(** ** Further properties: searching and extracting *)
(* ================================================================== *)

Lemma primero_app {A B : Type} (f : A -> option B) (l1 l2 : list A) :
  primero f (l1 ++ l2)
  = match primero f l1 with Some b => Some b | None => primero f l2 end.
Proof.
  induction l1 as [ | a l1 IH]; simpl; [reflexivity | ].
  destruct (f a); [reflexivity | exact IH].
Qed.

Lemma primero_flat_map {A B C : Type} (g : B -> option C) (h : A -> list B) (l : list A) :
  primero g (flat_map h l) = primero (fun a => primero g (h a)) l.
Proof.
  induction l as [ | a l IH]; simpl; [reflexivity | ].
  rewrite primero_app, IH. reflexivity.
Qed.

Lemma primero_ext_Forall {A B : Type} (f g : A -> option B) (l : list A) :
  Forall (fun a => f a = g a) l -> primero f l = primero g l.
Proof.
  induction 1 as [ | a l Ha _ IH]; simpl; [reflexivity | ].
  rewrite Ha, IH. reflexivity.
Qed.

Lemma primero_some {A B : Type} (f : A -> option B) (l : list A) (b : B) :
  primero f l = Some b -> exists a, In a l /\ f a = Some b.
Proof.
  induction l as [ | a l IH]; simpl; [discriminate | ].
  destruct (f a) as [b' | ] eqn:Ha.
  - intros [= <-]. exists a. split; [left; reflexivity | exact Ha].
  - intros H. destruct (IH H) as [a' [Hin Ha']]. exists a'. split; [right; exact Hin | exact Ha'].
Qed.

Lemma primero_none {A B : Type} (f : A -> option B) (l : list A) :
  primero f l = None <-> forall a, In a l -> f a = None.
Proof.
  induction l as [ | a l IH]; simpl.
  - split; [intros _ a [] | reflexivity].
  - destruct (f a) as [b | ] eqn:Ha.
    + split; [discriminate | ]. intros H. rewrite <- Ha. apply H. left. reflexivity.
    + rewrite IH. split.
      * intros H a' [<- | Hin]; [exact Ha | apply H; exact Hin].
      * intros H a' Hin. apply H. right. exact Hin.
Qed.

Lemma find_list_of_dicts_nodos (key : string) (x : json) :
  _find_list_of_dicts_with_key x key = primero (lista_con_clave key) (nodos x).
Proof.
  induction x as [ | b | n | f | s | l IH | d IH] using json_ind; try reflexivity.
  - cbn [_find_list_of_dicts_with_key nodos primero lista_con_clave].
    destruct (es_lista_con_clave key l); [reflexivity | ].
    rewrite primero_flat_map. apply primero_ext_Forall. exact IH.
  - cbn [_find_list_of_dicts_with_key nodos primero lista_con_clave].
    rewrite primero_flat_map. apply primero_ext_Forall. exact IH.
Qed.

Lemma es_lista_con_clave_forma (key : string) (l : list json) :
  es_lista_con_clave key l = true ->
  l <> [] /\ Forall (fun i => exists d, i = JDict d) l
  /\ exists d, In (JDict d) l /\ dict_has key d = true.
Proof.
  unfold es_lista_con_clave. intros H.
  apply andb_prop in H. destruct H as [H Hany]. apply andb_prop in H. destruct H as [Hne Hall].
  split; [intros ->; discriminate Hne | ]. split.
  - rewrite forallb_forall in Hall. apply Forall_forall. intros i Hi.
    specialize (Hall i Hi). destruct i; try discriminate Hall. eexists. reflexivity.
  - apply existsb_exists in Hany. destruct Hany as [i [Hi Hk]].
    destruct i as [ | | | | | | d]; try discriminate Hk. exists d. split; assumption.
Qed.

Lemma find_list_of_dicts_forma (x : json) (key : string) (l : list json) :
  _find_list_of_dicts_with_key x key = Some l ->
  In (JList l) (nodos x) /\ l <> []
  /\ Forall (fun i => exists d, i = JDict d) l
  /\ exists d, In (JDict d) l /\ dict_has key d = true.
Proof.
  intros H. rewrite find_list_of_dicts_nodos in H. apply primero_some in H.
  destruct H as [n [Hin Hn]]. destruct n as [ | | | | | l' | ]; try discriminate Hn.
  cbn [lista_con_clave] in Hn. destruct (es_lista_con_clave key l') eqn:Hc; [ | discriminate Hn].
  injection Hn as <-. split; [exact Hin | ]. apply es_lista_con_clave_forma. exact Hc.
Qed.

(** X1.  [_find_list_of_dicts_with_key] returns the first node, in
    depth-first encounter order, that is a non-empty list of dicts one of
    which has the key: what it returns is such a node of the tree, and it
    returns [None] exactly when the tree has no such node. *)
Theorem find_list_of_dicts_primera (x : json) (key : string) :
  _find_list_of_dicts_with_key x key = primero (lista_con_clave key) (nodos x)
  /\ (forall l, _find_list_of_dicts_with_key x key = Some l ->
        In (JList l) (nodos x) /\ l <> []
        /\ Forall (fun i => exists d, i = JDict d) l
        /\ exists d, In (JDict d) l /\ dict_has key d = true)
  /\ (_find_list_of_dicts_with_key x key = None <->
      forall l, In (JList l) (nodos x) -> es_lista_con_clave key l = false).
Proof.
  split; [apply find_list_of_dicts_nodos | ]. split.
  - intros l H. apply find_list_of_dicts_forma. exact H.
  - rewrite find_list_of_dicts_nodos, primero_none. split.
    + intros H l Hin. specialize (H (JList l) Hin). cbn [lista_con_clave] in H.
      destruct (es_lista_con_clave key l); [discriminate H | reflexivity].
    + intros H n Hin. destruct n as [ | | | | | l | ]; try reflexivity.
      cbn [lista_con_clave]. rewrite (H l Hin). reflexivity.
Qed.

Lemma buscar_recursivo_normas_seleccion (x : json) :
  forall normas, buscar_recursivo_normas x normas = normas ++ seleccion es_norma JDict x.
Proof.
  induction x as [ | b | n | f | s | l IH | d IH] using json_ind; intros normas;
    try (simpl; rewrite app_nil_r; reflexivity).
  - rewrite seleccion_lista. simpl buscar_recursivo_normas.
    apply (fold_left_recorrido buscar_recursivo_normas). exact IH.
  - rewrite seleccion_dict. simpl buscar_recursivo_normas.
    rewrite (fold_left_recorrido (fun kv o => buscar_recursivo_normas (snd kv) o)
               (fun kv => seleccion es_norma JDict (snd kv))) by exact IH.
    destruct (es_norma d); simpl; rewrite <- ?app_assoc; reflexivity.
Qed.

Lemma in_slice_hasta {A : Type} (limit : Z) (l : list A) (a : A) :
  In a (slice_hasta limit l) -> In a l.
Proof. unfold slice_hasta. destruct (limit <? 0)%Z; apply in_firstn. Qed.

(** X2.  [extraer_normas] returns, cut by [[:limit]], the dict nodes of the
    tree that have both "identificador" and "titulo", unchanged and in
    depth-first encounter order; for [limit >= 0] it returns
    min(limit, number of such nodes) of them. *)
Theorem extraer_normas_nodos (x : json) (limit : Z) :
  extraer_normas x limit = slice_hasta limit (seleccion es_norma JDict x)
  /\ (forall n, In n (extraer_normas x limit) ->
        exists d, n = JDict d /\ In (JDict d) (nodos x)
                  /\ dict_has "identificador" d = true /\ dict_has "titulo" d = true)
  /\ ((0 <= limit)%Z ->
      extraer_normas x limit = firstn (Z.to_nat limit) (seleccion es_norma JDict x)
      /\ len (extraer_normas x limit) = Z.min limit (len (seleccion es_norma JDict x))).
Proof.
  assert (Heq : extraer_normas x limit = slice_hasta limit (seleccion es_norma JDict x)).
  { unfold extraer_normas. rewrite buscar_recursivo_normas_seleccion. reflexivity. }
  split; [exact Heq | ]. split.
  - intros n Hn. rewrite Heq in Hn. apply in_slice_hasta in Hn.
    apply in_seleccion in Hn. destruct Hn as [d [Hin [Hd ->]]].
    unfold es_norma in Hd. apply andb_prop in Hd. destruct Hd as [Hi Ht].
    exists d. repeat split; assumption.
  - intros Hlim. rewrite Heq, slice_hasta_no_negativo by exact Hlim.
    split; [reflexivity | ]. unfold len. rewrite length_firstn. lia.
Qed.

(* ================================================================== *)
(** ** Further properties: the tools of app.py *)
(* ================================================================== *)

Lemma py_len_app (a b : string) : py_len (a ++ b) = py_len a + py_len b.
Proof.
  induction a as [ | c a IH]; simpl; [reflexivity | ].
  destruct (es_continuacion c); rewrite IH; reflexivity.
Qed.

Lemma py_len_prefijo (n : nat) (s : string) : py_len (py_prefijo n s) = Nat.min n (py_len s).
Proof.
  revert n. induction s as [ | c s IH]; intros n; simpl.
  - rewrite Nat.min_0_r. reflexivity.
  - destruct (es_continuacion c) eqn:Hc; simpl.
    + rewrite Hc. apply IH.
    + destruct n as [ | m]; simpl; [reflexivity | ]. rewrite Hc, IH. reflexivity.
Qed.

Lemma py_prefijo_prefix (n : nat) (s : string) : String.prefix (py_prefijo n s) s = true.
Proof.
  revert n. induction s as [ | c s IH]; intros n; simpl; [reflexivity | ].
  destruct (es_continuacion c).
  - cbn [String.prefix]. destruct (ascii_dec c c) as [_ | H]; [apply IH | contradiction H; reflexivity].
  - destruct n as [ | m]; [reflexivity | ].
    cbn [String.prefix]. destruct (ascii_dec c c) as [_ | H]; [apply IH | contradiction H; reflexivity].
Qed.

(** X3.  For [max_chars >= 0], [_pretty_truncate] returns the dump itself
    when it has at most [max_chars] characters; otherwise it returns its
    first [max_chars] characters followed by the 15 characters of the
    truncation mark.  The result never has more than [max_chars + 15]
    characters. *)
Theorem pretty_truncate_acotado (obj : json) (max_chars : Z) :
  (0 <= max_chars)%Z ->
  let s := json_dumps (Some 2%Z) obj in
  (Z.of_nat (py_len (_pretty_truncate obj max_chars)) <= max_chars + 15)%Z
  /\ ((Z.of_nat (py_len s) <= max_chars)%Z -> _pretty_truncate obj max_chars = s)
  /\ ((max_chars < Z.of_nat (py_len s))%Z ->
      _pretty_truncate obj max_chars
      = (py_prefijo (Z.to_nat max_chars) s ++ marca_truncado)%string
      /\ String.prefix (py_prefijo (Z.to_nat max_chars) s) s = true
      /\ Z.of_nat (py_len (_pretty_truncate obj max_chars)) = (max_chars + 15)%Z).
Proof.
  intros Hmax s. unfold _pretty_truncate. fold s.
  assert (Hslice : py_slice_hasta max_chars s = py_prefijo (Z.to_nat max_chars) s).
  { unfold py_slice_hasta. destruct (Z.ltb_spec max_chars 0); [lia | reflexivity]. }
  assert (Hmarca : py_len marca_truncado = 15) by reflexivity.
  destruct (Z.leb_spec (Z.of_nat (py_len s)) max_chars) as [Hcorto | Hlargo].
  - split; [lia | ]. split; [reflexivity | lia].
  - rewrite Hslice, py_len_app, py_len_prefijo, Hmarca.
    split; [lia | ]. split; [lia | ]. intros _.
    split; [reflexivity | ]. split; [apply py_prefijo_prefix | lia].
Qed.

Lemma Forall_dict_set {V : Type} (P : string * V -> Prop) (k : string) (v : V) (d : dict V) :
  Forall P d -> P (k, v) -> Forall P (dict_set k v d).
Proof.
  intros Hd Hkv. induction Hd as [ | [k0 v0] d H0 Hd IH]; simpl.
  - constructor; [exact Hkv | constructor].
  - destruct (String.eqb_spec k0 k) as [-> | Hne]; constructor; assumption.
Qed.

(** The [urls] of an entry: keys that start with "url", values that are [str]. *)
Lemma urls_de_forma (x : dict json) :
  Forall (fun kv => startswith "url" (fst kv) = true /\ es_str (snd kv) = true) (urls_de x).
Proof.
  unfold urls_de. generalize (keys_lower x). intros kl.
  assert (H : forall acc,
             Forall (fun kv => startswith "url" (fst kv) = true /\ es_str (snd kv) = true) acc ->
             Forall (fun kv => startswith "url" (fst kv) = true /\ es_str (snd kv) = true)
               (fold_left
                  (fun urls item =>
                     let '(kl, orig) := item in
                     if startswith "url" kl && es_str (get_none orig x)
                     then dict_set kl (get_none orig x) urls
                     else urls) kl acc)).
  { induction kl as [ | [k orig] kl IH]; intros acc Hacc; simpl; [exact Hacc | ].
    apply IH. destruct (startswith "url" k && es_str (get_none orig x)) eqn:Hc; [ | exact Hacc].
    apply andb_prop in Hc. apply Forall_dict_set; [exact Hacc | exact Hc]. }
  apply H. constructor.
Qed.

Lemma py_or_truthy (a b : json) : truthy b = true -> truthy (py_or a b) = true.
Proof. intros Hb. unfold py_or. destruct (truthy a) eqn:Ha; assumption. Qed.

(** X4.  Every entry [_extract_sumario_entries] returns is a dict with the
    two keys "titulo" and "urls": the title is never a false value (a
    missing or empty one is replaced by the placeholder), every key of
    "urls" starts with "url" and every value of "urls" is a [str]. *)
Theorem extract_sumario_entries_forma (x : json) (limit : Z) (e : json) :
  In e (_extract_sumario_entries x limit) ->
  exists titulo urls,
    e = JDict [("titulo", titulo); ("urls", JDict urls)]
    /\ truthy titulo = true
    /\ Forall (fun kv => startswith "url" (fst kv) = true /\ es_str (snd kv) = true) urls.
Proof.
  intros H. rewrite extract_sumario_entries_seleccion in H. apply in_firstn in H.
  apply in_seleccion in H. destruct H as [d [_ [_ ->]]].
  unfold entrada_de. eexists. eexists. split; [reflexivity | ].
  split; [apply py_or_truthy; reflexivity | apply urls_de_forma].
Qed.

Lemma lineas_entrada_de (d : dict json) :
  lineas_entrada (entrada_de d) = Ok (lineas_de_nodo d).
Proof.
  unfold lineas_de_nodo, entrada_de, lineas_entrada, urls_de_entrada.
  cbn [dict_getitem dict_get get_none get_or String.eqb Ascii.eqb Bool.eqb res_bind].
  unfold py_or at 1. cbn [truthy].
  destruct (urls_de d); reflexivity.
Qed.

Lemma para_cada_map {A B C : Type} (f : B -> res (list C)) (g : A -> B) (h : A -> list C)
    (l : list A) :
  (forall a, f (g a) = Ok (h a)) -> para_cada f (map g l) = Ok (flat_map h l).
Proof.
  intros H. induction l as [ | a l IH]; simpl; [reflexivity | ].
  rewrite H, IH. reflexivity.
Qed.

(** X5.  [boe_sumario]: when the request raises, the tool returns the
    truncated dump of the error object (keys "_error", "_url", "_params");
    when the body has the key "_error" or holds no qualifying node, it
    returns the truncated dump of the body; otherwise it returns a header
    followed by the lines of the nodes returned, at most 12, and the number
    in the header is the number of nodes listed. *)
Theorem boe_sumario_salida (fecha : string) :
  let url := (BOE_BASE ++ "/boe/sumario/" ++ fecha)%string in
  (forall tipo mensaje,
      requests_get_params url None = Excepcion tipo mensaje ->
      boe_sumario fecha
      = Ok (_pretty_truncate
              (JDict [ ("_error", JStr (tipo ++ ": " ++ mensaje)%string); ("_url", JStr url);
                       ("_params", JDict []) ]) 4000))
  /\ (forall data,
         requests_get_params url None = Cuerpo data ->
         (py_in "_error" data = Ok true -> boe_sumario fecha = Ok (_pretty_truncate data 4000))
         /\ (py_in "_error" data = Ok false ->
             let devueltos := nodos_devueltos data 12 in
             (len devueltos <= 12)%Z
             /\ (devueltos = [] -> boe_sumario fecha = Ok (_pretty_truncate data 4000))
             /\ (devueltos <> [] ->
                 boe_sumario fecha
                 = Ok (join_lineas
                         (("Sumario BOE " ++ fecha ++ " (top " ++ str_int (len devueltos)
                           ++ " entradas):")%string
                          :: flat_map lineas_de_nodo devueltos))))).
Proof.
  intros url. split.
  - intros tipo mensaje Hget. unfold boe_sumario, _get_json. fold url. rewrite Hget.
    reflexivity.
  - intros data Hget. split.
    + intros Herr. unfold boe_sumario, _get_json. fold url. rewrite Hget, Herr. reflexivity.
    + intros Herr devueltos. unfold boe_sumario, _get_json. fold url.
      rewrite Hget, Herr. cbn [res_bind].
      rewrite extract_sumario_entries_devueltos. fold devueltos.
      split.
      { unfold devueltos, nodos_devueltos, len. rewrite length_firstn. lia. }
      split.
      * intros ->. reflexivity.
      * intros Hne. destruct devueltos as [ | d0 ds] eqn:Hd; [contradiction | ].
        rewrite <- Hd. replace (no_vacia (map entrada_de devueltos)) with true
          by (rewrite Hd; reflexivity).
        cbn [negb]. rewrite (para_cada_map lineas_entrada entrada_de lineas_de_nodo)
          by exact lineas_entrada_de.
        cbn [res_bind]. unfold len. rewrite length_map. reflexivity.
Qed.

Lemma join_lineas_normas_guion (n : dict json) (resto : list string) :
  exists cola, join_lineas (linea_norma n :: resto) = String "-"%char cola.
Proof.
  unfold join_lineas, linea_norma. cbv zeta.
  destruct resto as [ | r resto]; cbn [String.concat String.append]; eexists; reflexivity.
Qed.

(** X6.  For [limit >= 0], [_format_normas] writes one item for each of the
    first min(limit, n) norms, joined by newlines, and returns the message
    "No se encontraron normas en la respuesta." exactly when there is none to
    write: when the list is empty or the limit is 0. *)
Theorem format_normas_limite (normas : list (dict json)) (limit : Z) :
  (0 <= limit)%Z ->
  lineas_normas normas limit = map linea_norma (firstn (Z.to_nat limit) normas)
  /\ len (lineas_normas normas limit) = Z.min limit (len normas)
  /\ (_format_normas normas limit = "No se encontraron normas en la respuesta."
      <-> limit = 0%Z \/ normas = [])
  /\ (limit <> 0%Z -> normas <> [] ->
      _format_normas normas limit = join_lineas (lineas_normas normas limit)).
Proof.
  intros Hlim.
  assert (Hl : lineas_normas normas limit = map linea_norma (firstn (Z.to_nat limit) normas)).
  { unfold lineas_normas. rewrite slice_hasta_no_negativo by exact Hlim. reflexivity. }
  split; [exact Hl | ]. split.
  { rewrite Hl. unfold len. rewrite length_map, length_firstn. lia. }
  unfold _format_normas. cbv zeta. rewrite Hl.
  destruct normas as [ | n normas].
  - rewrite firstn_nil. cbn [map no_vacia]. split; [ | intros _ H; contradiction H; reflexivity].
    split; [intros _; right; reflexivity | reflexivity].
  - destruct (Z.to_nat limit) as [ | m] eqn:Hm.
    + cbn [firstn map no_vacia]. split; [ | intros H; lia].
      split; [intros _; left; lia | reflexivity].
    + cbn [firstn map no_vacia]. split; [ | reflexivity].
      split.
      * intros H. destruct (join_lineas_normas_guion n (map linea_norma (firstn m normas)))
          as [cola Hc]. rewrite Hc in H. discriminate H.
      * intros [H | H]; [lia | discriminate H].
Qed.

Lemma dicts_de_todos (l : list json) :
  Forall (fun i => exists d, i = JDict d) l -> map JDict (dicts_de l) = l.
Proof.
  induction 1 as [ | i l [d ->] _ IH]; [reflexivity | ].
  unfold dicts_de in *. cbn [flat_map app map]. rewrite IH. reflexivity.
Qed.

(** X7.  [boe_legislacion_buscar] sends "limit" and the dumped query, and
    "from" / "to" only when the date given is not empty.  When the request
    raises it returns the truncated dump of the error object, which carries
    the parameters sent; when the body holds a list of norms (the first
    non-empty list of dicts one of which has "identificador") it returns
    [_format_normas] of that list, every item of which is a dict; when it
    holds none, the truncated dump of the body. *)
Theorem boe_legislacion_buscar_salida (texto from_date to_date : string) (limit : Z) :
  let params := params_legislacion texto from_date to_date limit in
  let url := (BOE_BASE ++ "/legislacion-consolidada")%string in
  (dict_get "limit" params = Some (JInt limit)
   /\ dict_get "query" params = Some (JStr (json_dumps None (consulta_legislacion texto)))
   /\ dict_get "from" params = (if String.eqb from_date "" then None else Some (JStr from_date))
   /\ dict_get "to" params = (if String.eqb to_date "" then None else Some (JStr to_date)))
  /\ (forall tipo mensaje,
         requests_get_params url (Some params) = Excepcion tipo mensaje ->
         boe_legislacion_buscar texto from_date to_date limit
         = Ok (_pretty_truncate
                 (JDict [ ("_error", JStr (tipo ++ ": " ++ mensaje)%string); ("_url", JStr url);
                          ("_params", JDict params) ]) 4000))
  /\ (forall data,
         requests_get_params url (Some params) = Cuerpo data ->
         py_in "_error" data = Ok false ->
         (forall l, _find_list_of_dicts_with_key data "identificador" = Some l ->
                    map JDict (dicts_de l) = l
                    /\ boe_legislacion_buscar texto from_date to_date limit
                       = Ok (_format_normas (dicts_de l) limit))
         /\ (_find_list_of_dicts_with_key data "identificador" = None ->
             boe_legislacion_buscar texto from_date to_date limit
             = Ok (_pretty_truncate data 4000))).
Proof.
  intros params url. split.
  { unfold params, params_legislacion.
    destruct (String.eqb from_date ""), (String.eqb to_date ""); repeat split. }
  split.
  - intros tipo mensaje Hget. unfold boe_legislacion_buscar, _get_json.
    fold url. fold params. rewrite Hget. reflexivity.
  - intros data Hget Herr. split.
    + intros l Hl.
      destruct (find_list_of_dicts_forma data "identificador" l Hl) as [_ [Hne [Hall _]]].
      split; [apply dicts_de_todos; exact Hall | ].
      unfold boe_legislacion_buscar, _get_json. fold url. fold params.
      rewrite Hget, Herr. cbn [res_bind]. rewrite Hl.
      destruct l as [ | i l']; [contradiction Hne; reflexivity | reflexivity].
    + intros Hnone. unfold boe_legislacion_buscar, _get_json. fold url. fold params.
      rewrite Hget, Herr. cbn [res_bind]. rewrite Hnone. reflexivity.
Qed.

(* ================================================================== *)
(** ** Further properties: the answer of the model *)
(* ================================================================== *)

Lemma primer_bloque_texto_cons (item : json) (resto : list json) :
  primer_bloque_texto (item :: resto)
  = if es_bloque_texto item
    then match item with
         | JDict d => Some (get_or "text" (JStr "") d)
         | _ => None
         end
    else primer_bloque_texto resto.
Proof.
  destruct item as [ | | | | | | d]; try reflexivity.
  cbn [primer_bloque_texto es_bloque_texto].
  destruct (get_none "type" d); try reflexivity.
Qed.

Lemma primer_bloque_texto_ninguno (content : list json) :
  Forall (fun i => es_bloque_texto i = false) content -> primer_bloque_texto content = None.
Proof.
  induction 1 as [ | i l Hi _ IH]; [reflexivity | ].
  rewrite primer_bloque_texto_cons, Hi. exact IH.
Qed.

Lemma primer_bloque_texto_primero (pre post : list json) (b : dict json) :
  Forall (fun i => es_bloque_texto i = false) pre ->
  es_bloque_texto (JDict b) = true ->
  primer_bloque_texto (pre ++ JDict b :: post) = Some (get_or "text" (JStr "") b).
Proof.
  intros Hpre Hb. induction Hpre as [ | i l Hi _ IH]; cbn [app].
  - rewrite primer_bloque_texto_cons, Hb. reflexivity.
  - rewrite primer_bloque_texto_cons, Hi. exact IH.
Qed.

(** X8.  [generar_respuesta_con_contexto]: an exception of the model gives
    the error text with its type name and message; a [str] content is
    returned as it is; from a list content the answer is the "text" of the
    first item that is a dict whose "type" is "text" (the empty string when
    that dict has no "text"), items before it that are not such dicts being
    skipped; a list without such an item, or any other content, gives the
    fallback message. *)
Theorem generar_respuesta_primer_bloque (pregunta contexto : string) :
  let respuesta := llm_invoke (system_prompt_de contexto) pregunta in
  (forall tipo mensaje,
      respuesta = Excepcion tipo mensaje ->
      generar_respuesta_con_contexto pregunta contexto
      = JStr ("⚠️ Error: " ++ tipo ++ ": " ++ mensaje)%string)
  /\ (forall s, respuesta = Cuerpo (JStr s) ->
                generar_respuesta_con_contexto pregunta contexto = JStr s)
  /\ (forall pre b post,
         respuesta = Cuerpo (JList (pre ++ JDict b :: post)) ->
         Forall (fun i => es_bloque_texto i = false) pre ->
         es_bloque_texto (JDict b) = true ->
         generar_respuesta_con_contexto pregunta contexto = get_or "text" (JStr "") b)
  /\ (forall content,
         respuesta = Cuerpo (JList content) ->
         Forall (fun i => es_bloque_texto i = false) content ->
         generar_respuesta_con_contexto pregunta contexto
         = JStr "No pude generar una respuesta.")
  /\ (forall c,
         respuesta = Cuerpo c -> es_str c = false ->
         match c with JList _ => False | _ => True end ->
         generar_respuesta_con_contexto pregunta contexto
         = JStr "No pude generar una respuesta.").
Proof.
  intros respuesta. unfold generar_respuesta_con_contexto. fold respuesta.
  split; [intros tipo mensaje ->; reflexivity | ].
  split; [intros s ->; reflexivity | ].
  split.
  { intros pre b post -> Hpre Hb. rewrite (primer_bloque_texto_primero pre post b Hpre Hb).
    reflexivity. }
  split.
  { intros content -> Hnone. rewrite (primer_bloque_texto_ninguno content Hnone). reflexivity. }
  intros c -> Hstr Hlist. destruct c; try reflexivity; [discriminate Hstr | contradiction Hlist].
Qed.

(* ================================================================== *)
(** ** Further properties: extraction and classification in boe_digest.py *)
(* ================================================================== *)

(** X9.  [extraer_documentos] follows the shape of the tree: a scalar gives
    nothing, a list gives the documents of its items in order, a dict gives
    its own document (when it is one) followed by the documents of its
    values in order.  A document found does not stop the descent: every
    qualifying node of the tree, also one nested in another, gives a
    document, and the number of documents is the number of qualifying
    nodes. *)
Theorem extraer_documentos_composicion :
  (forall x, es_dict x = false -> match x with JList _ => False | _ => True end ->
             extraer_documentos x = [])
  /\ (forall l, extraer_documentos (JList l) = flat_map extraer_documentos l)
  /\ (forall d, extraer_documentos (JDict d)
                = (if es_documento d then [documento_de d] else [])
                  ++ flat_map (fun kv => extraer_documentos (snd kv)) d)
  /\ (forall x,
         length (extraer_documentos x)
         = length (filter (fun n => match n with JDict d => es_documento d | _ => false end)
                          (nodos x))).
Proof.
  split.
  { intros x Hd Hl. destruct x; try reflexivity; [contradiction Hl | discriminate Hd]. }
  split.
  { intros l. rewrite extraer_documentos_seleccion, seleccion_lista.
    apply flat_map_ext. intros x. symmetry. apply extraer_documentos_seleccion. }
  split.
  { intros d. rewrite extraer_documentos_seleccion, seleccion_dict. f_equal.
    apply flat_map_ext. intros kv. symmetry. apply extraer_documentos_seleccion. }
  intros x. rewrite extraer_documentos_seleccion. unfold seleccion.
  induction (nodos x) as [ | n l IH]; [reflexivity | ].
  cbn [flat_map filter]. rewrite length_app, IH.
  destruct n as [ | | | | | | d]; try reflexivity. destruct (es_documento d); reflexivity.
Qed.

Lemma dict_get_in {V : Type} (k : string) (v : V) (c : dict V) :
  dict_get k c = Some v -> In (k, v) c.
Proof.
  induction c as [ | [k0 v0] c IH]; simpl; [discriminate | ].
  destruct (String.eqb_spec k0 k) as [-> | Hne].
  - intros [= ->]. left. reflexivity.
  - intros H. right. apply IH. exact H.
Qed.

Lemma dict_get_nodup {V : Type} (k : string) (v : V) (c : dict V) :
  NoDup (dict_keys c) -> In (k, v) c -> dict_get k c = Some v.
Proof.
  induction c as [ | [k0 v0] c IH]; simpl; [intros _ [] | ].
  intros Hnd [Heq | Hin].
  - injection Heq as -> ->. rewrite String.eqb_refl. reflexivity.
  - inversion Hnd as [ | ? ? Hnotin Hnd']; subst.
    destruct (String.eqb_spec k0 k) as [-> | Hne].
    + exfalso. apply Hnotin. apply in_map_iff. exists (k, v). split; [reflexivity | exact Hin].
    + apply IH; assumption.
Qed.

(** The bucket of [k] in the classification is the documents of topic [k]. *)
Lemma cubo_de_cubos (docs : list documento) (filtro : option (list string)) (k : string) :
  cubo_de k (cubos TEMAS_BOE docs filtro) = cubo (temas_activos_de TEMAS_BOE filtro) docs k.
Proof.
  destruct TEMAS_BOE_claves as [Hnd Hotros].
  unfold cubo_de.
  destruct (cubo (temas_activos_de TEMAS_BOE filtro) docs k) as [ | d0 b0] eqn:Hb.
  - destruct (dict_get k (cubos TEMAS_BOE docs filtro)) as [b | ] eqn:Hg; [ | reflexivity].
    apply dict_get_in in Hg. apply in_cubos in Hg. destruct Hg as [_ [Heq Hne]].
    rewrite Hb in Heq. contradiction.
  - assert (Hin : In d0 (cubo (temas_activos_de TEMAS_BOE filtro) docs k))
      by (rewrite Hb; left; reflexivity).
    apply in_cubo in Hin. destruct Hin as [_ Htema].
    rewrite (dict_get_nodup k (d0 :: b0)); [reflexivity | | ].
    + rewrite cubos_claves. apply NoDup_filter. apply claves_con_otros; assumption.
    + apply in_cubos. split; [rewrite <- Htema; apply tema_de_en_claves | ].
      split; [symmetry; exact Hb | discriminate].
Qed.

(** X10.  Classification keeps the input order inside every bucket (a
    bucket is the input list filtered by topic), and classifying [a ++ b]
    gives, for every topic, the bucket of [a] followed by the bucket of
    [b]. *)
Theorem clasificar_por_tema_estable (a b : list documento) (filtro : option (list string))
    (ca cb : clasificacion_t) :
  clasificar_por_tema a filtro = Ok ca ->
  clasificar_por_tema b filtro = Ok cb ->
  exists cab,
    clasificar_por_tema (a ++ b) filtro = Ok cab
    /\ (forall k, cubo_de k cab = cubo_de k ca ++ cubo_de k cb)
    /\ (forall k, cubo_de k ca
                  = filter (fun d => String.eqb (tema_de (temas_activos_de TEMAS_BOE filtro) d) k)
                           a).
Proof.
  intros Ha Hb. apply clasificar_por_tema_ok in Ha. apply clasificar_por_tema_ok in Hb.
  destruct Ha as [Hca ->]. destruct Hb as [Hcb ->].
  exists (cubos TEMAS_BOE (a ++ b) filtro).
  split; [apply clasificar_por_tema_cubos; apply Forall_app; split; assumption | ].
  split.
  - intros k. rewrite !cubo_de_cubos. unfold cubo. apply filter_app.
  - intros k. rewrite cubo_de_cubos. reflexivity.
Qed.

Lemma primer_tema_some (activos : dict (list string)) (texto tema : string) :
  primer_tema activos texto = Some tema ->
  exists kws, In (tema, kws) activos /\ alguna_keyword kws texto = true.
Proof.
  induction activos as [ | [t kws] activos IH]; simpl; [discriminate | ].
  destruct (alguna_keyword kws texto) eqn:Hk.
  - intros [= <-]. exists kws. split; [left; reflexivity | exact Hk].
  - intros H. destruct (IH H) as [kws' [Hin Hk']]. exists kws'. split; [right; exact Hin | exact Hk'].
Qed.

Lemma primer_tema_none (activos : dict (list string)) (texto : string) :
  primer_tema activos texto = None ->
  forall t kws, In (t, kws) activos -> alguna_keyword kws texto = false.
Proof.
  induction activos as [ | [t0 kws0] activos IH]; simpl; [intros _ t kws [] | ].
  destruct (alguna_keyword kws0 texto) eqn:Hk; [discriminate | ].
  intros H t kws [Heq | Hin].
  - injection Heq as <- <-. exact Hk.
  - apply (IH H t kws Hin).
Qed.

Lemma in_temas_activos (tabla : dict (list string)) (filtro : option (list string))
    (t : string) (kws : list string) :
  In (t, kws) (temas_activos_de tabla filtro) ->
  In (t, kws) tabla
  /\ forall f, filtro = Some f -> f <> [] -> In t f.
Proof.
  destruct filtro as [f | ].
  - rewrite temas_activos_de_some. destruct f as [ | f0 fs].
    + cbn [no_vacia]. intros H. split; [exact H | ]. intros f Heq Hne.
      injection Heq as <-. contradiction Hne. reflexivity.
    + cbn [no_vacia]. intros H. apply filter_In in H. destruct H as [Hin Hex].
      split; [exact Hin | ]. intros f [= <-] _.
      apply existsb_exists in Hex. destruct Hex as [t' [Ht' Heq]].
      cbn [fst] in Heq. apply String.eqb_eq in Heq. subst t'. exact Ht'.
  - intros H. split; [exact H | ]. intros f Hf. discriminate Hf.
Qed.

(** X11.  A document is filed under a topic only if a keyword of that topic
    occurs in its text and, when a non-empty filter is given, the topic is
    named in the filter; it is filed under "otros" only if no keyword of any
    active topic occurs in its text. *)
Theorem clasificar_por_tema_correcto (docs : list documento) (filtro : option (list string))
    (c : clasificacion_t) (k : string) (b : list documento) (d : documento) :
  clasificar_por_tema docs filtro = Ok c ->
  In (k, b) c -> In d b ->
  In d docs
  /\ (k <> "otros" ->
      exists kws, In (k, kws) TEMAS_BOE /\ alguna_keyword kws (texto_de d) = true
                  /\ forall f, filtro = Some f -> f <> [] -> In k f)
  /\ (k = "otros" ->
      forall t kws, In (t, kws) (temas_activos_de TEMAS_BOE filtro) ->
                    alguna_keyword kws (texto_de d) = false).
Proof.
  intros Hc Hkb Hd. apply clasificar_por_tema_ok in Hc. destruct Hc as [_ ->].
  apply in_cubos in Hkb. destruct Hkb as [_ [-> _]].
  apply in_cubo in Hd. destruct Hd as [Hin Htema].
  split; [exact Hin | ].
  unfold tema_de in Htema.
  destruct (primer_tema (temas_activos_de TEMAS_BOE filtro) (texto_de d)) as [t | ] eqn:Hp.
  - subst t. split.
    + intros _. destruct (primer_tema_some _ _ _ Hp) as [kws [Hact Hkw]].
      apply in_temas_activos in Hact. destruct Hact as [Htab Hfil].
      exists kws. repeat split; assumption.
    + intros ->. exfalso. apply primer_tema_activo in Hp.
      apply temas_activos_claves in Hp. apply (proj2 TEMAS_BOE_claves). exact Hp.
  - split; [intros Hne; contradiction Hne; symmetry; exact Htema | ].
    intros _. apply primer_tema_none. exact Hp.
Qed.

(* ================================================================== *)
(** ** Further properties: the digest run *)
(* ================================================================== *)

Lemma seleccion_nada {A : Type} (p : dict json -> bool) (f : dict json -> A) (x : json) :
  (forall d, In (JDict d) (nodos x) -> p d = false) -> seleccion p f x = [].
Proof.
  intros H. unfold seleccion. induction (nodos x) as [ | n l IH]; [reflexivity | ].
  cbn [flat_map]. rewrite IH by (intros d Hd; apply H; right; exact Hd).
  destruct n as [ | | | | | | d]; try reflexivity.
  rewrite (H d) by (left; reflexivity). reflexivity.
Qed.

Lemma obtener_sumario_boe_cuerpo (fecha : string) (sumario : json) :
  requests_get (BOE_BASE ++ "/boe/sumario/" ++ fecha)%string = Cuerpo sumario ->
  obtener_sumario_boe fecha = sumario.
Proof. intros H. unfold obtener_sumario_boe. rewrite H. reflexivity. Qed.

(** X12.  A body without the key "error" in which no node is a document
    still gives a digest: zero documents, an empty classification, and an
    HTML made of the header, the total 0 and the footer. *)
Theorem digest_sin_documentos (fecha : string) (filtro : option (list string))
    (sumario : json) (fecha_obj : datetime) :
  requests_get (BOE_BASE ++ "/boe/sumario/" ++ fecha)%string = Cuerpo sumario ->
  py_in "error" sumario = Ok false ->
  strptime fecha "%Y%m%d" = Some fecha_obj ->
  (forall d, In (JDict d) (nodos sumario) -> es_documento d = false) ->
  let html := String.concat ""
                (map texto_fragmento
                   [FCabecera (strftime fecha_obj "%d de %B de %Y"); FContador 0; FPie]) in
  extraer_documentos sumario = []
  /\ generar_digest_completo fecha filtro false None None []
     = ([PObtener fecha; PExtraer; PClasificar; PGenerarHtml],
        Ok (RDigest [ ("fecha", VStr fecha); ("total_documentos", VInt 0);
                      ("clasificacion", VConteo []); ("documentos_por_tema", VClasificacion []);
                      ("html", VStr html) ])).
Proof.
  intros Hget Herr Hfecha Hnone html.
  assert (Hdocs : extraer_documentos sumario = []).
  { rewrite extraer_documentos_seleccion. apply seleccion_nada. exact Hnone. }
  split; [exact Hdocs | ].
  unfold generar_digest_completo, bind, hacer, elevar, ret.
  rewrite (obtener_sumario_boe_cuerpo fecha sumario Hget), Herr, Hdocs.
  rewrite (clasificar_por_tema_cubos [] filtro) by constructor.
  replace (cubos TEMAS_BOE [] filtro) with (@nil (string * list documento)) by reflexivity.
  unfold generar_resumen_html, generar_resumen_fragmentos. rewrite Hfecha. reflexivity.
Qed.

Lemma conteo_suma (c : clasificacion_t) :
  fold_left Z.add (map snd (map (fun kv => (fst kv, len (snd kv))) c)) 0%Z
  = len (concat (dict_values c)).
Proof.
  rewrite map_map. cbn [snd]. rewrite <- total_docs_de_concat.
  unfold total_docs_de, dict_values. rewrite map_map. reflexivity.
Qed.

(** X13.  On every run that reaches the result, the three totals agree:
    "total_documentos" is the sum of the per-topic counts of
    "clasificacion", no count is zero, and the total written in the HTML is
    that same number. *)
Theorem digest_totales_coherentes (fecha : string) (filtro : option (list string))
    (sumario : json) (fecha_obj : datetime) :
  requests_get (BOE_BASE ++ "/boe/sumario/" ++ fecha)%string = Cuerpo sumario ->
  py_in "error" sumario = Ok false ->
  strptime fecha "%Y%m%d" = Some fecha_obj ->
  exists total conteo clasificacion html secciones,
    generar_digest_completo fecha filtro false None None []
    = ([PObtener fecha; PExtraer; PClasificar; PGenerarHtml],
       Ok (RDigest [ ("fecha", VStr fecha); ("total_documentos", VInt total);
                     ("clasificacion", VConteo conteo);
                     ("documentos_por_tema", VClasificacion clasificacion);
                     ("html", VStr html) ]))
    /\ total = len (extraer_documentos sumario)
    /\ total = fold_left Z.add (map snd conteo) 0%Z
    /\ Forall (fun kn => (0 < snd kn)%Z) conteo
    /\ dict_keys conteo = dict_keys clasificacion
    /\ html = String.concat ""
                (map texto_fragmento
                   ([FCabecera (strftime fecha_obj "%d de %B de %Y"); FContador total]
                    ++ concat secciones ++ [FPie])).
Proof.
  intros Hget Herr Hfecha.
  pose proof (extraer_documentos_campos sumario) as Hcampos.
  set (docs := extraer_documentos sumario) in *.
  set (c := cubos TEMAS_BOE docs filtro).
  destruct (generar_resumen_secciones fecha c fecha_obj Hfecha
              (cubos_titulos TEMAS_BOE docs filtro Hcampos)) as [secciones [Hf _]].
  assert (Htotal : len (concat (dict_values c)) = len docs).
  { unfold len. f_equal. apply Permutation_length.
    apply cubos_permutacion; apply TEMAS_BOE_claves. }
  rewrite Htotal in Hf.
  exists (len docs), (map (fun kv => (fst kv, len (snd kv))) c), c.
  eexists. exists secciones.
  split.
  { unfold generar_digest_completo, bind, hacer, elevar, ret.
    rewrite (obtener_sumario_boe_cuerpo fecha sumario Hget), Herr. fold docs.
    rewrite (clasificar_por_tema_cubos docs filtro Hcampos). fold c.
    unfold generar_resumen_html. rewrite Hf. reflexivity. }
  split; [reflexivity | ].
  split; [rewrite conteo_suma; symmetry; exact Htotal | ].
  split.
  { apply Forall_forall. intros [k n] Hin. apply in_map_iff in Hin.
    destruct Hin as [[k' b] [Heq Hin]]. injection Heq as <- <-.
    apply in_cubos in Hin. destruct Hin as [_ [_ Hne]].
    cbn [snd]. unfold len. destruct b; [contradiction Hne; reflexivity | simpl; lia]. }
  split; [unfold dict_keys; rewrite map_map; reflexivity | reflexivity].
Qed.

(** X14.  Unless email is requested, with a non-empty recipient and a
    non-empty configuration, the run is the run without email: no send step
    is performed and the result dict has no "email". *)
Theorem digest_sin_envio (fecha : string) (filtro : option (list string))
    (enviar_por_email : bool) (destinatario : option string)
    (config_email : option (dict json)) :
  enviar_por_email = false \/ destinatario = None \/ destinatario = Some ""
  \/ config_email = None \/ config_email = Some [] ->
  generar_digest_completo fecha filtro enviar_por_email destinatario config_email []
  = generar_digest_completo fecha filtro false None None []
  /\ (forall traza r,
         generar_digest_completo fecha filtro enviar_por_email destinatario config_email []
         = (traza, r) ->
         (forall d a h, ~ In (PEnviarEmail d a h) traza)
         /\ (forall campos, r = Ok (RDigest campos) -> dict_has "email" campos = false)).
Proof.
  intros Hsin.
  assert (Heq : generar_digest_completo fecha filtro enviar_por_email destinatario config_email []
                = generar_digest_completo fecha filtro false None None []).
  { destruct Hsin as [-> | [-> | [-> | [-> | ->]]]]; try reflexivity.
    - destruct enviar_por_email; reflexivity.
    - destruct enviar_por_email; reflexivity.
    - destruct enviar_por_email; [ | reflexivity].
      destruct destinatario as [[ | a s] | ]; reflexivity.
    - destruct enviar_por_email; [ | reflexivity].
      destruct destinatario as [[ | a s] | ]; reflexivity. }
  split; [exact Heq | ]. rewrite Heq. clear Heq Hsin.
  intros traza r. unfold generar_digest_completo, bind, hacer, elevar, ret.
  cbn [app].
  destruct (py_in "error" (obtener_sumario_boe fecha)) as [[ | ] | e].
  - intros [= <- <-]. split; [ | intros campos H; discriminate H].
    intros d a h [H | []]. discriminate H.
  - destruct (clasificar_por_tema (extraer_documentos (obtener_sumario_boe fecha)) filtro)
      as [c | e].
    + destruct (generar_resumen_html fecha c) as [html | e].
      * intros [= <- <-]. split.
        -- intros d a h H. repeat (destruct H as [H | H]; [discriminate H | ]). exact H.
        -- intros campos [= <-]. reflexivity.
      * intros [= <- <-]. split; [ | intros campos H; discriminate H].
        intros d a h H. repeat (destruct H as [H | H]; [discriminate H | ]). exact H.
    + intros [= <- <-]. split; [ | intros campos H; discriminate H].
      intros d a h H. repeat (destruct H as [H | H]; [discriminate H | ]). exact H.
  - intros [= <- <-]. split; [ | intros campos H; discriminate H].
    intros d a h [H | []]. discriminate H.
Qed.

(** X15.  With email requested, credentials present and an SMTP session
    that completes, the result holds the fields of the run without email
    followed by "email", whose value reports success and names the
    recipient, and has no "error". *)
Theorem digest_email_enviado (fecha : string) (filtro : option (list string))
    (dest : string) (config : dict json) (sumario : json) (fecha_obj : datetime)
    (c : config_smtp) :
  requests_get (BOE_BASE ++ "/boe/sumario/" ++ fecha)%string = Cuerpo sumario ->
  py_in "error" sumario = Ok false ->
  strptime fecha "%Y%m%d" = Some fecha_obj ->
  dest <> "" -> config <> [] ->
  ligar_config config config_por_defecto = Ok c ->
  truthy (remitente c) = true -> truthy (password c) = true ->
  let asunto := ("📰 Resumen BOE - " ++ strftime fecha_obj "%d/%m/%Y")%string in
  (forall html,
      smtp_sesion (smtp_server c) (smtp_port c) (remitente c) (password c) dest asunto html
      = None) ->
  exists campos html,
    generar_digest_completo fecha filtro false None None []
    = ([PObtener fecha; PExtraer; PClasificar; PGenerarHtml], Ok (RDigest campos))
    /\ dict_get "html" campos = Some (VStr html)
    /\ generar_digest_completo fecha filtro true (Some dest) (Some config) []
       = ([PObtener fecha; PExtraer; PClasificar; PGenerarHtml; PEnviarEmail dest asunto html],
          Ok (RDigest (campos
                       ++ [("email",
                            VEmail [ ("status", "success");
                                     ("mensaje", ("Email enviado a " ++ dest)%string) ])]))).
Proof.
  intros Hget Herror Hfecha Hdest Hconfig Hligar Hrem Hpass asunto Hsmtp.
  destruct (digest_hasta_html fecha filtro sumario fecha_obj Hget Hfecha)
    as [Hsum [clasificacion [html [Hc Hhtml]]]].
  eexists. exists html. split; [ | split].
  - unfold generar_digest_completo, bind, hacer, elevar, ret.
    rewrite Hsum, Herror, Hc, Hhtml. reflexivity.
  - reflexivity.
  - unfold generar_digest_completo, bind, hacer, elevar, ret.
    rewrite Hsum, Herror, Hc, Hhtml.
    destruct dest as [ | a dest']; [contradiction | ].
    destruct config as [ | kv config']; [contradiction | ].
    rewrite Hfecha, Hligar. cbn [app]. unfold enviar_email_digest.
    rewrite Hrem, Hpass. cbn [negb orb]. fold asunto. rewrite Hsmtp. reflexivity.
Qed.

Lemma ligar_config_claves (config : dict json) :
  forall c,
    (forallb clave_de_config (dict_keys config) = true -> exists c', ligar_config config c = Ok c')
    /\ (forallb clave_de_config (dict_keys config) = false ->
        ligar_config config c = Raise TypeError).
Proof.
  induction config as [ | [k v] config IH]; intros c.
  - split; [intros _; exists c; reflexivity | discriminate].
  - cbn [dict_keys map fst forallb ligar_config]. unfold clave_de_config at 1 3.
    destruct (String.eqb k "smtp_server"); [cbn [orb andb]; apply IH | ].
    destruct (String.eqb k "smtp_port"); [cbn [orb andb]; apply IH | ].
    destruct (String.eqb k "remitente"); [cbn [orb andb]; apply IH | ].
    destruct (String.eqb k "password"); [cbn [orb andb]; apply IH | ].
    cbn [orb andb]. split; [discriminate | reflexivity].
Qed.

(** X16.  [**config_email] binds only the four keyword parameters: with
    email requested, a configuration that has any other key makes the run
    raise [TypeError] after the HTML was generated, with no send step and no
    result; a configuration with accepted keys only always binds. *)
Theorem digest_config_con_clave_ajena (fecha : string) (filtro : option (list string))
    (dest : string) (config : dict json) (sumario : json) (fecha_obj : datetime) :
  requests_get (BOE_BASE ++ "/boe/sumario/" ++ fecha)%string = Cuerpo sumario ->
  py_in "error" sumario = Ok false ->
  strptime fecha "%Y%m%d" = Some fecha_obj ->
  dest <> "" -> config <> [] ->
  (forallb clave_de_config (dict_keys config) = false ->
   generar_digest_completo fecha filtro true (Some dest) (Some config) []
   = ([PObtener fecha; PExtraer; PClasificar; PGenerarHtml], Raise TypeError))
  /\ (forallb clave_de_config (dict_keys config) = true ->
      exists c, ligar_config config config_por_defecto = Ok c).
Proof.
  intros Hget Herror Hfecha Hdest Hconfig.
  destruct (ligar_config_claves config config_por_defecto) as [Hok Hmal].
  split; [ | exact Hok].
  intros Hajena.
  destruct (digest_hasta_html fecha filtro sumario fecha_obj Hget Hfecha)
    as [Hsum [clasificacion [html [Hc Hhtml]]]].
  unfold generar_digest_completo, bind, hacer, elevar, ret.
  rewrite Hsum, Herror, Hc, Hhtml.
  destruct dest as [ | a dest']; [contradiction | ].
  destruct config as [ | kv config']; [contradiction | ].
  rewrite Hfecha, (Hmal Hajena). reflexivity.
Qed.

(** X17.  A body that is neither an object, an array nor a string (null, a
    boolean, a number) makes the test ["error" in sumario] raise
    [TypeError]: the run stops after the fetch, with no result. *)
Theorem digest_cuerpo_no_iterable (fecha : string) (filtro : option (list string))
    (enviar_por_email : bool) (destinatario : option string)
    (config_email : option (dict json)) (sumario : json) :
  requests_get (BOE_BASE ++ "/boe/sumario/" ++ fecha)%string = Cuerpo sumario ->
  es_dict sumario = false -> es_str sumario = false ->
  match sumario with JList _ => False | _ => True end ->
  generar_digest_completo fecha filtro enviar_por_email destinatario config_email []
  = ([PObtener fecha], Raise TypeError).
Proof.
  intros Hget Hd Hs Hl.
  unfold generar_digest_completo, bind, hacer, elevar, ret.
  rewrite (obtener_sumario_boe_cuerpo fecha sumario Hget).
  destruct sumario; try reflexivity;
    [discriminate Hs | contradiction Hl | discriminate Hd].
Qed.

(** X18.  When the summary is fetched for a date string that [strptime]
    rejects, the run raises [ValueError] in the rendering step, after
    extraction and classification, with no result. *)
Theorem digest_fecha_invalida (fecha : string) (filtro : option (list string))
    (enviar_por_email : bool) (destinatario : option string)
    (config_email : option (dict json)) (sumario : json) :
  requests_get (BOE_BASE ++ "/boe/sumario/" ++ fecha)%string = Cuerpo sumario ->
  py_in "error" sumario = Ok false ->
  strptime fecha "%Y%m%d" = None ->
  generar_digest_completo fecha filtro enviar_por_email destinatario config_email []
  = ([PObtener fecha; PExtraer; PClasificar; PGenerarHtml], Raise ValueError).
Proof.
  intros Hget Herror Hfecha.
  unfold generar_digest_completo, bind, hacer, elevar, ret.
  rewrite (obtener_sumario_boe_cuerpo fecha sumario Hget), Herror.
  rewrite (clasificar_por_tema_cubos _ filtro (extraer_documentos_campos sumario)).
  unfold generar_resumen_html, generar_resumen_fragmentos. rewrite Hfecha. reflexivity.
Qed.

Lemma fragmentos_documento_mismos (d d' : documento) :
  mismos_campos_html d d' -> fragmentos_documento d = fragmentos_documento d'.
Proof.
  intros [Ht [Hs [Hd [Hp Hh]]]].
  unfold fragmentos_documento, dict_getitem, get_none, get_or.
  rewrite Ht, Hs, Hd, Hp, Hh. reflexivity.
Qed.

Lemma para_cada_Forall2_eq {A B : Type} (f : A -> res (list B)) (l l' : list A) :
  Forall2 (fun a a' => f a = f a') l l' -> para_cada f l = para_cada f l'.
Proof.
  induction 1 as [ | a a' l l' Ha _ IH]; [reflexivity | ].
  cbn [para_cada]. rewrite Ha, IH. reflexivity.
Qed.

Lemma Forall2_firstn {A B : Type} (R : A -> B -> Prop) (n : nat) (l : list A) (l' : list B) :
  Forall2 R l l' -> Forall2 R (firstn n l) (firstn n l').
Proof.
  intros H. revert n. induction H as [ | a b l l' Hab _ IH]; intros [ | n]; simpl;
    constructor; [exact Hab | apply IH].
Qed.

Lemma Forall2_length_eq {A B : Type} (R : A -> B -> Prop) (l : list A) (l' : list B) :
  Forall2 R l l' -> length l = length l'.
Proof. induction 1; simpl; congruence. Qed.

(** X19.  The HTML depends on a document only through its title, section,
    department, PDF link and HTML link: two classifications with the same
    topics, whose documents agree pairwise on those five fields, render to
    the same result.  The "rango" and "url_xml" a document carries never
    reach the HTML. *)
Theorem generar_resumen_html_cinco_campos (fecha : string) (c c' : clasificacion_t) :
  Forall2 (fun kv kv' => fst kv = fst kv' /\ Forall2 mismos_campos_html (snd kv) (snd kv'))
          c c' ->
  generar_resumen_html fecha c = generar_resumen_html fecha c'.
Proof.
  intros H.
  assert (Htemas : para_cada fragmentos_tema c = para_cada fragmentos_tema c').
  { apply para_cada_Forall2_eq.
    induction H as [ | [k docs] [k' docs'] l l' [Hk Hdocs] _ IH]; constructor; [ | exact IH].
    cbn [fst snd] in Hk, Hdocs. subst k'. unfold fragmentos_tema.
    assert (Hlen : len docs = len docs')
      by (unfold len; f_equal; eapply Forall2_length_eq; exact Hdocs).
    replace (no_vacia docs') with (no_vacia docs) by (destruct Hdocs; reflexivity).
    rewrite <- Hlen.
    rewrite (para_cada_Forall2_eq fragmentos_documento (firstn 10 docs) (firstn 10 docs')).
    - reflexivity.
    - apply Forall2_firstn.
      clear Hlen. induction Hdocs as [ | d d' ds ds' Hd _ IHd]; constructor;
        [apply fragmentos_documento_mismos; exact Hd | exact IHd]. }
  assert (Htotal : total_docs_de c = total_docs_de c').
  { clear Htemas. rewrite !total_docs_de_concat. unfold len. f_equal.
    induction H as [ | [k docs] [k' docs'] l l' [_ Hdocs] _ IH]; [reflexivity | ].
    cbn [dict_values map snd concat] in *. rewrite !length_app.
    rewrite (Forall2_length_eq _ _ _ Hdocs). f_equal. exact IH. }
  unfold generar_resumen_html, generar_resumen_fragmentos. rewrite Htemas, Htotal. reflexivity.
Qed.
End Programa.

(* ================================================================== *)
(** ** Concrete runs *)
(* ================================================================== *)

Example str_int_ejemplos : (str_int 12, str_int 0, str_int (-3)) = ("12", "0", "-3").
Proof. reflexivity. Qed.

Example contiene_ejemplos :
  contiene "empleo" "orden de empleo juvenil" = true
  /\ contiene "vivienda" "orden de empleo juvenil" = false
  /\ contiene "" "" = true /\ contiene "xyz" "xy" = false.
Proof. repeat split. Qed.

(** Python: [[1,2,3][:2]], [[1,2,3][:-1]], [[1,2,3][:-5]], [[1,2,3][:7]]. *)
Example slice_hasta_ejemplos :
  slice_hasta 2 [1; 2; 3] = [1; 2] /\ slice_hasta (-1) [1; 2; 3] = [1; 2]
  /\ slice_hasta (-5) [1; 2; 3] = [] /\ slice_hasta 7 [1; 2; 3] = [1; 2; 3].
Proof. repeat split. Qed.

(** A later key with the same lowercase form takes the place of an earlier
    one in [keys_lower]; a URL that is not a [str] is left out of [urls]; an
    empty title falls through to the default. *)
Example extract_sumario_entries_ejemplo :
  _extract_sumario_entries lower_ascii
    (JDict [ ("Titulo", JStr "A"); ("URL_pdf", JStr "u"); ("url_PDF", JInt 3);
             ("x", JDict [("NOMBRE", JStr ""); ("Url", JStr "v")]) ]) 12
  = [ JDict [("titulo", JStr "A"); ("urls", JDict [])];
      JDict [("titulo", JStr "(sin título)"); ("urls", JDict [("url", JStr "v")])] ].
Proof. vm_compute. reflexivity. Qed.

(** The end-to-end scenario of the specification: two documents extracted,
    the first under "empleo", the second under "vivienda". *)
Example escenario_extremo_a_extremo :
  extraer_documentos sumario_ejemplo = [doc_empleo; doc_vivienda]
  /\ clasificar_por_tema lower_ascii repr_escalar [doc_empleo; doc_vivienda] None
     = Ok [("empleo", [doc_empleo]); ("vivienda", [doc_vivienda])]
  /\ (exists fragmentos,
        generar_resumen_fragmentos string strptime_digitos strftime_digitos "20240115"
          [("empleo", [doc_empleo]); ("vivienda", [doc_vivienda])] = Ok fragmentos
        /\ temas_de_fragmentos fragmentos = ["empleo"; "vivienda"]
        /\ contar_documentos fragmentos = 2%Z
        /\ notas_mas fragmentos = []
        /\ In (FContador 2) fragmentos).
Proof.
  split; [vm_compute; reflexivity | ]. split; [vm_compute; reflexivity | ].
  eexists. split; [vm_compute; reflexivity | ].
  repeat split; vm_compute; auto.
Qed.

(* ================================================================== *)
(** ** The theorems at concrete inputs *)
(* ================================================================== *)

Lemma lower_ascii_url (k : string) :
  startswith "url" k = true -> startswith "url" (lower_ascii k) = true.
Proof.
  unfold startswith.
  destruct k as [ | c1 [ | c2 [ | c3 r]]]; cbn [String.prefix lower_ascii]; try discriminate.
  - destruct (ascii_dec "u" c1); discriminate.
  - destruct (ascii_dec "u" c1); [ | discriminate]. destruct (ascii_dec "r" c2); discriminate.
  - destruct (ascii_dec "u" c1) as [<- | ]; [ | discriminate].
    destruct (ascii_dec "r" c2) as [<- | ]; [ | discriminate].
    destruct (ascii_dec "l" c3) as [<- | ]; [ | discriminate].
    intros _. destruct r; reflexivity.
Qed.


Lemma clasificar_por_tema_particion_witness :
  (exists c,
      clasificar_por_tema lower_ascii repr_escalar [doc_empleo; doc_vivienda] None = Ok c
      /\ Permutation (concat (dict_values c)) [doc_empleo; doc_vivienda])
  /\ (exists k,
         In k ["titulo"; "seccion"; "departamento"]
         /\ clasificar_por_tema lower_ascii repr_escalar [doc_empleo; doc_solo_titulo]
              (Some ["empleo"])
            = Raise (KeyError k)).
Proof.
  split.
  - destruct (proj1 (proj2 (clasificar_por_tema_particion lower_ascii repr_escalar))
                [doc_empleo; doc_vivienda] None)
      as [c [Hc [_ [Hperm _]]]].
    + repeat constructor.
    + exists c. split; assumption.
  - destruct (proj2 (proj2 (clasificar_por_tema_particion lower_ascii repr_escalar))
                [doc_empleo; doc_solo_titulo] (Some ["empleo"]))
      as [d [k [_ [Hk [_ Hr]]]]].
    + right. left. reflexivity.
    + exists k. split; assumption.
Defined.

Lemma clasificar_filtro_desconocidos_witness :
  clasificar_por_tema lower_ascii repr_escalar [doc_empleo; doc_vivienda]
    (Some ["vivienda"; "deportes"])
  = clasificar_por_tema lower_ascii repr_escalar [doc_empleo; doc_vivienda] (Some ["vivienda"])
  /\ clasificar_por_tema lower_ascii repr_escalar [doc_empleo; doc_vivienda] (Some ["deportes"])
     = Ok [("otros", [doc_empleo; doc_vivienda])].
Proof.
  split.
  - apply (proj1 (proj2 (clasificar_filtro_desconocidos lower_ascii repr_escalar
                           [doc_empleo; doc_vivienda] ["vivienda"; "deportes"]))).
    discriminate.
  - apply (proj2 (proj2 (clasificar_filtro_desconocidos lower_ascii repr_escalar
                           [doc_empleo; doc_vivienda] ["deportes"]))).
    + discriminate.
    + reflexivity.
    + repeat constructor.
Defined.

Lemma extract_regla_de_coincidencia_witness :
  _extract_sumario_entries lower_ascii sumario_ejemplo 12
  = map (entrada_de lower_ascii) (nodos_devueltos lower_ascii sumario_ejemplo 12)
  /\ length (nodos_devueltos lower_ascii sumario_ejemplo 12) = 2.
Proof.
  split.
  - exact (proj1 (extract_regla_de_coincidencia lower_ascii eq_refl lower_ascii_url
                    sumario_ejemplo 12)).
  - vm_compute. reflexivity.
Defined.

Lemma extract_orden_y_limite_witness :
  (0 <= 1)%Z
  /\ extraer_documentos_sumario sumario_ejemplo 1
     = firstn 1 (seleccion es_documento documento_sumario_de sumario_ejemplo)
  /\ len (_extract_sumario_entries lower_ascii sumario_ejemplo 1) = 1%Z.
Proof.
  assert (H : (0 <= 1)%Z) by lia.
  split; [exact H | ].
  destruct (extract_orden_y_limite lower_ascii sumario_ejemplo 1 H)
    as [_ [_ [Hlen [Hchat _]]]].
  split; [exact Hchat | ].
  apply Hlen. vm_compute. reflexivity.
Defined.

Lemma generar_resumen_html_truncado_witness :
  exists b1 b2,
    generar_resumen_html repr_escalar title_ascii string strptime_digitos strftime_digitos
      "20240115" [("empleo", [doc_empleo]); ("vivienda", once_documentos)]
    = Ok (texto_fragmento repr_escalar title_ascii (FCabecera "15 de January de 2024")
          ++ "<p class=" ++ q ++ "contador" ++ q ++ "><strong>Total de documentos:</strong> "
          ++ "12" ++ "</p>" ++ String.concat "" [b1; b2]
          ++ texto_fragmento repr_escalar title_ascii FPie)%string
    /\ (ocurrencias marca_documento b1 = 1 /\ ocurrencias marca_nota b1 = 0)
    /\ (ocurrencias marca_documento b2 = 10 /\ ocurrencias marca_nota b2 = 1).
Proof.
  destruct (generar_resumen_html_truncado repr_escalar title_ascii string strptime_digitos
              strftime_digitos "20240115"
              [("empleo", [doc_empleo]); ("vivienda", once_documentos)] "20240115")
    as [bloques [Hhtml H2]].
  - reflexivity.
  - repeat constructor.
  - inversion H2 as [ | kv1 b1 l1 l1' [_ [_ H1]] H2']; subst.
    inversion H2' as [ | kv2 b2 l2 l2' [_ [_ Hb2]] H2'']; subst.
    inversion H2''; subst.
    exists b1, b2. split; [exact Hhtml | ].
    destruct (H1 eq_refl) as [Hd1 Hn1]. destruct (Hb2 eq_refl) as [Hd2 Hn2].
    split; split.
    + apply Nat2Z.inj. rewrite Hd1. reflexivity.
    + exact Hn1.
    + apply Nat2Z.inj. rewrite Hd2. reflexivity.
    + exact Hn2.
Defined.


Lemma digest_fallo_de_obtencion_witness :
  generar_digest_completo lower_ascii repr_escalar title_ascii string strptime_digitos
    strftime_digitos red_caida smtp_acepta "20240115" None true (Some "lector@example.org")
    (Some config_ejemplo) []
  = ([PObtener "20240115"],
     Ok (RSumario (JDict [("error", JStr "ConnectionError: sin conexión")]))).
Proof.
  exact (proj1 (digest_fallo_de_obtencion lower_ascii repr_escalar title_ascii string
                  strptime_digitos strftime_digitos red_caida smtp_acepta "20240115" None true
                  (Some "lector@example.org") (Some config_ejemplo)
                  "ConnectionError" "sin conexión" eq_refl)).
Defined.

Lemma digest_cuerpo_con_error_witness :
  generar_digest_completo lower_ascii repr_escalar title_ascii string strptime_digitos
    strftime_digitos red_con_error smtp_acepta "20240115" None false None None []
  = ([PObtener "20240115"],
     Ok (RSumario (JDict [("error", JStr "fecha sin sumario"); ("codigo", JInt 404)]))).
Proof.
  exact (digest_cuerpo_con_error lower_ascii repr_escalar title_ascii string
           strptime_digitos strftime_digitos red_con_error smtp_acepta "20240115" None false
           None None [("error", JStr "fecha sin sumario"); ("codigo", JInt 404)]
           eq_refl eq_refl).
Defined.

Lemma digest_con_fallo_de_email_witness :
  exists clasificacion html email,
    generar_digest_completo lower_ascii repr_escalar title_ascii string strptime_digitos
      strftime_digitos red_ejemplo smtp_rechaza "20240115" None true
      (Some "lector@example.org") (Some config_ejemplo) []
    = ([PObtener "20240115"; PExtraer; PClasificar; PGenerarHtml;
        PEnviarEmail "lector@example.org" "📰 Resumen BOE - 15/01/2024" html],
       Ok (RDigest [ ("fecha", VStr "20240115");
                     ("total_documentos", VInt 2);
                     ("clasificacion",
                      VConteo (map (fun kv => (fst kv, len (snd kv))) clasificacion));
                     ("documentos_por_tema", VClasificacion clasificacion);
                     ("html", VStr html);
                     ("email", VEmail email) ]))
    /\ dict_has "error" email = true.
Proof.
  destruct (digest_con_fallo_de_email lower_ascii repr_escalar title_ascii string
              strptime_digitos strftime_digitos red_ejemplo smtp_rechaza "20240115" None
              "lector@example.org" config_ejemplo sumario_ejemplo "20240115"
              {| smtp_server := JStr "smtp.example.org"; smtp_port := JInt 587;
                 remitente := JStr "boe@example.org"; password := JStr "secreto" |})
    as [clasificacion [html [email [_ [_ [_ [Hrun [_ Herr]]]]]]]].
  - reflexivity.
  - reflexivity.
  - reflexivity.
  - discriminate.
  - discriminate.
  - reflexivity.
  - intros html. reflexivity.
  - exists clasificacion, html, email. split; [exact Hrun | exact Herr].
Defined.


(* ================================================================== *)
(** ** Inputs on which a statement of the specification fails *)
(* ================================================================== *)

(** C1 as stated fails: a document dict without "seccion" makes the
    classifier raise [KeyError], so no classification is returned. *)
Lemma clasificar_por_tema_particion_counterexample :
  clasificar_por_tema lower_ascii repr_escalar [doc_solo_titulo] None
  = Raise (KeyError "seccion")
  /\ ~ (exists c, clasificar_por_tema lower_ascii repr_escalar [doc_solo_titulo] None = Ok c).
Proof.
  split; [vm_compute; reflexivity | ].
  intros [c H]. vm_compute in H. discriminate H.
Qed.

(** C2 as stated fails: with the only name of the filter unknown, the
    document goes to "otros", while without a filter, or with the unknown
    name left out of the filter, it goes to "vivienda". *)
Lemma clasificar_filtro_desconocidos_counterexample :
  clasificar_por_tema lower_ascii repr_escalar [doc_vivienda] (Some ["deportes"])
  = Ok [("otros", [doc_vivienda])]
  /\ clasificar_por_tema lower_ascii repr_escalar [doc_vivienda] None
     = Ok [("vivienda", [doc_vivienda])]
  /\ clasificar_por_tema lower_ascii repr_escalar [doc_vivienda] (Some [])
     = Ok [("vivienda", [doc_vivienda])]
  /\ clasificar_por_tema lower_ascii repr_escalar [doc_vivienda] (Some ["deportes"])
     <> clasificar_por_tema lower_ascii repr_escalar [doc_vivienda] None.
Proof.
  repeat split; try (vm_compute; reflexivity).
  intros H. vm_compute in H. discriminate H.
Qed.

(** C3 as stated fails: with limit 1, the second node of the example
    qualifies and is not returned by [_extract_sumario_entries]; and a node
    with the keys "title" and "url" qualifies and is not returned by
    [extraer_documentos]. *)
Lemma extract_regla_de_coincidencia_counterexample :
  (let segundo := [ ("titulo", JStr "Ley de vivienda social"); ("departamento", JStr "Fomento");
                    ("urlHtml", JStr "http://x/2.html") ] in
   In (JDict segundo) (nodos sumario_ejemplo)
   /\ califica lower_ascii segundo = true
   /\ ~ In segundo (nodos_devueltos lower_ascii sumario_ejemplo 1)
   /\ ~ In (entrada_de lower_ascii segundo)
           (_extract_sumario_entries lower_ascii sumario_ejemplo 1))
  /\ (califica lower_ascii nodo_title_url = true
      /\ extraer_documentos (JDict nodo_title_url) = []).
Proof.
  cbv zeta. repeat split; try (vm_compute; reflexivity).
  - simpl. do 6 right. left. reflexivity.
  - vm_compute. intros [H | []]. discriminate H.
  - vm_compute. intros [H | []]. discriminate H.
Qed.

(** C4 as stated fails for [extraer_documentos_sumario]: a node with the
    keys "title" and "url" qualifies and is not returned whatever the limit;
    and with limit -1 and two documents in the tree it returns one document
    (all but the last), where [_extract_sumario_entries] returns none. *)
Lemma extract_orden_y_limite_counterexample :
  (length (seleccion (califica lower_ascii) (fun d => d) (JDict nodo_title_url)) = 1
   /\ extraer_documentos_sumario (JDict nodo_title_url) 15 = [])
  /\ (length (seleccion es_documento documento_sumario_de sumario_ejemplo) = 2
      /\ length (extraer_documentos_sumario sumario_ejemplo (-1)) = 1
      /\ extraer_documentos_sumario sumario_ejemplo (-1)
         <> firstn (Z.to_nat (-1)) (seleccion es_documento documento_sumario_de sumario_ejemplo)
      /\ _extract_sumario_entries lower_ascii sumario_ejemplo (-1) = []).
Proof.
  repeat split; try (vm_compute; reflexivity).
  intros H. vm_compute in H. discriminate H.
Qed.

(** C5 as stated fails on the returned text: the values are interpolated as
    they are, so a bucket of one document whose title carries markup gives a
    text with two entry tags and the tag of an overflow note.  It also fails
    outside the renderer's domain: a document dict without "titulo" raises
    [KeyError], and a date that [strptime] rejects raises [ValueError]. *)
Lemma generar_resumen_html_truncado_counterexample :
  (len [doc_con_etiquetas] = 1%Z
   /\ exists html,
        generar_resumen_html repr_escalar title_ascii string strptime_digitos
          strftime_digitos "20240115" [("otros", [doc_con_etiquetas])]
        = Ok html
        /\ ocurrencias marca_documento html = 2
        /\ ocurrencias marca_nota html = 1)
  /\ generar_resumen_html repr_escalar title_ascii string strptime_digitos strftime_digitos
       "20240115" [("otros", [doc_sin_titulo])]
     = Raise (KeyError "titulo")
  /\ generar_resumen_html repr_escalar title_ascii string strptime_digitos strftime_digitos
       "2024-01-15" [("vivienda", [doc_vivienda])]
     = Raise ValueError.
Proof.
  split; [split; [reflexivity | ] | split; reflexivity].
  eexists. split; [reflexivity | ]. split; vm_compute; reflexivity.
Qed.

(* ================================================================== *)
(** ** The helpers and tools at concrete inputs *)
(* ================================================================== *)

Lemma find_list_of_dicts_primera_witness :
  _find_list_of_dicts_with_key respuesta_normas "identificador"
  = Some [JDict norma_codigo_civil; JDict norma_sin_titulo]
  /\ In (JList [JDict norma_codigo_civil; JDict norma_sin_titulo]) (nodos respuesta_normas)
  /\ _find_list_of_dicts_with_key sumario_ejemplo "identificador" = None.
Proof.
  split; [reflexivity | split].
  - exact (proj1 (proj1 (proj2 (find_list_of_dicts_primera respuesta_normas "identificador"))
                    _ eq_refl)).
  - apply (proj2 (proj2 (find_list_of_dicts_primera sumario_ejemplo "identificador"))).
    intros l H. cbn in H.
    repeat (destruct H as [H | H]; [try discriminate H; injection H as <-; reflexivity | ]).
    contradiction H.
Defined.

Lemma extraer_normas_nodos_witness :
  (0 <= 1)%Z
  /\ extraer_normas respuesta_normas 1 = [JDict norma_codigo_civil]
  /\ len (extraer_normas respuesta_normas 5) = 1%Z.
Proof.
  assert (H1 : (0 <= 1)%Z) by lia.
  assert (H5 : (0 <= 5)%Z) by lia.
  split; [exact H1 | split].
  - rewrite (proj1 (proj2 (proj2 (extraer_normas_nodos respuesta_normas 1)) H1)). reflexivity.
  - rewrite (proj2 (proj2 (proj2 (extraer_normas_nodos respuesta_normas 5)) H5)). reflexivity.
Defined.

Lemma pretty_truncate_acotado_witness :
  (0 <= 4)%Z
  /\ _pretty_truncate json_dumps_compacto (JStr "sumario") 4
     = (q ++ "sum" ++ marca_truncado)%string
  /\ _pretty_truncate json_dumps_compacto (JStr "año") 5 = (q ++ "año" ++ q)%string.
Proof.
  assert (H4 : (0 <= 4)%Z) by lia.
  assert (H5 : (0 <= 5)%Z) by lia.
  split; [exact H4 | split].
  - rewrite (proj1 (proj2 (proj2 (pretty_truncate_acotado json_dumps_compacto
                                    (JStr "sumario") 4 H4)) eq_refl)).
    reflexivity.
  - apply (proj1 (proj2 (pretty_truncate_acotado json_dumps_compacto (JStr "año") 5 H5))).
    vm_compute. discriminate.
Defined.

Lemma extract_sumario_entries_forma_witness :
  exists titulo urls,
    JDict [("titulo", JStr "Ley de vivienda social");
           ("urls", JDict [("urlhtml", JStr "http://x/2.html")])]
    = JDict [("titulo", titulo); ("urls", JDict urls)]
    /\ truthy titulo = true
    /\ Forall (fun kv => startswith "url" (fst kv) = true /\ es_str (snd kv) = true) urls.
Proof.
  apply (extract_sumario_entries_forma lower_ascii sumario_ejemplo 12).
  vm_compute. right. left. reflexivity.
Defined.

Lemma boe_sumario_salida_witness :
  boe_sumario lower_ascii repr_escalar json_dumps_compacto red_params_ejemplo "20240115"
  = Ok (join_lineas [ "Sumario BOE 20240115 (top 2 entradas):";
                      "- **Orden de empleo juvenil**";
                      "  - urlpdf: http://x/1.pdf";
                      "- **Ley de vivienda social**";
                      "  - urlhtml: http://x/2.html" ])
  /\ boe_sumario lower_ascii repr_escalar json_dumps_compacto red_params_caida "20240115"
     = Ok (_pretty_truncate json_dumps_compacto
             (JDict [ ("_error", JStr "ConnectionError: sin conexión");
                      ("_url", JStr "https://boe.es/datosabiertos/api/boe/sumario/20240115");
                      ("_params", JDict []) ]) 4000).
Proof.
  split.
  - destruct (proj2 (boe_sumario_salida lower_ascii repr_escalar json_dumps_compacto
                       red_params_ejemplo "20240115") sumario_ejemplo eq_refl) as [_ H].
    destruct (H eq_refl) as [_ [_ Hlineas]].
    rewrite Hlineas; [reflexivity | vm_compute; discriminate].
  - exact (proj1 (boe_sumario_salida lower_ascii repr_escalar json_dumps_compacto
                    red_params_caida "20240115") _ _ eq_refl).
Defined.

Lemma format_normas_limite_witness :
  (0 <= 1)%Z
  /\ len (lineas_normas repr_escalar [norma_codigo_civil; norma_sin_titulo] 1) = 1%Z
  /\ _format_normas repr_escalar [norma_codigo_civil; norma_sin_titulo] 0
     = "No se encontraron normas en la respuesta."
  /\ _format_normas repr_escalar [norma_sin_titulo] 1
     = ("- **(sin título)**  " ++ nl ++ "  id: `BOE-A-2015-11430`   " ++ nl
        ++ "  api: https://boe.es/datosabiertos/api/legislacion-consolidada/id/BOE-A-2015-11430")%string.
Proof.
  assert (H0 : (0 <= 0)%Z) by lia.
  assert (H1 : (0 <= 1)%Z) by lia.
  split; [exact H1 | split; [ | split]].
  - rewrite (proj1 (proj2 (format_normas_limite repr_escalar
                             [norma_codigo_civil; norma_sin_titulo] 1 H1))).
    reflexivity.
  - apply (proj1 (proj2 (proj2 (format_normas_limite repr_escalar
                                  [norma_codigo_civil; norma_sin_titulo] 0 H0)))).
    left. reflexivity.
  - rewrite (proj2 (proj2 (proj2 (format_normas_limite repr_escalar [norma_sin_titulo] 1 H1)))).
    + reflexivity.
    + discriminate.
    + discriminate.
Defined.

Lemma boe_legislacion_buscar_salida_witness :
  boe_legislacion_buscar repr_escalar json_dumps_compacto red_params_normas "código civil"
    "" "20240101" 8
  = Ok (_format_normas repr_escalar [norma_codigo_civil; norma_sin_titulo] 8)
  /\ dict_keys (params_legislacion json_dumps_compacto "código civil" "" "20240101" 8)
     = ["limit"; "query"; "to"]
  /\ boe_legislacion_buscar repr_escalar json_dumps_compacto red_params_ejemplo "código civil"
       "" "" 8
     = Ok (_pretty_truncate json_dumps_compacto sumario_ejemplo 4000).
Proof.
  split; [ | split; [reflexivity | ]].
  - destruct (proj2 (proj2 (boe_legislacion_buscar_salida repr_escalar json_dumps_compacto
                              red_params_normas "código civil" "" "20240101" 8))
                respuesta_normas eq_refl eq_refl) as [H _].
    exact (proj2 (H _ eq_refl)).
  - destruct (proj2 (proj2 (boe_legislacion_buscar_salida repr_escalar json_dumps_compacto
                              red_params_ejemplo "código civil" "" "" 8))
                sumario_ejemplo eq_refl eq_refl) as [_ H].
    exact (H eq_refl).
Defined.

Lemma generar_respuesta_primer_bloque_witness :
  generar_respuesta_con_contexto llm_bloques "¿Qué publica hoy el BOE?" "sin contexto"
  = JStr "El BOE de hoy".
Proof.
  apply (proj1 (proj2 (proj2 (generar_respuesta_primer_bloque llm_bloques
                                "¿Qué publica hoy el BOE?" "sin contexto")))
           [ JStr "suelto"; JDict [("type", JStr "tool_use"); ("text", JStr "no es texto")] ]
           [("type", JStr "text"); ("text", JStr "El BOE de hoy")]
           [ JDict [("type", JStr "text"); ("text", JStr "segundo bloque")] ]).
  - reflexivity.
  - repeat constructor.
  - reflexivity.
Defined.

Lemma extraer_documentos_composicion_witness :
  extraer_documentos (JInt 7) = []
  /\ length (extraer_documentos sumario_ejemplo) = 2.
Proof.
  destruct extraer_documentos_composicion as [Hescalar [_ [_ Hnodos]]].
  split.
  - apply Hescalar; [reflexivity | exact I].
  - rewrite Hnodos. reflexivity.
Defined.

Lemma clasificar_por_tema_estable_witness :
  exists cab,
    clasificar_por_tema lower_ascii repr_escalar ([doc_empleo; doc_vivienda] ++ [doc_vivienda]) None
    = Ok cab
    /\ cubo_de "vivienda" cab = [doc_vivienda; doc_vivienda]
    /\ cubo_de "empleo" cab = [doc_empleo].
Proof.
  destruct (clasificar_por_tema_estable lower_ascii repr_escalar
              [doc_empleo; doc_vivienda] [doc_vivienda] None
              [("empleo", [doc_empleo]); ("vivienda", [doc_vivienda])]
              [("vivienda", [doc_vivienda])] eq_refl eq_refl) as [cab [Hcab [Hcubos _]]].
  exists cab. split; [exact Hcab | split].
  - rewrite Hcubos. reflexivity.
  - rewrite Hcubos. reflexivity.
Defined.

Lemma clasificar_por_tema_correcto_witness :
  In doc_vivienda [doc_empleo; doc_vivienda]
  /\ exists kws,
       In ("vivienda", kws) TEMAS_BOE
       /\ alguna_keyword kws (texto_de lower_ascii repr_escalar doc_vivienda) = true.
Proof.
  destruct (clasificar_por_tema_correcto lower_ascii repr_escalar
              [doc_empleo; doc_vivienda] None
              [("empleo", [doc_empleo]); ("vivienda", [doc_vivienda])]
              "vivienda" [doc_vivienda] doc_vivienda eq_refl)
    as [Hin [Htema _]].
  - right. left. reflexivity.
  - left. reflexivity.
  - split; [exact Hin | ].
    destruct Htema as [kws [Hk [Hkw _]]]; [discriminate | ].
    exists kws. split; assumption.
Defined.

Lemma digest_sin_documentos_witness :
  generar_digest_completo lower_ascii repr_escalar title_ascii string strptime_digitos
    strftime_digitos red_sin_documentos smtp_acepta "20240115" None false None None []
  = ([PObtener "20240115"; PExtraer; PClasificar; PGenerarHtml],
     Ok (RDigest [ ("fecha", VStr "20240115"); ("total_documentos", VInt 0);
                   ("clasificacion", VConteo []); ("documentos_por_tema", VClasificacion []);
                   ("html",
                    VStr (String.concat ""
                            (map (texto_fragmento repr_escalar title_ascii)
                               [FCabecera "15 de January de 2024"; FContador 0; FPie]))) ])).
Proof.
  refine (proj2 (digest_sin_documentos lower_ascii repr_escalar title_ascii string
                   strptime_digitos strftime_digitos red_sin_documentos smtp_acepta
                   "20240115" None sumario_sin_documentos "20240115"
                   eq_refl eq_refl eq_refl _)).
  intros d H. cbn in H.
  destruct H as [H | [H | [H | []]]]; try discriminate H; injection H as <-; reflexivity.
Defined.

Lemma digest_totales_coherentes_witness :
  exists total conteo,
    total = 2%Z
    /\ total = fold_left Z.add (map snd conteo) 0%Z
    /\ Forall (fun kn : string * Z => (0 < snd kn)%Z) conteo.
Proof.
  destruct (digest_totales_coherentes lower_ascii repr_escalar title_ascii string
              strptime_digitos strftime_digitos red_ejemplo smtp_acepta
              "20240115" None sumario_ejemplo "20240115" eq_refl eq_refl eq_refl)
    as [total [conteo [c [html [secciones [_ [Htotal [Hsuma [Hpos _]]]]]]]]].
  exists total, conteo. split; [ | split; assumption].
  rewrite Htotal. reflexivity.
Defined.

Lemma digest_sin_envio_witness :
  generar_digest_completo lower_ascii repr_escalar title_ascii string strptime_digitos
    strftime_digitos red_ejemplo smtp_rechaza "20240115" None true (Some "")
    (Some config_ejemplo) []
  = generar_digest_completo lower_ascii repr_escalar title_ascii string strptime_digitos
      strftime_digitos red_ejemplo smtp_rechaza "20240115" None false None None [].
Proof.
  apply (digest_sin_envio lower_ascii repr_escalar title_ascii string strptime_digitos
           strftime_digitos red_ejemplo smtp_rechaza "20240115" None true (Some "")
           (Some config_ejemplo)).
  right. right. left. reflexivity.
Defined.

Lemma digest_email_enviado_witness :
  exists campos html,
    generar_digest_completo lower_ascii repr_escalar title_ascii string strptime_digitos
      strftime_digitos red_ejemplo smtp_acepta "20240115" None false None None []
    = ([PObtener "20240115"; PExtraer; PClasificar; PGenerarHtml], Ok (RDigest campos))
    /\ dict_get "html" campos = Some (VStr html)
    /\ generar_digest_completo lower_ascii repr_escalar title_ascii string strptime_digitos
         strftime_digitos red_ejemplo smtp_acepta "20240115" None true
         (Some "ana@example.org") (Some config_ejemplo) []
       = ([PObtener "20240115"; PExtraer; PClasificar; PGenerarHtml;
           PEnviarEmail "ana@example.org" "📰 Resumen BOE - 15/01/2024" html],
          Ok (RDigest (campos
                       ++ [("email",
                            VEmail [ ("status", "success");
                                     ("mensaje", "Email enviado a ana@example.org") ])]))).
Proof.
  refine (digest_email_enviado lower_ascii repr_escalar title_ascii string strptime_digitos
            strftime_digitos red_ejemplo smtp_acepta "20240115" None "ana@example.org"
            config_ejemplo sumario_ejemplo "20240115"
            {| smtp_server := JStr "smtp.example.org"; smtp_port := JInt 587;
               remitente := JStr "boe@example.org"; password := JStr "secreto" |}
            eq_refl eq_refl eq_refl _ _ eq_refl eq_refl eq_refl _).
  - discriminate.
  - discriminate.
  - intros html. reflexivity.
Defined.

Lemma digest_config_con_clave_ajena_witness :
  generar_digest_completo lower_ascii repr_escalar title_ascii string strptime_digitos
    strftime_digitos red_ejemplo smtp_acepta "20240115" None true
    (Some "ana@example.org") (Some config_con_usuario) []
  = ([PObtener "20240115"; PExtraer; PClasificar; PGenerarHtml], Raise TypeError).
Proof.
  refine (proj1 (digest_config_con_clave_ajena lower_ascii repr_escalar title_ascii string
                   strptime_digitos strftime_digitos red_ejemplo smtp_acepta "20240115" None
                   "ana@example.org" config_con_usuario sumario_ejemplo "20240115"
                   eq_refl eq_refl eq_refl _ _) eq_refl).
  - discriminate.
  - discriminate.
Defined.

Lemma digest_cuerpo_no_iterable_witness :
  generar_digest_completo lower_ascii repr_escalar title_ascii string strptime_digitos
    strftime_digitos red_nula smtp_acepta "20240115" None false None None []
  = ([PObtener "20240115"], Raise TypeError).
Proof.
  exact (digest_cuerpo_no_iterable lower_ascii repr_escalar title_ascii string
           strptime_digitos strftime_digitos red_nula smtp_acepta "20240115" None false None
           None JNull eq_refl eq_refl eq_refl I).
Defined.

Lemma digest_fecha_invalida_witness :
  generar_digest_completo lower_ascii repr_escalar title_ascii string strptime_digitos
    strftime_digitos red_ejemplo smtp_acepta "2024-01-15" None false None None []
  = ([PObtener "2024-01-15"; PExtraer; PClasificar; PGenerarHtml], Raise ValueError).
Proof.
  exact (digest_fecha_invalida lower_ascii repr_escalar title_ascii string
           strptime_digitos strftime_digitos red_ejemplo smtp_acepta "2024-01-15" None false
           None None sumario_ejemplo eq_refl eq_refl eq_refl).
Defined.

Lemma generar_resumen_html_cinco_campos_witness :
  generar_resumen_html repr_escalar title_ascii string strptime_digitos strftime_digitos
    "20240115" [("vivienda", [doc_vivienda])]
  = generar_resumen_html repr_escalar title_ascii string strptime_digitos strftime_digitos
      "20240115" [("vivienda", [doc_vivienda_cinco_campos])].
Proof.
  apply generar_resumen_html_cinco_campos.
  constructor; [ | constructor].
  split; [reflexivity | ].
  constructor; [ | constructor].
  repeat split.
Defined.
